(** * Lightning PumpFun token creator: the transaction execution engine

    A shallow embedding of [TransactionExecutor] (strategy selection, the
    hybrid race, the direct RPC fallback), of the provider checks of
    [ConfigManager] and of the three provider executors, followed by the
    properties of the execution strategy orchestration. Around the engine,
    the constructor of [ConfigManager], the submission of a Jito bundle, the
    health and cost reports, [PerformanceMonitor] and [createToken] of
    [PumpFunTokenCreator] are embedded too, with their properties.

    Conventions of the embedding.
    - A JavaScript [number] that holds an amount of SOL is a rational, NaN or
      an infinity; rounding of floating point products is not modelled, only
      the sign of a product is ever inspected by the code.
    - An [Error] object is its [message]; any other thrown value is
      [NonError] (the code maps it to ['Unknown error']).
    - The logger is left out. The wall clock ([Date.now], [executionTime])
      is left out of the engine, where the effects a property can observe
      are kept in a trace; it is an input of the performance monitor.
    - Every call of the network and of [@solana/web3.js] is answered by the
      environment: the answers are parameters of the model. *)

From Stdlib Require Import ZArith QArith List String Ascii Bool Lia Sorted.
Import ListNotations.

#[local] Open Scope string_scope.
#[local] Open Scope Z_scope.

(** ** JavaScript values *)

(** A JavaScript number used as an amount. *)
Inductive number : Type :=
| NaN
| NegInf
| Fin (q : Q)
| PosInf.

(** [x > 0] on JavaScript numbers: false on NaN. *)
Definition gt0 (x : number) : bool :=
  match x with
  | NaN | NegInf => false
  | Fin q => negb (Qle_bool q 0)
  | PosInf => true
  end.

(** [x * k] for a positive finite constant [k]. *)
Definition scale (x : number) (k : Q) : number :=
  match x with
  | Fin q => Fin (q * k)
  | other => other
  end.

Definition LAMPORTS_PER_SOL : Q := 1000000000 # 1.

(** A thrown value. *)
Inductive JsError : Type :=
| ErrorObj (message : string)
| NonError.

(** [error instanceof Error ? error.message : 'Unknown error'] *)
Definition errorMessage (error : JsError) : string :=
  match error with
  | ErrorObj message => message
  | NonError => "Unknown error"
  end.

(** [s || d] on an optional string: [undefined] and [''] are falsy. *)
Definition orString (s : option string) (d : string) : string :=
  match s with
  | None => d
  | Some EmptyString => d
  | Some v => v
  end.

(** [String.prototype.toLowerCase] on ASCII letters. *)
Definition lowerAscii (c : ascii) : ascii :=
  let n := nat_of_ascii c in
  if (Nat.leb 65 n && Nat.leb n 90)%bool then ascii_of_nat (n + 32) else c.

Fixpoint toLowerCase (s : string) : string :=
  match s with
  | EmptyString => EmptyString
  | String c rest => String (lowerAscii c) (toLowerCase rest)
  end.

(** ** utils/types.ts *)

Inductive ExecutionStrategy : Type :=
| JITO_ONLY
| BLOXROUTE_ONLY
| NOZOMI_ONLY
| HYBRID
| FALLBACK
| AUTO.

Definition MAX_RETRY_ATTEMPTS : Z := 3.

(** [executionTime], a reading of the wall clock, is left out. *)
Record ExecutionResult : Type := mkResult {
  success : bool;
  signature : option string;
  error : option string;
  strategy : option ExecutionStrategy;
  retryCount : option Z;
  provider : option string
}.

(** [maxRetries] is produced by [parseInt]: an integer, or NaN ([None]).
    Here and below, the fields that the modelled methods do not read
    (timeouts, endpoints, validator lists) are left out. *)
Record ExecutorConfig : Type := {
  useJito : bool;
  useBloxRoute : bool;
  useNozomi : bool;
  jitoTipAmount : number;
  bloxRouteFee : number;
  nozomiTipAmount : number;
  maxRetries : option Z
}.

Module JitoConfig.
Record t : Type := { tipAmount : number }.
End JitoConfig.

Module BloxRouteConfig.
Record t : Type := { authHeader : string; fee : number }.
End BloxRouteConfig.

Module NozomiConfig.
Record t : Type := { apiKey : string; tipAmount : number }.
End NozomiConfig.

(** ** utils/config.ts: ConfigManager *)

(** The wallet is its public key. *)
Record ConfigManager : Type := {
  executorConfig : ExecutorConfig;
  jitoConfig : JitoConfig.t;
  bloxRouteConfig : BloxRouteConfig.t;
  nozomiConfig : NozomiConfig.t;
  wallet : string
}.

(** [s !== ''] *)
Definition nonEmpty (s : string) : bool :=
  match s with
  | EmptyString => false
  | String _ _ => true
  end.

Definition isJitoEnabled (config : ConfigManager) : bool :=
  useJito (executorConfig config) && gt0 (JitoConfig.tipAmount (jitoConfig config)).

Definition isBloxRouteEnabled (config : ConfigManager) : bool :=
  useBloxRoute (executorConfig config)
  && nonEmpty (BloxRouteConfig.authHeader (bloxRouteConfig config))
  && gt0 (BloxRouteConfig.fee (bloxRouteConfig config)).

Definition isNozomiEnabled (config : ConfigManager) : bool :=
  useNozomi (executorConfig config)
  && nonEmpty (NozomiConfig.apiKey (nozomiConfig config))
  && gt0 (NozomiConfig.tipAmount (nozomiConfig config)).

Definition getEnabledProviders (config : ConfigManager) : list string :=
  ((if isJitoEnabled config then ["Jito"] else [])
   ++ (if isBloxRouteEnabled config then ["BloxRoute"] else [])
   ++ (if isNozomiEnabled config then ["Nozomi"] else []))%list.

(** ** core/TransactionExecutor.ts: strategy selection *)

Definition determineOptimalStrategy (config : ConfigManager) : ExecutionStrategy :=
  if (1 <? Z.of_nat (List.length (getEnabledProviders config))) then HYBRID
  else if isJitoEnabled config then JITO_ONLY
  else if isBloxRouteEnabled config then BLOXROUTE_ONLY
  else if isNozomiEnabled config then NOZOMI_ONLY
  else FALLBACK.

(** ** Effects: state, exceptions, promises *)

(** What a computation ends in; as the state of a promise: fulfilled,
    rejected, pending for ever. *)
Inductive res (A : Type) : Type :=
| Ok (a : A)
| Throw (e : JsError)
| Diverge.

Arguments Ok {A} a.
Arguments Throw {A} e.
Arguments Diverge {A}.

(** A computation over a mutable store [S]. *)
Definition M (S A : Type) : Type := S -> res A * S.

Definition ret {S A} (a : A) : M S A := fun s => (Ok a, s).

Definition throw {S A} (e : JsError) : M S A := fun s => (Throw e, s).

Definition diverge {S A} : M S A := fun s => (Diverge, s).

Definition bind {S A B} (m : M S A) (k : A -> M S B) : M S B :=
  fun s =>
    match m s with
    | (Ok a, s') => k a s'
    | (Throw e, s') => (Throw e, s')
    | (Diverge, s') => (Diverge, s')
    end.

(** [try { body } catch (error) { handler }]: the store keeps what the body
    did before it threw. *)
Definition try_catch {S A} (body : M S A) (handler : JsError -> M S A) : M S A :=
  fun s =>
    match body s with
    | (Throw e, s') => handler e s'
    | other => other
    end.

Definition get {S} : M S S := fun s => (Ok s, s).

Definition modify {S} (f : S -> S) : M S unit := fun s => (Ok tt, f s).

Declare Scope js_scope.
Delimit Scope js_scope with js.

Notation "x <- c1 ;; c2" := (bind c1 (fun x => c2))
  (at level 61, c1 at next level, right associativity) : js_scope.
Notation "' pat <- c1 ;; c2" :=
  (bind c1 (fun x => match x with pat => c2 end))
  (at level 61, pat pattern, c1 at next level, right associativity) : js_scope.
Notation "c1 ;; c2" := (bind c1 (fun _ => c2))
  (at level 61, right associativity) : js_scope.

#[local] Open Scope js_scope.

(** An answer of the environment (the network, a library): it always comes. *)
Inductive outcome (A : Type) : Type :=
| Returns (a : A)
| Throws (e : JsError).

Arguments Returns {A} a.
Arguments Throws {A} e.

(** [await] of a call the environment answers. *)
Definition call {S A} (o : outcome A) : M S A :=
  match o with
  | Returns a => ret a
  | Throws e => throw e
  end.

(** A promise with the instant (ms) at which it settles. *)
Record Promise (A : Type) : Type := mkPromise {
  settledAt : Z;
  state : res A
}.

Arguments mkPromise {A} settledAt state.
Arguments settledAt {A} p.
Arguments state {A} p.

(** [await promise] *)
Definition await {S A} (p : Promise A) : M S A := fun s => (state p, s).

(** [promise.then(f)] for a function [f] that does not throw. *)
Definition then_ {A B} (p : Promise A) (f : A -> B) : Promise B :=
  mkPromise (settledAt p)
    match state p with
    | Ok a => Ok (f a)
    | Throw e => Throw e
    | Diverge => Diverge
    end.

(** ** @solana/web3.js: Transaction *)

Inductive Instruction : Type :=
| SystemTransfer (fromPubkey toPubkey : string) (lamports : number)
| ProgramInstruction (data : string).

Record Transaction : Type := mkTransaction {
  recentBlockhash : option string;
  lastValidBlockHeight : option Z;
  feePayer : option string;
  instructions : list Instruction;
  signatures : list string
}.

Definition set_recentBlockhash (v : string) (tx : Transaction) : Transaction :=
  mkTransaction (Some v) (lastValidBlockHeight tx) (feePayer tx) (instructions tx) (signatures tx).

Definition set_lastValidBlockHeight (v : Z) (tx : Transaction) : Transaction :=
  mkTransaction (recentBlockhash tx) (Some v) (feePayer tx) (instructions tx) (signatures tx).

Definition set_feePayer (v : string) (tx : Transaction) : Transaction :=
  mkTransaction (recentBlockhash tx) (lastValidBlockHeight tx) (Some v) (instructions tx)
    (signatures tx).

(** [transaction.add(instruction)] *)
Definition add (i : Instruction) (tx : Transaction) : Transaction :=
  mkTransaction (recentBlockhash tx) (lastValidBlockHeight tx) (feePayer tx)
    (instructions tx ++ [i])%list (signatures tx).

(** A keypair is its public key. *)
Definition Keypair : Type := string.

(** The operations of the library the code calls; they are not part of the
    repository and are parameters of the model.
    - [serialize]: [tx.serialize()];
    - [reparse]: [Transaction.from(tx.serialize({ requireAllSignatures: false }))],
      a new object;
    - [sign]: [tx.sign(...signers)], in place: what the object becomes and
      what is thrown, if anything;
    - [signature58]: [bs58.encode(tx.signature!)]. *)
Record Web3 : Type := {
  serialize : Transaction -> outcome string;
  reparse : Transaction -> outcome Transaction;
  sign : Transaction -> list Keypair -> Transaction * option JsError;
  signature58 : Transaction -> outcome string
}.

(** ** The environment *)

(** [confirmation.value.err], with its two renderings. *)
Record TransactionError : Type := {
  errString : string;
  errJSON : string
}.

(** The answers of [config.connection] to one attempt. *)
Record Rpc : Type := {
  getLatestBlockhash : outcome (string * Z);
  sendRawTransaction : outcome string;
  confirmTransaction : outcome (option TransactionError)
}.

(** [createTipTransaction] builds and signs the tip transaction, a separate
    object; [encodeTipTransaction] is [bs58.encode(tipTransaction.serialize())];
    [submitToJitoEndpoints] never throws and is taken by its result
    [{ success, error }]. *)
Record JitoEnv : Type := {
  jitoRpc : Rpc;
  createTipTransaction : outcome unit;
  encodeTipTransaction : outcome unit;
  submitToJitoEndpoints : bool * option string;
  jitoSettledAt : Z
}.

Record BloxRouteEnv : Type := {
  bloxRouteRpc : Rpc;
  bloxRouteSettledAt : Z
}.

(** [axiosPost] answers with [response.data?.result] and
    [response.data?.error?.message]. *)
Record NozomiEnv : Type := {
  nozomiRpc : Rpc;
  getRandomValidator : string;
  axiosPost : outcome (option string * option string);
  nozomiSettledAt : Z
}.

(** [fallbackRpc n]: the answers to the fallback attempt made after [n]
    failures. *)
Record Env : Type := {
  jitoEnv : JitoEnv;
  bloxRouteEnv : BloxRouteEnv;
  nozomiEnv : NozomiEnv;
  fallbackRpc : nat -> Rpc
}.

Definition failure (message name : string) : ExecutionResult :=
  mkResult false None (Some message) None None (Some name).

Definition succeeded (sig name : string) : ExecutionResult :=
  mkResult true (Some sig) None None None (Some name).

(** [transaction.sign(...signers)] on the object the computation holds. *)
Definition signInPlace (web3 : Web3) (signers : list Keypair) : M Transaction unit :=
  fun tx =>
    match sign web3 tx signers with
    | (tx', None) => (Ok tt, tx')
    | (tx', Some e) => (Throw e, tx')
    end.

(** An [async] method given a transaction object: the object as the method
    leaves it, and the promise it returns. *)
Definition Executor : Type := Transaction -> list Keypair -> Transaction * Promise ExecutionResult.

Definition async {A} (at_ : Z) (body : M Transaction A) (tx : Transaction)
  : Transaction * Promise A :=
  let (r, tx') := body tx in (tx', mkPromise at_ r).

(** [transaction.sign(...signers)] on an object held in a local variable:
    the signed object, or what is thrown. *)
Definition signLocal {S} (web3 : Web3) (tx : Transaction) (signers : list Keypair)
  : M S Transaction :=
  match sign web3 tx signers with
  | (tx', None) => ret tx'
  | (_, Some e) => throw e
  end.

(** ** integrations/JitoExecutor.ts *)

Module JitoExecutor.
Section Methods.
Variables (web3 : Web3) (config : ConfigManager) (env : JitoEnv).

Definition executeTransaction : Executor := fun transaction signers =>
  async (jitoSettledAt env)
    (try_catch
       ('(blockhash, _) <- call (getLatestBlockhash (jitoRpc env)) ;;
        _ <- call (createTipTransaction env) ;;
        modify (set_recentBlockhash blockhash) ;;
        modify (set_feePayer (wallet config)) ;;
        signInPlace web3 signers ;;
        _ <- call (encodeTipTransaction env) ;;
        tx <- get ;;
        _ <- call (serialize web3 tx) ;;
        let bundleResults := submitToJitoEndpoints env in
        if fst bundleResults then
          mainTxSignature <- call (signature58 web3 tx) ;;
          confirmation <- call (confirmTransaction (jitoRpc env)) ;;
          match confirmation with
          | Some err => ret (failure ("Transaction failed: " ++ errString err) "jito")
          | None => ret (succeeded mainTxSignature "jito")
          end
        else
          ret (failure (orString (snd bundleResults) "No Jito validators accepted the bundle")
                 "jito"))
       (fun error => ret (failure ("Jito execution failed: " ++ errorMessage error) "jito")))
    transaction.
End Methods.
End JitoExecutor.

(** ** integrations/BloxRouteExecutor.ts *)

Module BloxRouteExecutor.
Section Methods.
Variables (web3 : Web3) (config : ConfigManager) (env : BloxRouteEnv).

Definition bloxRouteTipWallet : string := "HWEoBxYs7ssKuudEjzjmpfJVX7Dvi7wescFsVx2L5yoY".

Definition executeTransaction : Executor := fun transaction signers =>
  async (bloxRouteSettledAt env)
    (try_catch
       (let bloxRouteConfig := bloxRouteConfig config in
        if negb (nonEmpty (BloxRouteConfig.authHeader bloxRouteConfig)) then
          throw (ErrorObj "BloxRoute auth header not configured")
        else
          '(blockhash, _) <- call (getLatestBlockhash (bloxRouteRpc env)) ;;
          modify (set_recentBlockhash blockhash) ;;
          modify (set_feePayer (wallet config)) ;;
          let tipAmount := scale (BloxRouteConfig.fee bloxRouteConfig) LAMPORTS_PER_SOL in
          (if gt0 tipAmount then
             modify (add (SystemTransfer (wallet config) bloxRouteTipWallet tipAmount))
           else ret tt) ;;
          signInPlace web3 signers ;;
          tx <- get ;;
          _ <- call (serialize web3 tx) ;;
          signature <- call (sendRawTransaction (bloxRouteRpc env)) ;;
          confirmation <- call (confirmTransaction (bloxRouteRpc env)) ;;
          match confirmation with
          | Some err => ret (failure ("Transaction failed: " ++ errString err) "bloxroute")
          | None => ret (succeeded signature "bloxroute")
          end)
       (fun error =>
          ret (failure ("BloxRoute execution failed: " ++ errorMessage error) "bloxroute")))
    transaction.
End Methods.
End BloxRouteExecutor.

(** ** integrations/NozomiExecutor.ts *)

Module NozomiExecutor.
Section Methods.
Variables (web3 : Web3) (config : ConfigManager) (env : NozomiEnv).

Definition executeTransaction : Executor := fun transaction signers =>
  async (nozomiSettledAt env)
    (try_catch
       (let validator := getRandomValidator env in
        let tipAmount := scale (nozomiTipAmount (executorConfig config)) LAMPORTS_PER_SOL in
        tx <- get ;;
        nozomiTx <- call (reparse web3 tx) ;;
        let nozomiTx :=
          if gt0 tipAmount then add (SystemTransfer (wallet config) validator tipAmount) nozomiTx
          else nozomiTx in
        '(blockhash, lastValidBlockHeight) <- call (getLatestBlockhash (nozomiRpc env)) ;;
        let nozomiTx := set_recentBlockhash blockhash nozomiTx in
        let nozomiTx := set_lastValidBlockHeight lastValidBlockHeight nozomiTx in
        let nozomiTx := set_feePayer (wallet config) nozomiTx in
        nozomiTx <- signLocal web3 nozomiTx signers ;;
        _ <- call (serialize web3 nozomiTx) ;;
        let nozomiConfig := nozomiConfig config in
        if negb (nonEmpty (NozomiConfig.apiKey nozomiConfig)) then
          ret (failure "Nozomi API key not configured" "nozomi")
        else
          response <- call (axiosPost env) ;;
          match fst response with
          | Some (String c s) => ret (succeeded (String c s) "nozomi")
          | _ =>
              let error := orString (snd response) "Nozomi submission failed" in
              ret (failure ("Nozomi submission failed: " ++ error) "nozomi")
          end)
       (fun error => ret (failure ("Nozomi execution failed: " ++ errorMessage error) "nozomi")))
    transaction.
End Methods.
End NozomiExecutor.

(** ** core/TransactionExecutor.ts *)

(** What the engine does that an observer can see: a provider executor is
    called, the fallback path is entered, a fallback attempt starts (after
    [retries] failures), a delay of [ms] milliseconds is requested. *)
Inductive Event : Type :=
| EvSubmit (name : string)
| EvFallback
| EvAttempt (retries : Z)
| EvDelay (ms : Z).

(** The store of a call of [executeTransaction]: the transaction object of
    the caller, which every method receives by reference, and the trace. *)
Record Sys : Type := mkSys {
  callerTx : Transaction;
  trace : list Event
}.

Definition emit (e : Event) : M Sys unit :=
  modify (fun s => mkSys (callerTx s) (trace s ++ [e])%list).

(** [{ ...result, provider: name }] *)
Definition withProvider (name : string) (result : ExecutionResult) : ExecutionResult :=
  mkResult (success result) (signature result) (error result) (strategy result)
    (retryCount result) (Some name).

(** [{ ...result, strategy, executionTime }] *)
Definition withStrategy (s : ExecutionStrategy) (result : ExecutionResult) : ExecutionResult :=
  mkResult (success result) (signature result) (error result) (Some s)
    (retryCount result) (provider result).

(** [array[index] = x] on a JavaScript array: the array grows, with holes. *)
Fixpoint arraySet {A} (index : nat) (x : A) (array : list (option A)) : list (option A) :=
  match index, array with
  | O, [] => [Some x]
  | O, _ :: rest => Some x :: rest
  | S i, [] => None :: arraySet i x []
  | S i, y :: rest => y :: arraySet i x rest
  end.

(** *** promiseAny *)

Section PromiseAny.
Context {T : Type}.

(** The executor of [new Promise((resolve, reject) => ...)]: [settled] is
    what the first call of [resolve] or [reject] made of the promise. *)
Record AnyState : Type := mkAny {
  settled : option (Promise T);
  rejectedCount : nat;
  errors : list (option JsError)
}.

Definition resolve (now : Z) (value : T) (st : AnyState) : AnyState :=
  match settled st with
  | Some _ => st
  | None => mkAny (Some (mkPromise now (Ok value))) (rejectedCount st) (errors st)
  end.

Definition reject (now : Z) (e : JsError) (st : AnyState) : AnyState :=
  match settled st with
  | Some _ => st
  | None => mkAny (Some (mkPromise now (Throw e))) (rejectedCount st) (errors st)
  end.

(** The promises with their index, as [forEach] numbers them. *)
Fixpoint indexed (index : nat) (promises : list (Promise T)) : list (nat * Promise T) :=
  match promises with
  | [] => []
  | p :: rest => (index, p) :: indexed (S index) rest
  end.

(** The order in which the handlers run: by instant of settlement, and by
    index among promises that settle at the same instant. *)
Fixpoint insertByTime (e : nat * Promise T) (l : list (nat * Promise T))
  : list (nat * Promise T) :=
  match l with
  | [] => [e]
  | e' :: rest =>
      if settledAt (snd e) <=? settledAt (snd e') then e :: l
      else e' :: insertByTime e rest
  end.

Definition chronological (l : list (nat * Promise T)) : list (nat * Promise T) :=
  fold_right insertByTime [] l.

(** [promise.then(resolve).catch(error => ...)] when [promise] settles; a
    pending promise runs no handler. *)
Definition onSettle (length : nat) (st : AnyState) (e : nat * Promise T) : AnyState :=
  let (index, promise) := e in
  match state promise with
  | Ok value => resolve (settledAt promise) value st
  | Throw error =>
      let st := mkAny (settled st) (S (rejectedCount st)) (arraySet index error (errors st)) in
      if Nat.eqb (rejectedCount st) length then
        reject (settledAt promise) (ErrorObj "All promises rejected") st
      else st
  | Diverge => st
  end.

Definition promiseAny (promises : list (Promise T)) : Promise T :=
  match promises with
  | [] => mkPromise 0 (Throw (ErrorObj "No promises provided"))
  | _ =>
      let st :=
        fold_left (onSettle (List.length promises))
          (chronological (indexed 0 promises)) (mkAny None 0 []) in
      match settled st with
      | Some p => p
      | None => mkPromise 0 Diverge
      end
  end.
End PromiseAny.

Arguments AnyState T : clear implicits.

(** *** The class *)

Module TransactionExecutor.

(** The fields of the object. *)
Record t : Type := {
  config : ConfigManager;
  jitoExecutor : Executor;
  bloxRouteExecutor : Executor;
  nozomiExecutor : Executor
}.

(** [connection n] is [this.config.connection] as the fallback attempt made
    after [n] failures finds it. *)
Section Methods.
Variables (web3 : Web3) (connection : nat -> Rpc) (this : t).

(** [this.cloneTransaction(transaction)] *)
Definition cloneTransaction : M Sys Transaction :=
  s <- get ;;
  call (reparse web3 (callerTx s)).

(** [this.delay(ms)] *)
Definition delay (ms : Z) : M Sys unit := emit (EvDelay ms).

(** [await executor.executeTransaction(transaction, signers)]: the executor
    works on the object of the caller. *)
Definition onOriginal (name : string) (executor : Executor) (signers : list Keypair)
  : M Sys ExecutionResult :=
  emit (EvSubmit name) ;;
  fun s =>
    let (tx', promise) := executor (callerTx s) signers in
    (state promise, mkSys tx' (trace s)).

(** [executor.executeTransaction(this.cloneTransaction(transaction), [...signers])
    .then(result => ({ ...result, provider: name }))] *)
Definition onClone (name : string) (executor : Executor) (signers : list Keypair)
  : M Sys (Promise ExecutionResult) :=
  clone <- cloneTransaction ;;
  emit (EvSubmit name) ;;
  ret (then_ (snd (executor clone signers)) (withProvider name)).

(** One pass through the [try] block of the fallback loop. *)
Definition fallbackAttempt (retries : Z) (signers : list Keypair) : M Sys ExecutionResult :=
  let rpc := connection (Z.to_nat retries) in
  emit (EvAttempt retries) ;;
  '(blockhash, _) <- call (getLatestBlockhash rpc) ;;
  tx <- cloneTransaction ;;
  let tx := set_recentBlockhash blockhash tx in
  let tx := set_feePayer (wallet (config this)) tx in
  tx <- signLocal web3 tx signers ;;
  _ <- call (serialize web3 tx) ;;
  signature <- call (sendRawTransaction rpc) ;;
  confirmation <- call (confirmTransaction rpc) ;;
  match confirmation with
  | Some err => throw (ErrorObj ("Transaction failed: " ++ errJSON err))
  | None => ret (mkResult true (Some signature) None None (Some retries) (Some "fallback"))
  end.

(** [while (retries < maxRetries) { try { ... } catch (error) { ... } }]
    and the [return] after it; [fuel] bounds the number of passes. *)
Fixpoint fallbackLoop (fuel : nat) (maxRetries retries : Z) (signers : list Keypair)
  : M Sys ExecutionResult :=
  if retries <? maxRetries then
    match fuel with
    | O => diverge
    | S fuel' =>
        try_catch (fallbackAttempt retries signers)
          (fun error =>
             let retries := retries + 1 in
             let errorMessage := errorMessage error in
             if retries >=? maxRetries then
               ret (mkResult false None
                      (Some ("Fallback execution failed: " ++ errorMessage))
                      None (Some retries) (Some "fallback"))
             else
               delay (1000 * retries) ;;
               fallbackLoop fuel' maxRetries retries signers)
    end
  else
    ret (mkResult false None (Some "Maximum retry attempts reached")
           None (Some retries) (Some "fallback")).

(** [this.config.executorConfig.maxRetries || MAX_RETRY_ATTEMPTS] *)
Definition effectiveMaxRetries : Z :=
  match maxRetries (executorConfig (config this)) with
  | None => MAX_RETRY_ATTEMPTS
  | Some 0 => MAX_RETRY_ATTEMPTS
  | Some n => n
  end.

Definition executeFallback (signers : list Keypair) : M Sys ExecutionResult :=
  emit EvFallback ;;
  let retries := 0 in
  let maxRetries := effectiveMaxRetries in
  fallbackLoop (Z.to_nat maxRetries) maxRetries retries signers.

Definition executeHybrid (signers : list Keypair) : M Sys ExecutionResult :=
  jito <- (if isJitoEnabled (config this)
           then p <- onClone "jito" (jitoExecutor this) signers ;; ret [p]
           else ret []) ;;
  bloxroute <- (if isBloxRouteEnabled (config this)
                then p <- onClone "bloxroute" (bloxRouteExecutor this) signers ;; ret [p]
                else ret []) ;;
  nozomi <- (if isNozomiEnabled (config this)
             then p <- onClone "nozomi" (nozomiExecutor this) signers ;; ret [p]
             else ret []) ;;
  let executors := (jito ++ bloxroute ++ nozomi)%list in
  if Nat.eqb (List.length executors) 0 then
    throw (ErrorObj "No providers are enabled for hybrid execution")
  else
    try_catch (await (promiseAny executors))
      (fun _ => executeFallback signers).

Definition executeAuto (signers : list Keypair) : M Sys ExecutionResult :=
  let enabledProviders := getEnabledProviders (config this) in
  if Nat.eqb (List.length enabledProviders) 0 then executeFallback signers
  else if Nat.eqb (List.length enabledProviders) 1 then
    let provider := toLowerCase (nth 0 enabledProviders "") in
    if String.eqb provider "jito" then onOriginal "jito" (jitoExecutor this) signers
    else if String.eqb provider "bloxroute" then
      onOriginal "bloxroute" (bloxRouteExecutor this) signers
    else if String.eqb provider "nozomi" then onOriginal "nozomi" (nozomiExecutor this) signers
    else executeFallback signers
  else executeHybrid signers.

Definition executeWithStrategy (signers : list Keypair) (strategy : ExecutionStrategy)
  : M Sys ExecutionResult :=
  match strategy with
  | HYBRID => executeHybrid signers
  | JITO_ONLY =>
      if negb (isJitoEnabled (config this)) then
        throw (ErrorObj "Jito is not enabled or configured")
      else onOriginal "jito" (jitoExecutor this) signers
  | BLOXROUTE_ONLY =>
      if negb (isBloxRouteEnabled (config this)) then
        throw (ErrorObj "BloxRoute is not enabled or configured")
      else onOriginal "bloxroute" (bloxRouteExecutor this) signers
  | NOZOMI_ONLY =>
      if negb (isNozomiEnabled (config this)) then
        throw (ErrorObj "Nozomi is not enabled or configured")
      else onOriginal "nozomi" (nozomiExecutor this) signers
  | FALLBACK => executeFallback signers
  | AUTO => executeAuto signers
  end.

(** An [ExecutorError] is caught as an [Error]: only its message is read. *)
Definition executeTransaction (signers : list Keypair) : M Sys ExecutionResult :=
  let strategy := determineOptimalStrategy (config this) in
  try_catch
    (result <- executeWithStrategy signers strategy ;;
     if success result then ret (withStrategy strategy result)
     else throw (ErrorObj (orString (error result) "Transaction execution failed")))
    (fun error =>
       ret (mkResult false None (Some (errorMessage error)) (Some strategy) None None)).
End Methods.

(** [new TransactionExecutor()]: the three executors are the real ones. *)
Definition new (web3 : Web3) (config : ConfigManager) (env : Env) : t :=
  {| config := config;
     jitoExecutor := JitoExecutor.executeTransaction web3 config (jitoEnv env);
     bloxRouteExecutor := BloxRouteExecutor.executeTransaction web3 config (bloxRouteEnv env);
     nozomiExecutor := NozomiExecutor.executeTransaction web3 config (nozomiEnv env) |}.

(** A call [executor.executeTransaction(transaction, signers)] by a caller
    that holds [transaction]: the result, the object afterwards, the trace. *)
Definition run (web3 : Web3) (config : ConfigManager) (env : Env)
  (transaction : Transaction) (signers : list Keypair) : res ExecutionResult * Sys :=
  executeTransaction web3 (fallbackRpc env) (new web3 config env) signers
    (mkSys transaction []).

End TransactionExecutor.

(** ** Concrete environments, for running the model *)

Module Sim.

(** A plain library: signing records the signers and needs one; a
    transaction is copied through its wire form, which needs a recent
    blockhash and a fee payer and does not carry the block height. *)
Definition web3 : Web3 :=
  {| serialize := fun _ => Returns "raw";
     reparse := fun tx =>
       match recentBlockhash tx, feePayer tx with
       | Some _, Some _ =>
           Returns (mkTransaction (recentBlockhash tx) None (feePayer tx) (instructions tx)
                      (signatures tx))
       | None, _ => Throws (ErrorObj "Transaction recentBlockhash required")
       | Some _, None => Throws (ErrorObj "Transaction fee payer required")
       end;
     sign := fun tx signers =>
       match signers with
       | [] => (tx, Some (ErrorObj "No signers"))
       | _ =>
           (mkTransaction (recentBlockhash tx) (lastValidBlockHeight tx) (feePayer tx)
              (instructions tx) signers, None)
       end;
     signature58 := fun tx =>
       match signatures tx with
       | [] => Throws NonError
       | s :: _ => Returns s
       end |}.

(** The same library when the transaction cannot be serialized for a copy. *)
Definition web3NoCopy : Web3 :=
  {| serialize := serialize web3;
     reparse := fun _ => Throws (ErrorObj "Transaction recentBlockhash required");
     sign := sign web3;
     signature58 := signature58 web3 |}.

Definition rpcOk (sig : string) : Rpc :=
  {| getLatestBlockhash := Returns ("blockhash", 100);
     sendRawTransaction := Returns sig;
     confirmTransaction := Returns None |}.

Definition rpcDown (message : string) : Rpc :=
  {| getLatestBlockhash := Throws (ErrorObj message);
     sendRawTransaction := Throws (ErrorObj message);
     confirmTransaction := Throws (ErrorObj message) |}.

Definition jitoOk (at_ : Z) : JitoEnv :=
  {| jitoRpc := rpcOk "sigJ";
     createTipTransaction := Returns tt;
     encodeTipTransaction := Returns tt;
     submitToJitoEndpoints := (true, None);
     jitoSettledAt := at_ |}.

Definition jitoRefused (at_ : Z) : JitoEnv :=
  {| jitoRpc := rpcOk "sigJ";
     createTipTransaction := Returns tt;
     encodeTipTransaction := Returns tt;
     submitToJitoEndpoints := (false, Some "All Jito endpoints failed. Errors: timeout");
     jitoSettledAt := at_ |}.

Definition bloxRouteOk (at_ : Z) : BloxRouteEnv :=
  {| bloxRouteRpc := rpcOk "sigB"; bloxRouteSettledAt := at_ |}.

Definition bloxRouteDown (at_ : Z) : BloxRouteEnv :=
  {| bloxRouteRpc := rpcDown "socket hang up"; bloxRouteSettledAt := at_ |}.

Definition nozomiOk (at_ : Z) : NozomiEnv :=
  {| nozomiRpc := rpcOk "sigN";
     getRandomValidator := "TEMPaMeCRFAS9EKF53Jd6KpHxgL47uWLcpFArU1Fanq";
     axiosPost := Returns (Some "sigN", None);
     nozomiSettledAt := at_ |}.

Definition nozomiDown (at_ : Z) : NozomiEnv :=
  {| nozomiRpc := rpcOk "sigN";
     getRandomValidator := "TEMPaMeCRFAS9EKF53Jd6KpHxgL47uWLcpFArU1Fanq";
     axiosPost := Throws (ErrorObj "Request failed with status code 503");
     nozomiSettledAt := at_ |}.

Definition sol (n d : Z) : number := Fin (n # Z.to_pos d).

(** A configuration by its three use flags and its retry bound; the
    amounts and credentials are those of the sample environment file. *)
Definition configOf (jito bloxroute nozomi : bool) (retries : option Z) : ConfigManager :=
  {| executorConfig :=
       {| useJito := jito; useBloxRoute := bloxroute; useNozomi := nozomi;
          jitoTipAmount := sol 1 10000; bloxRouteFee := sol 1 1000;
          nozomiTipAmount := sol 1 10000; maxRetries := retries |};
     jitoConfig := {| JitoConfig.tipAmount := sol 1 10000 |};
     bloxRouteConfig :=
       {| BloxRouteConfig.authHeader := "auth"; BloxRouteConfig.fee := sol 1 1000 |};
     nozomiConfig :=
       {| NozomiConfig.apiKey := "key"; NozomiConfig.tipAmount := sol 1 10000 |};
     wallet := "payer" |}.

(** The transaction a caller hands over: one instruction, nothing else set. *)
Definition payload : Transaction :=
  mkTransaction None None None [ProgramInstruction "create"] [].

(** The same transaction when the caller has set the recent blockhash and
    the fee payer, so that it can be copied. *)
Definition prepared : Transaction :=
  mkTransaction (Some "stale") None (Some "payer") [ProgramInstruction "create"] [].

Definition signers : list Keypair := ["payer"; "mint"].

Definition env (jito : JitoEnv) (bloxroute : BloxRouteEnv) (nozomi : NozomiEnv)
  (fallback : nat -> Rpc) : Env :=
  {| jitoEnv := jito; bloxRouteEnv := bloxroute; nozomiEnv := nozomi;
     fallbackRpc := fallback |}.

(** A connection that is down for the first [failures] fallback attempts. *)
Definition flaky (failures : nat) : nat -> Rpc :=
  fun n => if (n <? failures)%nat then rpcDown "rpc down" else rpcOk "sigF".

(** The engine of the repository with every provider answering. *)
Definition engine (config : ConfigManager) : TransactionExecutor.t :=
  TransactionExecutor.new web3 config
    (env (jitoOk 50) (bloxRouteOk 80) (nozomiOk 90) (flaky 0)).

End Sim.

(** ** Reading a trace *)

(** The providers an executor of which was called, in order. *)
Definition submitted (tr : list Event) : list string :=
  flat_map (fun e => match e with EvSubmit name => [name] | _ => [] end) tr.

(** The delays requested, in order. *)
Definition delays (tr : list Event) : list Z :=
  flat_map (fun e => match e with EvDelay ms => [ms] | _ => [] end) tr.

Definition totalDelay (tr : list Event) : Z := fold_right Z.add 0 (delays tr).

(** The number of fallback attempts started. *)
Definition attempts (tr : list Event) : Z :=
  Z.of_nat (List.length (filter (fun e => match e with EvAttempt _ => true | _ => false end) tr)).

(** Whether the fallback path was entered. *)
Definition fallbackEntered (tr : list Event) : bool :=
  existsb (fun e => match e with EvFallback => true | _ => false end) tr.

(** The delay requested right before attempt [n] (counted from 1) starts. *)
Fixpoint delayBefore (n : Z) (tr : list Event) : option Z :=
  match tr with
  | [] => None
  | EvDelay ms :: rest =>
      match rest with
      | EvAttempt k :: _ => if k =? n - 1 then Some ms else delayBefore n rest
      | _ => delayBefore n rest
      end
  | _ :: rest => delayBefore n rest
  end.

(** What [count] fallback attempts leave in the trace when the first of them
    is made after [retries] failures: all but the last are followed by the
    delay that the loop requests. *)
Fixpoint fallbackTrace (retries : Z) (count : nat) : list Event :=
  match count with
  | O => []
  | S O => [EvAttempt retries]
  | S count' =>
      EvAttempt retries :: EvDelay (1000 * (retries + 1)) :: fallbackTrace (retries + 1) count'
  end.

(** [part] occurs in [s]. *)
Fixpoint isSubstring (part s : string) : bool :=
  (String.prefix part s
   || match s with
      | EmptyString => false
      | String _ rest => isSubstring part rest
      end)%bool.


(** ** Strategy selection as the specification words it *)

(** The strategy that runs one provider alone. *)
Definition singleChannel (name : string) : ExecutionStrategy :=
  if String.eqb name "Jito" then JITO_ONLY
  else if String.eqb name "BloxRoute" then BLOXROUTE_ONLY
  else if String.eqb name "Nozomi" then NOZOMI_ONLY
  else FALLBACK.

(** No enabled channel: the direct fallback; exactly one: that channel
    alone; two or more: hybrid. *)
Definition selectStrategy (enabled : list string) : ExecutionStrategy :=
  match enabled with
  | [] => FALLBACK
  | [name] => singleChannel name
  | _ :: _ :: _ => HYBRID
  end.

(** The executor a single channel strategy calls, with the name it is
    called under. *)
Definition executorOf (this : TransactionExecutor.t) (strategy : ExecutionStrategy)
  : option (string * Executor) :=
  match strategy with
  | JITO_ONLY => Some ("jito", TransactionExecutor.jitoExecutor this)
  | BLOXROUTE_ONLY => Some ("bloxroute", TransactionExecutor.bloxRouteExecutor this)
  | NOZOMI_ONLY => Some ("nozomi", TransactionExecutor.nozomiExecutor this)
  | _ => None
  end.

(** A number is strictly positive. *)
Definition positive (x : number) : Prop :=
  match x with
  | Fin q => (0 < q)%Q
  | PosInf => True
  | NaN | NegInf => False
  end.


(** ** The fallback loop, attempt by attempt *)

Section FallbackRuns.
Variables (web3 : Web3) (connection : nat -> Rpc) (this : TransactionExecutor.t).
Variables (transaction : Transaction) (signers : list Keypair).

(** What the attempt made after [retries] failures ends in: a success
    result, or the fault that the loop catches. *)
Definition attemptOutcome (retries : Z) : res ExecutionResult :=
  fst (TransactionExecutor.fallbackAttempt web3 connection this retries signers
         (mkSys transaction [])).

(** The result the loop returns when it dies on the error [error] with
    [retries] failures counted. *)
Definition exhausted (error : JsError) (retries : Z) : ExecutionResult :=
  mkResult false None (Some ("Fallback execution failed: " ++ errorMessage error))
    None (Some retries) (Some "fallback").

(** [LoopRun maxRetries retries count result]: entered with [retries]
    failures counted, the loop makes [count] attempts and returns [result]. *)
Inductive LoopRun (maxRetries : Z) : Z -> nat -> ExecutionResult -> Prop :=
| LoopSkipped retries :
    maxRetries <= retries ->
    LoopRun maxRetries retries 0
      (mkResult false None (Some "Maximum retry attempts reached") None (Some retries)
         (Some "fallback"))
| LoopSucceeded retries result :
    retries < maxRetries ->
    attemptOutcome retries = Ok result ->
    LoopRun maxRetries retries 1 result
| LoopExhausted retries error :
    retries < maxRetries ->
    attemptOutcome retries = Throw error ->
    maxRetries <= retries + 1 ->
    LoopRun maxRetries retries 1 (exhausted error (retries + 1))
| LoopRetried retries error count result :
    retries < maxRetries ->
    attemptOutcome retries = Throw error ->
    retries + 1 < maxRetries ->
    LoopRun maxRetries (retries + 1) (S count) result ->
    LoopRun maxRetries retries (S (S count)) result.
End FallbackRuns.

(** ** The hybrid race, promise by promise *)

Section HybridRace.
Variables (this : TransactionExecutor.t) (clone : Transaction) (signers : list Keypair).

(** The promise pushed for one provider: its executor runs on [clone]. *)
Definition attemptOf (name : string) (executor : Executor) : Promise ExecutionResult :=
  then_ (snd (executor clone signers)) (withProvider name).

(** The array [executors] that [executeHybrid] hands to [promiseAny]. *)
Definition hybridExecutors : list (Promise ExecutionResult) :=
  ((if isJitoEnabled (TransactionExecutor.config this)
    then [attemptOf "jito" (TransactionExecutor.jitoExecutor this)] else [])
   ++ (if isBloxRouteEnabled (TransactionExecutor.config this)
       then [attemptOf "bloxroute" (TransactionExecutor.bloxRouteExecutor this)] else [])
   ++ (if isNozomiEnabled (TransactionExecutor.config this)
       then [attemptOf "nozomi" (TransactionExecutor.nozomiExecutor this)] else []))%list.
End HybridRace.

(** The names under which [executeHybrid] calls the executors. *)
Definition hybridNames (config : ConfigManager) : list string :=
  ((if isJitoEnabled config then ["jito"] else [])
   ++ (if isBloxRouteEnabled config then ["bloxroute"] else [])
   ++ (if isNozomiEnabled config then ["nozomi"] else []))%list.

(** A promise settles no later than every promise of a list. *)
Definition earliest {T} (p : Promise T) (promises : list (Promise T)) : Prop :=
  Forall (fun q => settledAt p <= settledAt q) promises.

(** ** Vocabulary of the properties *)

(** A failure result that names its reason. *)
Definition reasoned (result : ExecutionResult) : Prop :=
  success result = false ->
  exists message, error result = Some message /\ message <> "".

(** An executor whose promise always settles. *)
Definition settles (executor : Executor) : Prop :=
  forall transaction signers, state (snd (executor transaction signers)) <> Diverge.

(** ** integrations/JitoExecutor.ts: the submission of a bundle *)

Module JitoBundle.

(** What [axios.post(endpoint, ...)] ends in: a response with its HTTP
    status, or the [Error] that axios rejects with, taken by its message. *)
Inductive AxiosAnswer : Type :=
| Responded (status : Z)
| Failed (message : string).

Section Methods.
(** The answer of every endpoint to the request that carries the bundle. *)
Variable post : string -> AxiosAnswer.

(** The [catch] on each request returns the error: every request is
    fulfilled, with a response or with an [Error].
    [result.status === 'fulfilled' && !(result.value instanceof Error)
     && result.value.status === 200] *)
Definition accepted (response : AxiosAnswer) : bool :=
  match response with
  | Responded status => status =? 200
  | Failed _ => false
  end.

(** [result.status === 'rejected' || result.value instanceof Error], and
    the message that [map] takes from it. *)
Definition failureOf (response : AxiosAnswer) : list string :=
  match response with
  | Responded _ => []
  | Failed message => [message]
  end.

(** The pair is [{ success, error }]. *)
Definition submitToJitoEndpoints (endpoints : list string) : bool * option string :=
  let responses := map post endpoints in
  let successfulResponses := filter accepted responses in
  if (0 <? List.length successfulResponses)%nat then (true, None)
  else
    let errors := flat_map failureOf responses in
    (false, Some ("All Jito endpoints failed. Errors: " ++ String.concat ", " errors)).
End Methods.
End JitoBundle.

(** ** utils/config.ts: the configuration read from the environment *)

(** [process.env] *)
Definition ProcessEnv : Type := string -> option string.

(** [process.env.NAME === value] *)
Definition strictEq (v : option string) (value : string) : bool :=
  match v with
  | Some s => String.eqb s value
  | None => false
  end.

(** [!process.env[varName]] *)
Definition unset (env : ProcessEnv) (varName : string) : bool :=
  match env varName with
  | None => true
  | Some s => negb (nonEmpty s)
  end.

(** The functions of the language and of the libraries that the
    constructor calls; they are parameters of the model.
    - [keypairFromSecretKey]: [Keypair.fromSecretKey(bs58.decode(privateKey))],
      the public key of the wallet or what is thrown;
    - [newConnection]: [new Connection(rpcEndpoint, options)]. *)
Record Builtins : Type := {
  parseFloat : string -> number;
  parseInt : string -> option Z;
  keypairFromSecretKey : string -> outcome Keypair;
  newConnection : string -> outcome unit
}.

Record NetworkConfig : Type := {
  network : string;
  rpcEndpoint : string;
  wsEndpoint : option string;
  commitment : string
}.

Module ConfigManagerInit.

(** The object: the fields that the provider checks read, and the network
    configuration. The wallet and the connection are objects. *)
Record t : Type := {
  base : ConfigManager;
  networkConfig : NetworkConfig
}.

Definition getDefaultRpcEndpoint (network : string) : string :=
  if String.eqb network "mainnet" then "https://api.mainnet-beta.solana.com"
  else if String.eqb network "testnet" then "https://api.testnet.solana.com"
  else "https://api.devnet.solana.com".

Definition getJitoEndpoints (network : string) : list string :=
  if String.eqb network "devnet" then
    ["https://devnet.block-engine.jito.wtf/api/v1/bundles"]
  else
    ["https://mainnet.block-engine.jito.wtf/api/v1/bundles";
     "https://amsterdam.mainnet.block-engine.jito.wtf/api/v1/bundles";
     "https://ny.mainnet.block-engine.jito.wtf/api/v1/bundles";
     "https://tokyo.mainnet.block-engine.jito.wtf/api/v1/bundles"].

Section Constructor.
Variables (builtins : Builtins) (env : ProcessEnv).

Definition validateRequiredEnvVars : M unit unit :=
  let requiredVars := ["PRIVATE_KEY"] in
  let missingVars := filter (unset env) requiredVars in
  if (0 <? List.length missingVars)%nat then
    throw (ErrorObj ("Missing required environment variables: "
                     ++ String.concat ", " missingVars))
  else ret tt.

Definition initializeNetworkConfig : NetworkConfig :=
  let network := orString (env "NETWORK") "devnet" in
  {| network := network;
     rpcEndpoint := orString (env "RPC_ENDPOINT") (getDefaultRpcEndpoint network);
     wsEndpoint := env "WS_ENDPOINT";
     commitment := orString (env "COMMITMENT") "confirmed" |}.

(** [String(DEFAULT_JITO_TIP)] is ["0.0001"], [String(DEFAULT_BLOXROUTE_FEE)]
    is ["0.001"], [String(DEFAULT_NOZOMI_TIP)] is ["0.0001"] and
    [String(MAX_RETRY_ATTEMPTS)] is ["3"]. *)
Definition initializeExecutorConfig : ExecutorConfig :=
  {| useJito := strictEq (env "USE_JITO") "true";
     useBloxRoute := strictEq (env "USE_BLOXROUTE") "true";
     useNozomi := strictEq (env "USE_NOZOMI") "true";
     jitoTipAmount := parseFloat builtins (orString (env "JITO_TIP_AMOUNT") "0.0001");
     bloxRouteFee := parseFloat builtins (orString (env "BLOXROUTE_FEE") "0.001");
     nozomiTipAmount := parseFloat builtins (orString (env "NOZOMI_TIP_AMOUNT") "0.0001");
     maxRetries := parseInt builtins (orString (env "MAX_RETRY_ATTEMPTS") "3") |}.

Definition initializeJitoConfig (executorConfig : ExecutorConfig) : JitoConfig.t :=
  {| JitoConfig.tipAmount := jitoTipAmount executorConfig |}.

Definition initializeBloxRouteConfig (executorConfig : ExecutorConfig) : BloxRouteConfig.t :=
  {| BloxRouteConfig.authHeader := orString (env "BLOXROUTE_AUTH_HEADER") "";
     BloxRouteConfig.fee := bloxRouteFee executorConfig |}.

Definition initializeNozomiConfig (executorConfig : ExecutorConfig) : NozomiConfig.t :=
  {| NozomiConfig.apiKey := orString (env "NOZOMI_API_KEY") "";
     NozomiConfig.tipAmount := nozomiTipAmount executorConfig |}.

Definition initializeWallet : M unit Keypair :=
  match env "PRIVATE_KEY" with
  | Some (String c s) =>
      try_catch (call (keypairFromSecretKey builtins (String c s)))
        (fun _ =>
           throw (ErrorObj "Invalid PRIVATE_KEY format. Expected base58 encoded private key."))
  | _ => throw (ErrorObj "PRIVATE_KEY environment variable is required")
  end.

Definition initializeConnection (networkConfig : NetworkConfig) : M unit unit :=
  call (newConnection builtins (rpcEndpoint networkConfig)).

(** [new ConfigManager()]: the [catch] of the constructor throws again what
    it caught. *)
Definition new : M unit t :=
  try_catch
    (validateRequiredEnvVars ;;
     let networkConfig := initializeNetworkConfig in
     let executorConfig := initializeExecutorConfig in
     let jitoConfig := initializeJitoConfig executorConfig in
     let bloxRouteConfig := initializeBloxRouteConfig executorConfig in
     let nozomiConfig := initializeNozomiConfig executorConfig in
     wallet <- initializeWallet ;;
     initializeConnection networkConfig ;;
     ret {| base :=
              {| executorConfig := executorConfig;
                 jitoConfig := jitoConfig;
                 bloxRouteConfig := bloxRouteConfig;
                 nozomiConfig := nozomiConfig;
                 wallet := wallet |};
            networkConfig := networkConfig |})
    (fun error => throw error).
End Constructor.

(** [this.wallet] and [this.connection] hold objects, which are truthy. *)
Definition validateConfiguration (this : t) : bool :=
  if negb (nonEmpty (rpcEndpoint (networkConfig this))) then false
  else true.

End ConfigManagerInit.

(** ** core/TransactionExecutor.ts: health and cost *)

Module Health.
Record t : Type := {
  jito : bool;
  bloxroute : bool;
  nozomi : bool;
  fallback : bool
}.

(** [Object.values(executorHealth)] *)
Definition values (h : t) : list bool := [jito h; bloxroute h; nozomi h; fallback h].
End Health.

(** [object[key] = value] on an object used as a record of numbers: the
    keys keep the order of their first assignment. *)
Fixpoint objectSet {A} (key : string) (value : A) (object : list (string * A))
  : list (string * A) :=
  match object with
  | [] => [(key, value)]
  | (k, v) :: rest =>
      if String.eqb k key then (k, value) :: rest
      else (k, v) :: objectSet key value rest
  end.

(** [object[key]] *)
Fixpoint objectGet {A} (key : string) (object : list (string * A)) : option A :=
  match object with
  | [] => None
  | (k, v) :: rest => if String.eqb k key then Some v else objectGet key rest
  end.

Module TransactionExecutorInfo.
Section Methods.
Variable config : ConfigManager.

(** [getRecentBlockhash] is the answer of [this.config.connection]. *)
Definition healthCheck (getRecentBlockhash : outcome unit) : Health.t :=
  let results := {| Health.jito := false; Health.bloxroute := false;
                    Health.nozomi := false; Health.fallback := false |} in
  let results :=
    if isJitoEnabled config then
      {| Health.jito := true; Health.bloxroute := Health.bloxroute results;
         Health.nozomi := Health.nozomi results; Health.fallback := Health.fallback results |}
    else results in
  let results :=
    if isBloxRouteEnabled config then
      {| Health.jito := Health.jito results; Health.bloxroute := true;
         Health.nozomi := Health.nozomi results; Health.fallback := Health.fallback results |}
    else results in
  let results :=
    if isNozomiEnabled config then
      {| Health.jito := Health.jito results; Health.bloxroute := Health.bloxroute results;
         Health.nozomi := true; Health.fallback := Health.fallback results |}
    else results in
  match getRecentBlockhash with
  | Returns _ =>
      {| Health.jito := Health.jito results; Health.bloxroute := Health.bloxroute results;
         Health.nozomi := Health.nozomi results; Health.fallback := true |}
  | Throws _ => results
  end.

(** The amounts are lamports; the transaction is not read. *)
Definition estimateExecutionCost : list (string * number) :=
  let costs := [] in
  let costs :=
    if isJitoEnabled config then objectSet "jito" (Fin (100000 # 1)) costs else costs in
  let costs :=
    if isBloxRouteEnabled config then
      objectSet "bloxroute" (scale (BloxRouteConfig.fee (bloxRouteConfig config)) LAMPORTS_PER_SOL)
        costs
    else costs in
  let costs :=
    if isNozomiEnabled config then
      objectSet "nozomi" (scale (NozomiConfig.tipAmount (nozomiConfig config)) LAMPORTS_PER_SOL)
        costs
    else costs in
  objectSet "rpc" (Fin (5000 # 1)) costs.
End Methods.
End TransactionExecutorInfo.

(** ** core/PumpFunTokenCreator.ts: health *)

Record HealthStatus : Type := {
  system : bool;
  executors : Health.t;
  configuration : bool
}.

Definition getHealthStatus (config : ConfigManagerInit.t) (getRecentBlockhash : outcome unit)
  : HealthStatus :=
  let executorHealth :=
    TransactionExecutorInfo.healthCheck (ConfigManagerInit.base config) getRecentBlockhash in
  let configValid := ConfigManagerInit.validateConfiguration config in
  let systemHealthy := existsb (fun health => health) (Health.values executorHealth) && configValid in
  {| system := systemHealthy; executors := executorHealth; configuration := configValid |}.

(** A success carries a signature, no error, and the name of the channel
    that made it, one of [names]. *)
Definition delivered (names : list string) (result : ExecutionResult) : Prop :=
  success result = true ->
  (exists sig, signature result = Some sig) /\ error result = None
  /\ exists name, provider result = Some name /\ In name names.

(** ** A concrete environment of the process, for running the constructor *)

Module SimConfig.

(** The builtins on the few strings that the sample environment holds. *)
Definition builtins : Builtins :=
  {| parseFloat := fun s =>
       if String.eqb s "0.0001" then Fin (1 # 10000)
       else if String.eqb s "0.001" then Fin (1 # 1000)
       else if String.eqb s "0" then Fin 0
       else NaN;
     parseInt := fun s =>
       if String.eqb s "3" then Some 3
       else if String.eqb s "0" then Some 0
       else None;
     keypairFromSecretKey := fun key =>
       if String.eqb key "not-base58!" then Throws (ErrorObj "Non-base58 character")
       else Returns "payer";
     newConnection := fun _ => Returns tt |}.

(** An environment file that sets the key and turns Jito and BloxRoute on,
    the latter without its credential. *)
Definition processEnv : ProcessEnv := fun name =>
  if String.eqb name "PRIVATE_KEY" then Some "3xampleKey"
  else if String.eqb name "NETWORK" then Some "testnet"
  else if String.eqb name "USE_JITO" then Some "true"
  else if String.eqb name "USE_BLOXROUTE" then Some "true"
  else if String.eqb name "MAX_RETRY_ATTEMPTS" then Some "0"
  else None.

End SimConfig.

(** ** core/PerformanceMonitor.ts *)

(** [Map.prototype.delete] *)
Definition mapDelete {A} (key : string) (map : list (string * A)) : list (string * A) :=
  filter (fun entry => negb (String.eqb (fst entry) key)) map.

(** [array.sort((a, b) => a - b)] on integers. *)
Fixpoint insertSorted (x : Z) (sorted : list Z) : list Z :=
  match sorted with
  | [] => [x]
  | y :: rest => if x <=? y then x :: sorted else y :: insertSorted x rest
  end.

Definition sortAscending (l : list Z) : list Z := fold_right insertSorted [] l.

(** The fields that [createToken] sets. Times are milliseconds, readings of
    [Date.now] and their differences: integers. *)
Module PerformanceMetrics.
Record t : Type := {
  totalExecutionTime : Z;
  transactionBuildTime : Z;
  networkSubmissionTime : Z;
  confirmationTime : Z;
  success : bool;
  signature : option string;
  error : option string;
  provider : option string
}.
End PerformanceMetrics.

(** Quotients are exact rationals: their rounding is not modelled. *)
Module PerformanceStats.
Record t : Type := {
  totalOperations : Z;
  averageDuration : Q;
  minDuration : Z;
  maxDuration : Z;
  successRate : Q;
  p95Duration : Z;
  p99Duration : Z
}.
End PerformanceStats.

Module SessionStatistics.
Record t : Type := {
  totalSessions : Z;
  successfulSessions : Z;
  failedSessions : Z;
  successRate : Q;
  averageExecutionTime : Q;
  lastSessionTime : option Z
}.
End SessionStatistics.

Module PerformanceMonitor.

(** The values that the repository keeps in the metadata of an operation. *)
Inductive MetaValue : Type :=
| MetaBool (b : bool)
| MetaString (s : string)
| MetaUndefined.

Definition Metadata : Type := list (string * MetaValue).

Record OperationMetric : Type := {
  name : string;
  startTime : Z;
  endTime : option Z;
  duration : option Z;
  metadata : option Metadata
}.

(** [{ ...a, ...b }] *)
Definition spread (a b : option Metadata) : Metadata :=
  let entries := fun m : option Metadata => match m with Some l => l | None => [] end in
  fold_left (fun object entry => objectSet (fst entry) (snd entry) object)
    (entries b) (entries a).

(** [operations] is a [Map], in the order of insertion. *)
Record t : Type := {
  operations : list (string * OperationMetric);
  completedOperations : list OperationMetric;
  startTimestamp : Z
}.

(** In every method [now] is the reading of [Date.now()]. *)
Definition new (now : Z) : t :=
  {| operations := []; completedOperations := []; startTimestamp := now |}.

Definition startTracking (now : Z) (operation : string) (metadata : option Metadata)
  (this : t) : t :=
  let metric :=
    {| name := operation; startTime := now; endTime := None; duration := None;
       metadata := metadata |} in
  {| operations := objectSet operation metric (operations this);
     completedOperations := completedOperations this;
     startTimestamp := startTimestamp this |}.

Definition endTracking (now : Z) (operation : string) (metadata' : option Metadata)
  (this : t) : Z * t :=
  match objectGet operation (operations this) with
  | None => (0, this)
  | Some metric =>
      let endTime := now in
      let duration := endTime - startTime metric in
      let completedMetric :=
        {| name := name metric; startTime := startTime metric; endTime := Some endTime;
           duration := Some duration;
           metadata := Some (spread (metadata metric) metadata') |} in
      (duration,
       {| operations := mapDelete operation (operations this);
          completedOperations := (completedOperations this ++ [completedMetric])%list;
          startTimestamp := startTimestamp this |})
  end.

Definition getMetrics (this : t) : list (string * Z) :=
  fold_left
    (fun metrics op =>
       match duration op with
       | Some d => objectSet (name op) d metrics
       | None => metrics
       end)
    (completedOperations this) [].

Definition reset (now : Z) (this : t) : t :=
  {| operations := []; completedOperations := []; startTimestamp := now |}.

(** [now] and [now'] are the two readings of the clock, in order. *)
Definition recordSessionMetrics (now now' : Z) (metrics : PerformanceMetrics.t) (this : t) : t :=
  let entry :=
    {| name := "session_metrics";
       startTime := now - PerformanceMetrics.totalExecutionTime metrics;
       endTime := Some now';
       duration := Some (PerformanceMetrics.totalExecutionTime metrics);
       metadata :=
         Some [("success", MetaBool (PerformanceMetrics.success metrics));
               ("error", match PerformanceMetrics.error metrics with
                         | Some s => MetaString s | None => MetaUndefined end);
               ("signature", match PerformanceMetrics.signature metrics with
                             | Some s => MetaString s | None => MetaUndefined end);
               ("provider", match PerformanceMetrics.provider metrics with
                            | Some s => MetaString s | None => MetaUndefined end)] |} in
  {| operations := operations this;
     completedOperations := (completedOperations this ++ [entry])%list;
     startTimestamp := startTimestamp this |}.

(** [op.name === 'session_metrics'] *)
Definition isSession (op : OperationMetric) : bool := String.eqb (name op) "session_metrics".

(** [op.metadata?.success === true] *)
Definition isSuccessful (op : OperationMetric) : bool :=
  match metadata op with
  | Some m =>
      match objectGet "success" m with
      | Some (MetaBool true) => true
      | _ => false
      end
  | None => false
  end.

(** [op.duration || 0] *)
Definition durationOrZero (op : OperationMetric) : Z :=
  match duration op with
  | Some d => d
  | None => 0
  end.

Definition getSessionStatistics (this : t) : SessionStatistics.t :=
  let sessionOps := filter isSession (completedOperations this) in
  let total := Z.of_nat (List.length sessionOps) in
  let successful := Z.of_nat (List.length (filter isSuccessful sessionOps)) in
  let failed := total - successful in
  let successRate :=
    if 0 <? total then (inject_Z successful / inject_Z total * inject_Z 100)%Q else 0%Q in
  let sum := fold_left (fun sum op => sum + durationOrZero op) sessionOps 0 in
  let avgTime := if 0 <? total then (inject_Z sum / inject_Z total)%Q else 0%Q in
  let lastSession :=
    match rev sessionOps with
    | last :: _ => endTime last
    | [] => None
    end in
  {| SessionStatistics.totalSessions := total;
     SessionStatistics.successfulSessions := successful;
     SessionStatistics.failedSessions := failed;
     SessionStatistics.successRate := successRate;
     SessionStatistics.averageExecutionTime := avgTime;
     SessionStatistics.lastSessionTime := lastSession |}.

(** [x < y] and [x > y] on the rationals. *)
Definition Qltb (x y : Q) : bool := negb (Qle_bool y x).

Definition getSuggestedOptimizations (this : t) : list string :=
  let stats := getSessionStatistics this in
  let suggestions := [] in
  let suggestions :=
    if Qltb (SessionStatistics.successRate stats) (inject_Z 95) then
      (suggestions
       ++ ["Consider using hybrid execution strategy for better reliability"])%list
    else suggestions in
  let suggestions :=
    if Qltb (inject_Z 5000) (SessionStatistics.averageExecutionTime stats) then
      (suggestions
       ++ ["High execution times detected - consider optimizing RPC endpoint"])%list
    else suggestions in
  let suggestions :=
    if Qltb (inject_Z 3000) (SessionStatistics.averageExecutionTime stats) then
      (suggestions
       ++ ["Token creation is slow - consider using Jito bundles for faster execution"])%list
    else suggestions in
  let suggestions :=
    if Qltb (inject_Z (SessionStatistics.successfulSessions stats) * (1 # 10))%Q
         (inject_Z (SessionStatistics.failedSessions stats)) then
      (suggestions
       ++ ["High failure rate - check network conditions and provider configurations"])%list
    else suggestions in
  suggestions.

(** The durations of the completed operations, in order of completion. *)
Definition durationsOf (ops : list OperationMetric) : list Z :=
  flat_map (fun op => match duration op with Some d => [d] | None => [] end) ops.

(** [Math.floor(length * 0.95)] and [Math.floor(length * 0.99)], as the
    floor of the exact product. *)
Definition percentileIndex (length : nat) (percent : Z) : nat :=
  Z.to_nat (Z.of_nat length * percent / 100).

Definition calculateStats (this : t) : PerformanceStats.t :=
  let durations := sortAscending (durationsOf (completedOperations this)) in
  match durations with
  | [] =>
      {| PerformanceStats.totalOperations := 0;
         PerformanceStats.averageDuration := 0%Q;
         PerformanceStats.minDuration := 0;
         PerformanceStats.maxDuration := 0;
         PerformanceStats.successRate := 0%Q;
         PerformanceStats.p95Duration := 0;
         PerformanceStats.p99Duration := 0 |}
  | _ :: _ =>
      let total := fold_left Z.add durations 0 in
      let average := (inject_Z total / inject_Z (Z.of_nat (List.length durations)))%Q in
      let p95Index := percentileIndex (List.length durations) 95 in
      let p99Index := percentileIndex (List.length durations) 99 in
      {| PerformanceStats.totalOperations := Z.of_nat (List.length (completedOperations this));
         PerformanceStats.averageDuration := average;
         PerformanceStats.minDuration := nth 0 durations 0;
         PerformanceStats.maxDuration := nth (List.length durations - 1) durations 0;
         PerformanceStats.successRate := inject_Z 100;
         PerformanceStats.p95Duration := nth p95Index durations 0;
         PerformanceStats.p99Duration := nth p99Index durations 0 |}
  end.

Definition getStats (this : t) : PerformanceStats.t := calculateStats this.

End PerformanceMonitor.

(** ** core/PumpFunTokenCreator.ts *)

(** [ToInt32]: the integer modulo [2^32] in the signed range. *)
Definition toInt32 (z : Z) : Z := (z + 2 ^ 31) mod 2 ^ 32 - 2 ^ 31.

(** [x << n] on 32-bit integers. *)
Definition shiftLeft32 (x n : Z) : Z := toInt32 (Z.shiftl (toInt32 x) n).

(** [x & y] on 32-bit integers. *)
Definition and32 (x y : Z) : Z := toInt32 (Z.land (toInt32 x) (toInt32 y)).

(** The digits of [Number.prototype.toString(36)]. *)
Definition digit36 (d : Z) : ascii :=
  if d <? 10 then ascii_of_nat (Z.to_nat (48 + d)) else ascii_of_nat (Z.to_nat (87 + d)).

(** The digits of a positive integer, the most significant first. *)
Fixpoint digits36 (fuel : nat) (n : Z) (suffix : string) : string :=
  match fuel with
  | O => suffix
  | S fuel' =>
      if n <=? 0 then suffix
      else digits36 fuel' (n / 36) (String (digit36 (n mod 36)) suffix)
  end.

(** [n.toString(36)] for an integer [n] that is not negative. *)
Definition toString36 (n : Z) : string :=
  if n <=? 0 then "0" else digits36 (S (Z.to_nat (Z.log2 n))) n "".

(** The answers of the clock, of the libraries and of the network to one
    call of [createToken]:
    - [timeAt n] is the reading number [n] of [Date.now()];
    - [generate] is the public key of [Keypair.generate()];
    - the three others answer the calls of the same name. *)
Record CreatorEnv : Type := {
  timeAt : nat -> Z;
  generate : Keypair;
  getMinimumBalanceForRentExemptMint : outcome Z;
  getAssociatedTokenAddress : outcome string;
  findProgramAddressSync : outcome string
}.

Module CreateTokenResult.
Record t : Type := {
  success : bool;
  tokenMint : option string;
  signature : option string;
  metrics : PerformanceMetrics.t;
  error : option string
}.
End CreateTokenResult.

Module PumpFunTokenCreator.

(** The store of a call: the monitor of the creator and the number of
    readings of the clock made so far. *)
Record App : Type := mkApp {
  monitor : PerformanceMonitor.t;
  ticks : nat
}.

(** One pass of the loop of [hashMetadata] over a UTF-16 code unit. *)
Definition hashStep (hash char : Z) : Z :=
  let hash := (shiftLeft32 hash 5 - hash) + char in
  and32 hash hash.

(** The loop of [hashMetadata] over the code units of [data]. *)
Definition hashLoop (data : list Z) : Z := fold_left hashStep data 0.

Section Methods.
Variables (web3 : Web3) (connection : nat -> Rpc) (env : CreatorEnv).
Variables (config : ConfigManagerInit.t) (executor : TransactionExecutor.t).

(** [Date.now()] *)
Definition dateNow : M App Z :=
  fun s => (Ok (timeAt env (ticks s)), mkApp (monitor s) (S (ticks s))).

(** [this.monitor.startTracking(operation)] *)
Definition startTracking (operation : string) : M App unit :=
  now <- dateNow ;;
  modify (fun s => mkApp (PerformanceMonitor.startTracking now operation None (monitor s))
                     (ticks s)).

(** [this.monitor.endTracking(operation)]: the clock is read when the
    operation is found. *)
Definition endTracking (operation : string) : M App Z :=
  s <- get ;;
  match objectGet operation (PerformanceMonitor.operations (monitor s)) with
  | None => ret 0
  | Some _ =>
      now <- dateNow ;;
      s <- get ;;
      let ended := PerformanceMonitor.endTracking now operation None (monitor s) in
      modify (fun s => mkApp (snd ended) (ticks s)) ;;
      ret (fst ended)
  end.

(** [this.monitor.recordSessionMetrics(metrics)] *)
Definition recordSessionMetrics (metrics : PerformanceMetrics.t) : M App unit :=
  now <- dateNow ;;
  now' <- dateNow ;;
  modify (fun s => mkApp (PerformanceMonitor.recordSessionMetrics now now' metrics (monitor s))
                     (ticks s)).

(** [this.monitor.getMetrics().transaction_build || 0] *)
Definition transactionBuildTime : M App Z :=
  s <- get ;;
  ret match objectGet "transaction_build" (PerformanceMonitor.getMetrics (monitor s)) with
      | Some d => d
      | None => 0
      end.

Definition hashMetadata (data : list Z) : M App string :=
  let hash := hashLoop data in
  now <- dateNow ;;
  ret (toString36 (Z.abs hash) ++ toString36 now).

(** [data] holds the code units of [JSON.stringify(jsonMetadata)]; an
    [Error] in a template is ['Error: '] and its message. *)
Definition uploadMetadata (data : list Z) : M App string :=
  try_catch
    (metadataHash <- hashMetadata data ;;
     ret ("https://arweave.net/" ++ metadataHash))
    (fun error =>
       throw (ErrorObj ("Metadata upload failed: "
                        ++ match error with
                           | ErrorObj message => "Error: " ++ message
                           | NonError => "Unknown error"
                           end))).

(** The five instructions are taken by their names; the functions of the
    libraries that make them are taken not to throw. *)
Definition buildTokenCreationTransaction (mintKeypair : Keypair) : M App Transaction :=
  let transaction := mkTransaction None None None [] [] in
  _ <- call (getMinimumBalanceForRentExemptMint env) ;;
  let transaction := add (ProgramInstruction "createAccount") transaction in
  let transaction := add (ProgramInstruction "initializeMint") transaction in
  _ <- call (getAssociatedTokenAddress env) ;;
  let transaction := add (ProgramInstruction "createAssociatedTokenAccount") transaction in
  let transaction := add (ProgramInstruction "mintTo") transaction in
  _ <- call (findProgramAddressSync env) ;;
  let transaction := add (ProgramInstruction "createMetadataAccount") transaction in
  ret transaction.

(** [this.executor.executeOptimal(transaction, signers)], an alias of
    [executeTransaction]; the transaction is an object of the call. *)
Definition executeOptimal (transaction : Transaction) (signers : list Keypair)
  : M App ExecutionResult :=
  fun s =>
    (fst (TransactionExecutor.executeTransaction web3 connection executor signers
            (mkSys transaction [])), s).

Definition createToken (data : list Z) : M App CreateTokenResult.t :=
  startTime <- dateNow ;;
  startTracking "total_execution" ;;
  try_catch
    ((if negb (ConfigManagerInit.validateConfiguration config) then
        throw (ErrorObj "Configuration validation failed")
      else ret tt) ;;
     let mintKeypair := generate env in
     startTracking "transaction_build" ;;
     _ <- uploadMetadata data ;;
     transaction <- buildTokenCreationTransaction mintKeypair ;;
     _ <- endTracking "transaction_build" ;;
     startTracking "execution" ;;
     result <- executeOptimal transaction
                 [wallet (ConfigManagerInit.base config); mintKeypair] ;;
     executionTime <- endTracking "execution" ;;
     totalTime <- endTracking "total_execution" ;;
     buildTime <- transactionBuildTime ;;
     let metrics :=
       {| PerformanceMetrics.totalExecutionTime := totalTime;
          PerformanceMetrics.transactionBuildTime := buildTime;
          PerformanceMetrics.networkSubmissionTime := executionTime;
          PerformanceMetrics.confirmationTime := 0;
          PerformanceMetrics.success := success result;
          PerformanceMetrics.signature := signature result;
          PerformanceMetrics.error := error result;
          PerformanceMetrics.provider := provider result |} in
     recordSessionMetrics metrics ;;
     if success result then
       ret {| CreateTokenResult.success := true;
              CreateTokenResult.tokenMint := Some mintKeypair;
              CreateTokenResult.signature := signature result;
              CreateTokenResult.metrics := metrics;
              CreateTokenResult.error := None |}
     else throw (ErrorObj (orString (error result) "Token creation failed")))
    (fun error =>
       now <- dateNow ;;
       let totalTime := now - startTime in
       let errorMessage := errorMessage error in
       buildTime <- transactionBuildTime ;;
       let metrics :=
         {| PerformanceMetrics.totalExecutionTime := totalTime;
            PerformanceMetrics.transactionBuildTime := buildTime;
            PerformanceMetrics.networkSubmissionTime := 0;
            PerformanceMetrics.confirmationTime := 0;
            PerformanceMetrics.success := false;
            PerformanceMetrics.signature := None;
            PerformanceMetrics.error := Some errorMessage;
            PerformanceMetrics.provider := None |} in
       recordSessionMetrics metrics ;;
       ret {| CreateTokenResult.success := false;
              CreateTokenResult.tokenMint := None;
              CreateTokenResult.signature := None;
              CreateTokenResult.metrics := metrics;
              CreateTokenResult.error := Some errorMessage |}).
End Methods.
End PumpFunTokenCreator.

(** The fault that stops [buildTokenCreationTransaction], if any: the
    first among the answers to its three calls. *)
Definition buildFault (env : CreatorEnv) : option JsError :=
  match getMinimumBalanceForRentExemptMint env with
  | Throws e => Some e
  | Returns _ =>
      match getAssociatedTokenAddress env with
      | Throws e => Some e
      | Returns _ =>
          match findProgramAddressSync env with
          | Throws e => Some e
          | Returns _ => None
          end
      end
  end.

(** The transaction that [buildTokenCreationTransaction] returns when
    nothing stops it. *)
Definition tokenCreationTransaction : Transaction :=
  mkTransaction None None None
    [ProgramInstruction "createAccount"; ProgramInstruction "initializeMint";
     ProgramInstruction "createAssociatedTokenAccount"; ProgramInstruction "mintTo";
     ProgramInstruction "createMetadataAccount"] [].

(** ** A concrete call of [createToken], for running the model *)

Module SimCreator.

(** The configuration of the sample environment: Jito alone is enabled. *)
Definition configuration : ConfigManagerInit.t :=
  {| ConfigManagerInit.base := Sim.configOf true false false None;
     ConfigManagerInit.networkConfig :=
       ConfigManagerInit.initializeNetworkConfig SimConfig.processEnv |}.

(** The answers to a call that can build its transaction. *)
Definition creatorEnv : CreatorEnv :=
  {| timeAt := fun n => 1700000000000 + 25 * Z.of_nat n;
     generate := "mint";
     getMinimumBalanceForRentExemptMint := Returns 1461600;
     getAssociatedTokenAddress := Returns "associated";
     findProgramAddressSync := Returns "metadata" |}.

(** A creator that has not been used yet. *)
Definition fresh : PumpFunTokenCreator.App :=
  PumpFunTokenCreator.mkApp (PerformanceMonitor.new 1700000000000) 0.

End SimCreator.

(** ** Tactics *)

(** Unfolding of the operations on computations. *)
Ltac unfold_js :=
  unfold bind, ret, throw, diverge, try_catch, get, modify, call, await, emit,
    signLocal, signInPlace, async in *.

(** Case analysis on the next answer of the environment. *)
Ltac answer :=
  match goal with
  | |- context [getLatestBlockhash ?r] => destruct (getLatestBlockhash r) as [[? ?]|?]
  | |- context [createTipTransaction ?r] => destruct (createTipTransaction r)
  | |- context [encodeTipTransaction ?r] => destruct (encodeTipTransaction r)
  | |- context [reparse ?w ?t] => destruct (reparse w t)
  | |- context [sign ?w ?t ?k] => destruct (sign w t k) as [? [?|]]
  | |- context [serialize ?w ?t] => destruct (serialize w t)
  | |- context [signature58 ?w ?t] => destruct (signature58 w t)
  | |- context [submitToJitoEndpoints ?r] => destruct (submitToJitoEndpoints r) as [[|] ?]
  | |- context [sendRawTransaction ?r] => destruct (sendRawTransaction r)
  | |- context [confirmTransaction ?r] => destruct (confirmTransaction r) as [[?|]|?]
  | |- context [axiosPost ?r] => destruct (axiosPost r) as [[[[|? ?]|] ?]|?]
  | |- context [nonEmpty ?x] => destruct (nonEmpty x)
  | |- context [gt0 ?x] => destruct (gt0 x)
  end; simpl.

(** The result at a leaf of an executor: a failure, or a success with its
    fields. *)
Ltac delivered_leaf :=
  eexists; (split; [reflexivity|]);
  first [ intros Hs; discriminate Hs
        | intros _; repeat split; simpl; eauto ].

(** * Lemmas *)

(** ** Numbers and provider checks *)

Lemma gt0_positive (x : number) : gt0 x = true <-> positive x.
Proof.
  destruct x as [| |q|]; simpl; try (split; intros; easy).
  rewrite negb_true_iff. split.
  - intros H. apply Qnot_le_lt. intros Hle. apply Qle_bool_iff in Hle. congruence.
  - intros H. destruct (Qle_bool q 0) eqn:E; [|reflexivity].
    apply Qle_bool_iff in E. exfalso. exact (Qlt_not_le _ _ H E).
Qed.

Lemma nonEmpty_iff (s : string) : nonEmpty s = true <-> s <> "".
Proof. destruct s; simpl; split; intros; congruence. Qed.

Lemma isJitoEnabled_iff (config : ConfigManager) :
  isJitoEnabled config = true <->
  useJito (executorConfig config) = true
  /\ positive (JitoConfig.tipAmount (jitoConfig config)).
Proof.
  unfold isJitoEnabled. rewrite andb_true_iff, gt0_positive. reflexivity.
Qed.

Lemma isBloxRouteEnabled_iff (config : ConfigManager) :
  isBloxRouteEnabled config = true <->
  useBloxRoute (executorConfig config) = true
  /\ BloxRouteConfig.authHeader (bloxRouteConfig config) <> ""
  /\ positive (BloxRouteConfig.fee (bloxRouteConfig config)).
Proof.
  unfold isBloxRouteEnabled.
  rewrite !andb_true_iff, gt0_positive, nonEmpty_iff. tauto.
Qed.

Lemma isNozomiEnabled_iff (config : ConfigManager) :
  isNozomiEnabled config = true <->
  useNozomi (executorConfig config) = true
  /\ NozomiConfig.apiKey (nozomiConfig config) <> ""
  /\ positive (NozomiConfig.tipAmount (nozomiConfig config)).
Proof.
  unfold isNozomiEnabled.
  rewrite !andb_true_iff, gt0_positive, nonEmpty_iff. tauto.
Qed.

Lemma getEnabledProviders_In (config : ConfigManager) (name : string) :
  In name (getEnabledProviders config) <->
  (name = "Jito" /\ isJitoEnabled config = true)
  \/ (name = "BloxRoute" /\ isBloxRouteEnabled config = true)
  \/ (name = "Nozomi" /\ isNozomiEnabled config = true).
Proof.
  unfold getEnabledProviders.
  destruct (isJitoEnabled config), (isBloxRouteEnabled config), (isNozomiEnabled config);
    simpl; intuition congruence.
Qed.

(** ** Strategy selection *)

Lemma determineOptimalStrategy_selectStrategy (config : ConfigManager) :
  determineOptimalStrategy config = selectStrategy (getEnabledProviders config).
Proof.
  unfold determineOptimalStrategy, getEnabledProviders.
  destruct (isJitoEnabled config), (isBloxRouteEnabled config), (isNozomiEnabled config);
    reflexivity.
Qed.

(** ** The fallback path *)

Section FallbackFacts.
Variables (web3 : Web3) (connection : nat -> Rpc) (this : TransactionExecutor.t).
Variable signers : list Keypair.

#[local] Abbreviation fallbackAttempt :=
  (TransactionExecutor.fallbackAttempt web3 connection this).
#[local] Abbreviation fallbackLoop :=
  (TransactionExecutor.fallbackLoop web3 connection this).
#[local] Abbreviation executeFallback :=
  (TransactionExecutor.executeFallback web3 connection this).

(** An attempt leaves the transaction of the caller alone, records itself
    in the trace, and ends in a result or in a fault. *)
Lemma fallbackAttempt_run (retries : Z) (s : Sys) :
  fallbackAttempt retries signers s =
  (attemptOutcome web3 connection this (callerTx s) signers retries,
   mkSys (callerTx s) (trace s ++ [EvAttempt retries])).
Proof.
  unfold attemptOutcome, TransactionExecutor.fallbackAttempt,
    TransactionExecutor.cloneTransaction.
  unfold_js. simpl.
  destruct (getLatestBlockhash (connection (Z.to_nat retries))) as [[blockhash h]|e];
    simpl; [|reflexivity].
  destruct (reparse web3 (callerTx s)) as [tx|e]; simpl; [|reflexivity].
  destruct (sign web3 _ signers) as [tx' [e|]]; simpl; [reflexivity|].
  destruct (serialize web3 tx') as [raw|e]; simpl; [|reflexivity].
  destruct (sendRawTransaction _) as [sig|e]; simpl; [|reflexivity].
  destruct (confirmTransaction _) as [[err|]|e]; reflexivity.
Qed.

Lemma attemptOutcome_settles (transaction : Transaction) (retries : Z) :
  attemptOutcome web3 connection this transaction signers retries <> Diverge.
Proof.
  unfold attemptOutcome, TransactionExecutor.fallbackAttempt,
    TransactionExecutor.cloneTransaction.
  unfold_js. simpl.
  destruct (getLatestBlockhash _) as [[blockhash h]|e]; simpl; [|discriminate].
  destruct (reparse web3 transaction) as [tx|e]; simpl; [|discriminate].
  destruct (sign web3 _ signers) as [tx' [e|]]; simpl; [discriminate|].
  destruct (serialize web3 tx') as [raw|e]; simpl; [|discriminate].
  destruct (sendRawTransaction _) as [sig|e]; simpl; [|discriminate].
  destruct (confirmTransaction _) as [[err|]|e]; discriminate.
Qed.

(** An attempt that returns does so with a success that carries the
    number of failures before it. *)
Lemma attemptOutcome_Ok (transaction : Transaction) (retries : Z) (result : ExecutionResult) :
  attemptOutcome web3 connection this transaction signers retries = Ok result ->
  success result = true /\ retryCount result = Some retries
  /\ provider result = Some "fallback" /\ error result = None.
Proof.
  unfold attemptOutcome, TransactionExecutor.fallbackAttempt,
    TransactionExecutor.cloneTransaction.
  unfold_js. simpl.
  destruct (getLatestBlockhash _) as [[blockhash h]|e]; simpl; [|discriminate].
  destruct (reparse web3 transaction) as [tx|e]; simpl; [|discriminate].
  destruct (sign web3 _ signers) as [tx' [e|]]; simpl; [discriminate|].
  destruct (serialize web3 tx') as [raw|e]; simpl; [|discriminate].
  destruct (sendRawTransaction _) as [sig|e]; simpl; [|discriminate].
  destruct (confirmTransaction _) as [[err|]|e]; simpl; try discriminate.
  intros H. injection H as <-. simpl. auto.
Qed.

(** With fuel for every pass the loop returns, and its run is a [LoopRun]. *)
Lemma fallbackLoop_run (fuel : nat) (maxRetries : Z) :
  forall (retries : Z) (s : Sys),
    maxRetries - retries <= Z.of_nat fuel ->
    exists count result,
      fallbackLoop fuel maxRetries retries signers s =
      (Ok result, mkSys (callerTx s) (trace s ++ fallbackTrace retries count))
      /\ LoopRun web3 connection this (callerTx s) signers maxRetries retries count result.
Proof.
  induction fuel as [|fuel IH]; intros retries s Hfuel.
  - exists 0%nat. eexists. simpl.
    destruct (retries <? maxRetries) eqn:E; [apply Z.ltb_lt in E; lia|].
    apply Z.ltb_ge in E. rewrite app_nil_r. destruct s. split; [reflexivity|].
    now constructor.
  - simpl. destruct (retries <? maxRetries) eqn:E.
    + apply Z.ltb_lt in E.
      unfold try_catch. rewrite fallbackAttempt_run.
      destruct (attemptOutcome web3 connection this (callerTx s) signers retries)
        as [result|error|] eqn:Hattempt.
      * exists 1%nat, result. split; [reflexivity|]. now constructor.
      * destruct (retries + 1 >=? maxRetries) eqn:E'.
        -- apply Z.geb_le in E'. exists 1%nat. eexists. split; [reflexivity|].
           now apply LoopExhausted.
        -- assert (retries + 1 < maxRetries) as Hlt.
           { destruct (Z.geb_spec (retries + 1) maxRetries); [discriminate | lia]. }
           unfold TransactionExecutor.delay, bind, emit, modify. simpl.
           destruct (IH (retries + 1)
                       (mkSys (callerTx s)
                          ((trace s ++ [EvAttempt retries])
                             ++ [EvDelay (1000 * (retries + 1))])%list))
             as (count & result & Hrun & Hloop); [lia|].
           simpl in Hrun, Hloop.
           assert (exists c, count = S c) as [c ->].
           { inversion Hloop; subst; try lia; eauto. }
           exists (S (S c)), result. split.
           ++ rewrite Hrun. f_equal. f_equal.
              rewrite <- !app_assoc. reflexivity.
           ++ eapply LoopRetried; eauto.
      * exfalso. exact (attemptOutcome_settles _ _ Hattempt).
    + apply Z.ltb_ge in E. exists 0%nat. eexists. rewrite app_nil_r.
      destruct s. split; [reflexivity|]. now constructor.
Qed.

(** The fallback path returns a result, leaves the transaction of the
    caller alone, and its trace is that of its attempts. *)
Lemma executeFallback_run (s : Sys) :
  exists count result,
    executeFallback signers s =
    (Ok result,
     mkSys (callerTx s) (trace s ++ EvFallback :: fallbackTrace 0 count))
    /\ LoopRun web3 connection this (callerTx s) signers
         (TransactionExecutor.effectiveMaxRetries this) 0 count result.
Proof.
  unfold TransactionExecutor.executeFallback.
  unfold bind, emit, modify. simpl.
  destruct (fallbackLoop_run (Z.to_nat (TransactionExecutor.effectiveMaxRetries this))
              (TransactionExecutor.effectiveMaxRetries this) 0
              (mkSys (callerTx s) (trace s ++ [EvFallback])))
    as (count & result & Hrun & Hloop); [lia|].
  exists count, result. split; [|exact Hloop].
  rewrite Hrun. simpl.
  rewrite <- app_assoc. reflexivity.
Qed.
End FallbackFacts.

(** ** promiseAny *)

Section PromiseAnyFacts.
Context {T : Type}.
Implicit Types (p q : Promise T) (st : AnyState T) (events : list (nat * Promise T)).

Lemma indexed_In (promises : list (Promise T)) :
  forall index i p, In (i, p) (indexed index promises) -> In p promises.
Proof.
  induction promises as [|q rest IH]; simpl; intros index i p H; [easy|].
  destruct H as [H|H]; [left; congruence | right; eauto].
Qed.

Lemma indexed_length (promises : list (Promise T)) :
  forall index, List.length (indexed index promises) = List.length promises.
Proof. induction promises; simpl; intros; [reflexivity | now rewrite IHpromises]. Qed.

Lemma insertByTime_In e events :
  forall e', In e' (insertByTime e events) <-> e' = e \/ In e' events.
Proof.
  induction events as [|x rest IH]; simpl; intros e'; [intuition|].
  destruct (settledAt (snd e) <=? settledAt (snd x)); simpl; [intuition|].
  rewrite IH. intuition.
Qed.

Lemma insertByTime_length e events :
  List.length (insertByTime e events) = S (List.length events).
Proof.
  induction events as [|x rest IH]; simpl; [reflexivity|].
  destruct (settledAt (snd e) <=? settledAt (snd x)); simpl; [reflexivity | now rewrite IH].
Qed.

Lemma chronological_In events : forall e, In e (chronological events) <-> In e events.
Proof.
  induction events as [|x rest IH]; simpl; intros e; [reflexivity|].
  rewrite insertByTime_In, IH. intuition.
Qed.

Lemma chronological_length events :
  List.length (chronological events) = List.length events.
Proof.
  induction events as [|x rest IH]; simpl; [reflexivity|].
  now rewrite insertByTime_length, IH.
Qed.

(** The head of the chronological order settles first. *)
Lemma chronological_head events :
  forall e0 rest, chronological events = e0 :: rest ->
    Forall (fun y => settledAt (snd e0) <= settledAt (snd y)) events.
Proof.
  induction events as [|x xs IH]; simpl; intros e0 rest H; [constructor|].
  destruct (chronological xs) as [|c cs] eqn:Hc.
  - simpl in H. injection H as <- <-.
    assert (xs = []) as ->.
    { destruct xs; [reflexivity|].
      apply (f_equal (@List.length _)) in Hc. rewrite chronological_length in Hc.
      discriminate. }
    constructor; [lia | constructor].
  - pose proof (IH c cs eq_refl) as Hmin.
    simpl in H. destruct (settledAt (snd x) <=? settledAt (snd c)) eqn:E.
    + injection H as <- <-. apply Z.leb_le in E.
      constructor; [lia|]. eapply Forall_impl; [|exact Hmin]. simpl. intros; lia.
    + injection H as <- <-. apply Z.leb_gt in E.
      constructor; [lia | exact Hmin].
Qed.

(** Once settled, the promise stays as it is. *)
Lemma onSettle_settled length st e p :
  settled st = Some p -> settled (onSettle length st e) = Some p.
Proof.
  intros H. unfold onSettle. destruct e as [i q].
  destruct (state q) as [v|err|].
  - unfold resolve. now rewrite H.
  - destruct (Nat.eqb _ _); unfold reject; cbn; rewrite ?H; cbn; rewrite ?H; reflexivity.
  - assumption.
Qed.

Lemma fold_settled length events :
  forall st p, settled st = Some p ->
    settled (fold_left (onSettle length) events st) = Some p.
Proof.
  induction events as [|e rest IH]; simpl; intros st p H; [assumption|].
  apply IH. now apply onSettle_settled.
Qed.

Lemma onSettle_Throw length st i q err :
  state q = Throw err ->
  Nat.eqb (S (rejectedCount st)) length = false ->
  onSettle length st (i, q)
  = mkAny (settled st) (S (rejectedCount st)) (arraySet i err (errors st)).
Proof.
  intros Hq E. unfold onSettle. rewrite Hq. cbn [rejectedCount settled errors].
  now rewrite E.
Qed.

Lemma onSettle_last_Throw length st i q err :
  state q = Throw err ->
  Nat.eqb (S (rejectedCount st)) length = true ->
  settled st = None ->
  settled (onSettle length st (i, q))
  = Some (mkPromise (settledAt q) (Throw (ErrorObj "All promises rejected"))).
Proof.
  intros Hq E Hnone. unfold onSettle. rewrite Hq. cbn [rejectedCount settled errors].
  rewrite E. unfold reject. cbn [rejectedCount settled errors]. now rewrite Hnone.
Qed.

Lemma onSettle_Ok length st i q v :
  state q = Ok v ->
  settled st = None ->
  settled (onSettle length st (i, q)) = Some (mkPromise (settledAt q) (Ok v)).
Proof.
  intros Hq Hnone. unfold onSettle. rewrite Hq. unfold resolve. now rewrite Hnone.
Qed.

(** When every handler has run, the promise is settled. *)
Lemma fold_settles length events :
  forall st,
    Forall (fun e => state (snd e) <> Diverge) events ->
    events <> [] ->
    (rejectedCount st + List.length events = length)%nat ->
    settled (fold_left (onSettle length) events st) <> None.
Proof.
  induction events as [|e rest IH]; intros st Hall Hne Hcount; [congruence|].
  apply Forall_cons_iff in Hall as [He Hrest]. simpl in *.
  destruct (settled st) as [p|] eqn:Hst.
  { erewrite fold_settled; [discriminate|]. apply onSettle_settled. eassumption. }
  destruct e as [i q]. simpl in He.
  destruct (state q) as [v|err|] eqn:Hq; [| |congruence].
  - erewrite fold_settled; [discriminate|]. eapply onSettle_Ok; eassumption.
  - destruct (Nat.eqb (S (rejectedCount st)) length) eqn:E.
    + erewrite fold_settled; [discriminate|]. eapply onSettle_last_Throw; eassumption.
    + erewrite onSettle_Throw by eassumption.
      apply Nat.eqb_neq in E. apply IH; simpl; [assumption| |lia].
      destruct rest; simpl in *; [lia | discriminate].
Qed.

(** When every promise is rejected, so is the race, with a fixed message. *)
Lemma fold_rejected length events :
  forall st,
    Forall (fun e => exists err, state (snd e) = Throw err) events ->
    events <> [] ->
    settled st = None ->
    (rejectedCount st + List.length events = length)%nat ->
    exists at_,
      settled (fold_left (onSettle length) events st)
      = Some (mkPromise at_ (Throw (ErrorObj "All promises rejected"))).
Proof.
  induction events as [|e rest IH]; intros st Hall Hne Hnone Hcount; [congruence|].
  apply Forall_cons_iff in Hall as [[err He] Hrest]. simpl in *.
  destruct e as [i q]. simpl in He.
  destruct (Nat.eqb (S (rejectedCount st)) length) eqn:E.
  - exists (settledAt q). apply fold_settled. eapply onSettle_last_Throw; eassumption.
  - erewrite onSettle_Throw by eassumption.
    apply Nat.eqb_neq in E. apply IH; simpl; [assumption| |assumption|lia].
    destruct rest; simpl in *; [lia | discriminate].
Qed.

(** A fulfilled race carries the value of one of the promises. *)
Lemma fold_fulfilled length events :
  forall st at_ v,
    settled (fold_left (onSettle length) events st) = Some (mkPromise at_ (Ok v)) ->
    settled st = Some (mkPromise at_ (Ok v))
    \/ exists e, In e events /\ state (snd e) = Ok v /\ settledAt (snd e) = at_.
Proof.
  induction events as [|e rest IH]; simpl; intros st at_ v H; [now left|].
  apply IH in H. destruct H as [H|(e' & Hin & Hv)]; [|right; eauto].
  destruct (settled st) as [p|] eqn:Hs.
  { left. erewrite onSettle_settled in H by eassumption. exact H. }
  right. destruct e as [i q]. destruct (state q) as [w|err|] eqn:Hq.
  - erewrite onSettle_Ok in H by eassumption. injection H as <- <-.
    exists (i, q). simpl. auto.
  - exfalso. destruct (Nat.eqb (S (rejectedCount st)) length) eqn:E.
    + erewrite onSettle_last_Throw in H by eassumption. discriminate.
    + erewrite onSettle_Throw in H by eassumption. simpl in H. congruence.
  - exfalso. unfold onSettle in H. rewrite Hq in H. congruence.
Qed.

(** A settled race is not a pending promise. *)
Lemma fold_not_pending length events :
  forall st q,
    settled st = None \/ (exists q', settled st = Some q' /\ state q' <> Diverge) ->
    settled (fold_left (onSettle length) events st) = Some q ->
    state q <> Diverge.
Proof.
  induction events as [|e rest IH]; simpl; intros st q Hst Hq.
  - destruct Hst as [Hst|(q' & Hq' & Hnd)]; congruence.
  - apply (IH (onSettle length st e)); [|exact Hq].
    destruct Hst as [Hst|(q' & Hq' & Hnd)].
    + destruct e as [i r]. destruct (state r) as [w|err|] eqn:Hr.
      * right. eexists. split; [eapply onSettle_Ok; eassumption | discriminate].
      * destruct (Nat.eqb (S (rejectedCount st)) length) eqn:E.
        -- right. eexists. split; [eapply onSettle_last_Throw; eassumption | discriminate].
        -- left. erewrite onSettle_Throw by eassumption. exact Hst.
      * left. unfold onSettle. now rewrite Hr.
    + right. exists q'. split; [|assumption]. now apply onSettle_settled.
Qed.

Lemma promiseAny_settles (promises : list (Promise T)) :
  promises <> [] ->
  Forall (fun p => state p <> Diverge) promises ->
  state (promiseAny promises) <> Diverge.
Proof.
  intros Hne Hall. unfold promiseAny.
  destruct promises as [|p0 rest] eqn:Hp; [congruence|]. rewrite <- Hp in *.
  pose proof (@fold_settles (List.length promises)
                (chronological (indexed 0 promises)) (mkAny None 0 [])) as H.
  destruct (settled _) as [p|] eqn:Hs.
  - eapply fold_not_pending; [|exact Hs]. now left.
  - exfalso. apply H; try assumption.
    + apply Forall_forall. intros [i q] Hin. simpl.
      apply chronological_In, indexed_In in Hin.
      rewrite Forall_forall in Hall. now apply Hall.
    + intros Hnil. apply (f_equal (@List.length _)) in Hnil.
      rewrite chronological_length, indexed_length, Hp in Hnil. discriminate.
    + now rewrite chronological_length, indexed_length.
    + reflexivity.
Qed.

Lemma promiseAny_all_rejected (promises : list (Promise T)) :
  promises <> [] ->
  Forall (fun p => exists err, state p = Throw err) promises ->
  state (promiseAny promises) = Throw (ErrorObj "All promises rejected").
Proof.
  intros Hne Hall. unfold promiseAny.
  destruct promises as [|p0 rest] eqn:Hp; [congruence|]. rewrite <- Hp in *.
  destruct (@fold_rejected (List.length promises)
              (chronological (indexed 0 promises)) (mkAny None 0 [])) as [at_ H].
  - apply Forall_forall. intros [i q] Hin. simpl.
    apply chronological_In, indexed_In in Hin.
    rewrite Forall_forall in Hall. now apply Hall.
  - intros Hnil. apply (f_equal (@List.length _)) in Hnil.
    rewrite chronological_length, indexed_length, Hp in Hnil. discriminate.
  - reflexivity.
  - now rewrite chronological_length, indexed_length.
  - rewrite H. reflexivity.
Qed.

Lemma promiseAny_Ok (promises : list (Promise T)) (v : T) :
  state (promiseAny promises) = Ok v ->
  exists p, In p promises /\ state p = Ok v.
Proof.
  unfold promiseAny. destruct promises as [|p0 rest] eqn:Hp; [discriminate|].
  rewrite <- Hp. destruct (settled _) as [[at_ r]|] eqn:Hs; simpl; [|discriminate].
  intros ->. apply fold_fulfilled in Hs. simpl in Hs.
  destruct Hs as [Hs|([i q] & Hin & Hv & _)]; [discriminate|].
  apply chronological_In, indexed_In in Hin. eauto.
Qed.

(** When every promise is fulfilled, the race is won by the promise that
    settles first, whatever its value. *)
Lemma promiseAny_first_settled (promises : list (Promise T)) :
  promises <> [] ->
  Forall (fun p => exists v, state p = Ok v) promises ->
  exists p, In p promises /\ earliest p promises /\ promiseAny promises = p.
Proof.
  intros Hne Hall. unfold promiseAny.
  destruct promises as [|p0 rest] eqn:Hp; [congruence|]. rewrite <- Hp in *.
  destruct (chronological (indexed 0 promises)) as [|[i q] events] eqn:Hc.
  { apply (f_equal (@List.length _)) in Hc.
    rewrite chronological_length, indexed_length, Hp in Hc. discriminate. }
  assert (In (i, q) (indexed 0 promises)) as Hin.
  { apply chronological_In. rewrite Hc. now left. }
  pose proof (indexed_In _ _ _ _ Hin) as Hq.
  rewrite Forall_forall in Hall. destruct (Hall q Hq) as [v Hv].
  exists q. split; [assumption|]. split.
  - pose proof (chronological_head _ _ _ Hc) as Hmin.
    unfold earliest. apply Forall_forall. intros r Hr.
    assert (exists j, In (j, r) (indexed 0 promises)) as [j Hj].
    { clear -Hr. generalize 0%nat. induction promises as [|x xs IH]; [easy|].
      intros n. simpl in *. destruct Hr as [->|Hr]; [eauto|].
      destruct (IH Hr (S n)) as [j Hj]. eauto. }
    rewrite Forall_forall in Hmin. exact (Hmin _ Hj).
  - simpl. erewrite fold_settled.
    2:{ unfold onSettle. rewrite Hv. unfold resolve. simpl. reflexivity. }
    destruct q as [at_ stq]. simpl in *. now rewrite Hv.
Qed.
End PromiseAnyFacts.

(** ** The hybrid path *)

Section HybridFacts.
Variables (web3 : Web3) (connection : nat -> Rpc) (this : TransactionExecutor.t).
Variable signers : list Keypair.

#[local] Abbreviation config := (TransactionExecutor.config this).
#[local] Abbreviation executeHybrid :=
  (TransactionExecutor.executeHybrid web3 connection this).
#[local] Abbreviation executeFallback :=
  (TransactionExecutor.executeFallback web3 connection this).

Lemma hybridNames_enabled :
  hybridNames config = map toLowerCase (getEnabledProviders config).
Proof.
  unfold hybridNames, getEnabledProviders.
  destruct (isJitoEnabled config), (isBloxRouteEnabled config), (isNozomiEnabled config);
    reflexivity.
Qed.

Lemma hybridExecutors_length (clone : Transaction) :
  List.length (hybridExecutors this clone signers)
  = List.length (getEnabledProviders config).
Proof.
  unfold hybridExecutors, getEnabledProviders.
  destruct (isJitoEnabled config), (isBloxRouteEnabled config), (isNozomiEnabled config);
    reflexivity.
Qed.

(** When the transaction can be copied, the hybrid path calls every enabled
    executor on a copy, then takes what the race gives: a fulfilled race is
    returned, a rejected race leads to the fallback path. *)
Lemma executeHybrid_cloned (s : Sys) (clone : Transaction) :
  reparse web3 (callerTx s) = Returns clone ->
  executeHybrid signers s =
  let s1 := mkSys (callerTx s) (trace s ++ map EvSubmit (hybridNames config)) in
  let executors := hybridExecutors this clone signers in
  if Nat.eqb (List.length executors) 0 then
    (Throw (ErrorObj "No providers are enabled for hybrid execution"), s1)
  else
    match state (promiseAny executors) with
    | Ok result => (Ok result, s1)
    | Throw _ => executeFallback signers s1
    | Diverge => (Diverge, s1)
    end.
Proof.
  intros Hclone.
  unfold TransactionExecutor.executeHybrid, TransactionExecutor.onClone,
    TransactionExecutor.cloneTransaction, hybridExecutors, hybridNames.
  unfold_js.
  destruct s as [tx tr]. simpl in *.
  destruct (isJitoEnabled config), (isBloxRouteEnabled config), (isNozomiEnabled config);
    simpl; rewrite ?Hclone; simpl; rewrite ?Hclone; simpl; rewrite ?Hclone; simpl;
    rewrite <- ?app_assoc; simpl; rewrite ?app_nil_r;
    try reflexivity;
    match goal with
    | |- context [state ?p] => destruct (state p); reflexivity
    end.
Qed.

(** When it cannot, the fault of the copy leaves the hybrid path at the
    first enabled provider. *)
Lemma executeHybrid_not_cloned (s : Sys) (e : JsError) :
  reparse web3 (callerTx s) = Throws e ->
  executeHybrid signers s =
  (Throw (if Nat.eqb (List.length (getEnabledProviders config)) 0
          then ErrorObj "No providers are enabled for hybrid execution" else e), s).
Proof.
  intros Hclone.
  unfold TransactionExecutor.executeHybrid, TransactionExecutor.onClone,
    TransactionExecutor.cloneTransaction, getEnabledProviders.
  unfold_js.
  destruct s as [tx tr]. simpl in *.
  destruct (isJitoEnabled config), (isBloxRouteEnabled config), (isNozomiEnabled config);
    simpl; rewrite ?Hclone; simpl; reflexivity.
Qed.
End HybridFacts.

(** ** The executors of the repository *)

Lemma failure_reasoned (message name : string) :
  message <> "" -> reasoned (failure message name).
Proof. intros H _. exists message. now split. Qed.

Lemma succeeded_reasoned (sig name : string) : reasoned (succeeded sig name).
Proof. intros H. discriminate. Qed.

Lemma orString_nonEmpty (s : option string) (d : string) : d <> "" -> orString s d <> "".
Proof. intros Hd. destruct s as [[|c s]|]; simpl; congruence. Qed.

Lemma orString_reason (message d : string) :
  message <> "" -> orString (Some message) d = message.
Proof. destruct message; simpl; congruence. Qed.

Create HintDb reasons.
#[local] Hint Resolve failure_reasoned succeeded_reasoned orString_nonEmpty : reasons.
#[local] Hint Extern 1 (_ <> _) => discriminate : reasons.

Section ExecutorFacts.
Variables (web3 : Web3) (config : ConfigManager).
Variables (transaction : Transaction) (signers : list Keypair).

(** Every executor of the repository catches its faults: its promise is
    fulfilled, with a success or with a failure that names its reason. *)
Lemma JitoExecutor_fulfilled (env : JitoEnv) :
  exists result,
    state (snd (JitoExecutor.executeTransaction web3 config env transaction signers))
    = Ok result /\ reasoned result.
Proof.
  unfold JitoExecutor.executeTransaction. unfold_js. simpl.
  repeat answer; eexists; (split; [reflexivity|]); auto with reasons.
Qed.

Lemma BloxRouteExecutor_fulfilled (env : BloxRouteEnv) :
  exists result,
    state (snd (BloxRouteExecutor.executeTransaction web3 config env transaction signers))
    = Ok result /\ reasoned result.
Proof.
  unfold BloxRouteExecutor.executeTransaction. unfold_js. simpl.
  repeat answer; eexists; (split; [reflexivity|]); auto with reasons.
Qed.

Lemma NozomiExecutor_fulfilled (env : NozomiEnv) :
  exists result,
    state (snd (NozomiExecutor.executeTransaction web3 config env transaction signers))
    = Ok result /\ reasoned result.
Proof.
  unfold NozomiExecutor.executeTransaction. unfold_js. simpl.
  repeat answer; eexists; (split; [reflexivity|]); auto with reasons.
Qed.
End ExecutorFacts.

(** ** Reading traces *)

Lemma submitted_app (tr tr' : list Event) :
  submitted (tr ++ tr') = (submitted tr ++ submitted tr')%list.
Proof. apply flat_map_app. Qed.

Lemma submitted_EvSubmit (names : list string) : submitted (map EvSubmit names) = names.
Proof. induction names as [|n ns IH]; simpl; [reflexivity | now rewrite IH]. Qed.

Lemma submitted_fallbackTrace (count : nat) :
  forall retries, submitted (fallbackTrace retries count) = [].
Proof.
  induction count as [|[|count] IH]; intros retries; try reflexivity.
  change (submitted (fallbackTrace (retries + 1) (S count)) = []). apply IH.
Qed.

Lemma fallbackEntered_app (tr tr' : list Event) :
  fallbackEntered (tr ++ tr') = (fallbackEntered tr || fallbackEntered tr')%bool.
Proof. apply existsb_app. Qed.

Lemma delays_fallbackTrace (count : nat) :
  forall retries,
    delays (fallbackTrace retries (S count))
    = map (fun i => 1000 * (retries + Z.of_nat i)) (seq 1 count).
Proof.
  induction count as [|count IH]; intros retries; [reflexivity|].
  change (delays (fallbackTrace retries (S (S count))))
    with (1000 * (retries + 1) :: delays (fallbackTrace (retries + 1) (S count))).
  rewrite IH. cbn [seq map]. f_equal.
  rewrite <- (seq_shift count 1), map_map.
  apply map_ext. intros i. f_equal. lia.
Qed.

Lemma attempts_fallbackTrace (count : nat) :
  forall retries, attempts (fallbackTrace retries count) = Z.of_nat count.
Proof.
  induction count as [|[|count] IH]; intros retries; try reflexivity.
  specialize (IH (retries + 1)). unfold attempts in *.
  change (fallbackTrace retries (S (S count)))
    with (EvAttempt retries :: EvDelay (1000 * (retries + 1))
            :: fallbackTrace (retries + 1) (S count)).
  cbn [filter List.length]. lia.
Qed.

Lemma fallbackTrace_next (retries : Z) (count : nat) :
  fallbackTrace retries (S (S count))
  = EvAttempt retries :: EvDelay (1000 * (retries + 1))
      :: fallbackTrace (retries + 1) (S count).
Proof. reflexivity. Qed.

Lemma fallbackTrace_head (retries : Z) (count : nat) :
  exists rest, fallbackTrace retries (S count) = EvAttempt retries :: rest.
Proof. destruct count; eexists; reflexivity. Qed.

Lemma delayBefore_step (n ms k : Z) (rest : list Event) :
  delayBefore n (EvDelay ms :: EvAttempt k :: rest)
  = if k =? n - 1 then Some ms else delayBefore n (EvAttempt k :: rest).
Proof. reflexivity. Qed.

(** In the trace of a run of attempts, the delay before attempt [n] is
    [1000 * (n - 1)] ms, and no delay comes before the first attempt. *)
Lemma delayBefore_fallbackTrace (count : nat) :
  forall retries n,
    retries + 1 < n <= retries + Z.of_nat (S count) ->
    delayBefore n (fallbackTrace retries (S count)) = Some (1000 * (n - 1)).
Proof.
  induction count as [|count IH]; intros retries n Hn; [lia|].
  rewrite fallbackTrace_next.
  destruct (fallbackTrace_head (retries + 1) count) as [rest Hrest].
  change (delayBefore n (EvAttempt retries :: ?l)) with (delayBefore n l).
  rewrite Hrest, delayBefore_step, <- Hrest.
  destruct (Z.eqb_spec (retries + 1) (n - 1)) as [E|E].
  - f_equal. lia.
  - apply IH. lia.
Qed.

Lemma delayBefore_first (count : nat) :
  forall retries n, n <= retries + 1 -> delayBefore n (fallbackTrace retries count) = None.
Proof.
  destruct count as [|count]; [reflexivity|].
  induction count as [|count IH]; intros retries n Hn; [reflexivity|].
  rewrite fallbackTrace_next.
  destruct (fallbackTrace_head (retries + 1) count) as [rest Hrest].
  change (delayBefore n (EvAttempt retries :: ?l)) with (delayBefore n l).
  rewrite Hrest, delayBefore_step, <- Hrest.
  destruct (Z.eqb_spec (retries + 1) (n - 1)) as [E|E]; [lia|].
  apply IH. lia.
Qed.

(** ** Runs of the fallback loop *)

Section LoopFacts.
Variables (web3 : Web3) (connection : nat -> Rpc) (this : TransactionExecutor.t).
Variables (transaction : Transaction) (signers : list Keypair).

#[local] Abbreviation outcomeOf := (attemptOutcome web3 connection this transaction signers).
#[local] Abbreviation Run := (LoopRun web3 connection this transaction signers).

(** The attempt made after [i] failures ends in a fault. *)
#[local] Abbreviation fails i := (exists e, outcomeOf i = Throw e).

Lemma LoopRun_retryCount maxRetries retries count result :
  Run maxRetries retries count result ->
  retryCount result
  = Some (retries + Z.of_nat count - (if success result then 1 else 0)).
Proof.
  induction 1 as [k Hk | k r Hk Hok | k e Hk Hthrow Hlast | k e c r Hk Hthrow Hmore Hrun IH].
  - simpl. f_equal. lia.
  - apply attemptOutcome_Ok in Hok as (-> & -> & _). f_equal. lia.
  - simpl. f_equal. lia.
  - rewrite IH. f_equal. lia.
Qed.

Lemma LoopRun_success_at maxRetries retries count result :
  Run maxRetries retries count result ->
  forall j r,
    retries <= j < maxRetries ->
    (forall i, retries <= i < j -> fails i) ->
    outcomeOf j = Ok r ->
    result = r /\ Z.of_nat count = j - retries + 1.
Proof.
  induction 1 as [k Hk | k r0 Hk Hok | k e Hk Hthrow Hlast | k e c r0 Hk Hthrow Hmore Hrun IH];
    intros j r Hj Hfail Hj_ok.
  - lia.
  - destruct (Z.eq_dec j k) as [->|Hne].
    + split; [congruence | lia].
    + destruct (Hfail k) as [e He]; [lia|]. congruence.
  - destruct (Z.eq_dec j k) as [->|Hne]; [|lia].
    congruence.
  - destruct (Z.eq_dec j k) as [->|Hne].
    + congruence.
    + destruct (IH j r) as [-> Hc]; [lia | intros i Hi; apply Hfail; lia | assumption |].
      split; [reflexivity | lia].
Qed.

Lemma LoopRun_all_fail maxRetries retries count result :
  Run maxRetries retries count result ->
  retries < maxRetries ->
  (forall i, retries <= i < maxRetries -> fails i) ->
  Z.of_nat count = maxRetries - retries
  /\ exists e, outcomeOf (maxRetries - 1) = Throw e /\ result = exhausted e maxRetries.
Proof.
  induction 1 as [k Hk | k r0 Hk Hok | k e Hk Hthrow Hlast | k e c r0 Hk Hthrow Hmore Hrun IH];
    intros Hlt Hfail.
  - lia.
  - destruct (Hfail k) as [e He]; [lia|]. congruence.
  - assert (maxRetries = k + 1) as -> by lia. split; [lia|].
    exists e. replace (k + 1 - 1) with k by lia. now split.
  - destruct IH as (Hc & e' & He' & ->); [lia | intros i Hi; apply Hfail; lia |].
    split; [lia|]. eauto.
Qed.

Lemma LoopRun_failed_before maxRetries retries count result :
  Run maxRetries retries count result ->
  forall i,
    retries <= i < retries + Z.of_nat count - (if success result then 1 else 0) ->
    fails i.
Proof.
  induction 1 as [k Hk | k r Hk Hok | k e Hk Hthrow Hlast | k e c r Hk Hthrow Hmore Hrun IH];
    intros i Hi.
  - simpl in Hi. lia.
  - apply attemptOutcome_Ok in Hok as (Hs & _). rewrite Hs in Hi. lia.
  - simpl in Hi. assert (i = k) as -> by lia. eauto.
  - destruct (Z.eq_dec i k) as [->|Hne]; [eauto|]. apply IH. lia.
Qed.

Lemma LoopRun_reasoned maxRetries retries count result :
  Run maxRetries retries count result -> reasoned result.
Proof.
  induction 1 as [k Hk | k r Hk Hok | k e Hk Hthrow Hlast | k e c r Hk Hthrow Hmore Hrun IH];
    try assumption.
  - intros _. eexists. split; [reflexivity | discriminate].
  - apply attemptOutcome_Ok in Hok as (Hs & _). intros H. congruence.
  - intros _. eexists. split; [reflexivity | discriminate].
Qed.

Lemma LoopRun_skipped maxRetries retries count result :
  Run maxRetries retries count result ->
  maxRetries <= retries ->
  count = 0%nat /\ success result = false /\ retryCount result = Some retries.
Proof. destruct 1; intros; try lia. auto. Qed.
End LoopFacts.

Lemma totalDelay_fallbackTrace (count : nat) :
  forall retries,
    totalDelay (fallbackTrace retries (S count))
    = 1000 * retries * Z.of_nat count + 500 * Z.of_nat count * (Z.of_nat count + 1).
Proof.
  induction count as [|count IH]; intros retries; [cbn; lia|].
  rewrite fallbackTrace_next.
  change (totalDelay (EvAttempt retries :: EvDelay ?ms :: ?l)) with (ms + totalDelay l).
  rewrite IH. lia.
Qed.

(** ** The engine *)

Lemma hybridNames_In (config : ConfigManager) (name : string) :
  In name (hybridNames config) <->
  (name = "jito" /\ isJitoEnabled config = true)
  \/ (name = "bloxroute" /\ isBloxRouteEnabled config = true)
  \/ (name = "nozomi" /\ isNozomiEnabled config = true).
Proof.
  unfold hybridNames.
  destruct (isJitoEnabled config), (isBloxRouteEnabled config), (isNozomiEnabled config);
    simpl; intuition congruence.
Qed.

Lemma then_state_Diverge {A B} (p : Promise A) (f : A -> B) :
  state p <> Diverge -> state (then_ p f) <> Diverge.
Proof. unfold then_. simpl. destruct (state p); congruence. Qed.

Section EngineFacts.
Variables (web3 : Web3) (connection : nat -> Rpc) (this : TransactionExecutor.t).
Variable signers : list Keypair.

#[local] Abbreviation config := (TransactionExecutor.config this).
#[local] Abbreviation strategy := (determineOptimalStrategy config).
#[local] Abbreviation onOriginal := TransactionExecutor.onOriginal.
#[local] Abbreviation executeHybrid :=
  (TransactionExecutor.executeHybrid web3 connection this).
#[local] Abbreviation executeFallback :=
  (TransactionExecutor.executeFallback web3 connection this).
#[local] Abbreviation executeAuto :=
  (TransactionExecutor.executeAuto web3 connection this).
#[local] Abbreviation executeWithStrategy :=
  (TransactionExecutor.executeWithStrategy web3 connection this).
#[local] Abbreviation executeTransaction :=
  (TransactionExecutor.executeTransaction web3 connection this).

Hypothesis jito_settles : settles (TransactionExecutor.jitoExecutor this).
Hypothesis bloxRoute_settles : settles (TransactionExecutor.bloxRouteExecutor this).
Hypothesis nozomi_settles : settles (TransactionExecutor.nozomiExecutor this).

Lemma onOriginal_run (name : string) (executor : Executor) (s : Sys) :
  onOriginal name executor signers s =
  (state (snd (executor (callerTx s) signers)),
   mkSys (fst (executor (callerTx s) signers)) (trace s ++ [EvSubmit name])).
Proof.
  unfold TransactionExecutor.onOriginal. unfold_js. simpl.
  destruct (executor (callerTx s) signers). reflexivity.
Qed.

(** What [executeTransaction] makes of the outcome of the chosen path. *)
Lemma executeTransaction_run (s : Sys) :
  executeTransaction signers s =
  match executeWithStrategy signers strategy s with
  | (Ok result, s') =>
      if success result then (Ok (withStrategy strategy result), s')
      else
        (Ok (mkResult false None
               (Some (orString (error result) "Transaction execution failed"))
               (Some strategy) None None), s')
  | (Throw e, s') =>
      (Ok (mkResult false None (Some (errorMessage e)) (Some strategy) None None), s')
  | (Diverge, s') => (Diverge, s')
  end.
Proof.
  unfold TransactionExecutor.executeTransaction. unfold_js.
  destruct (executeWithStrategy signers strategy s) as [[result|e|] s']; try reflexivity.
  destruct (success result); reflexivity.
Qed.

(** The paths record the executors they call, and the fallback calls none. *)
Lemma executeFallback_trace (s : Sys) :
  exists result count,
    executeFallback signers s
    = (Ok result, mkSys (callerTx s) (trace s ++ EvFallback :: fallbackTrace 0 count))
    /\ submitted (trace s ++ EvFallback :: fallbackTrace 0 count) = submitted (trace s).
Proof.
  destruct (executeFallback_run web3 connection this signers s)
    as (count & result & Hrun & _).
  exists result, count. split; [exact Hrun|].
  rewrite submitted_app. change (submitted (EvFallback :: ?l)) with (submitted l).
  now rewrite submitted_fallbackTrace, app_nil_r.
Qed.

Lemma hybridExecutors_settle (clone : Transaction) :
  Forall (fun p => state p <> Diverge) (hybridExecutors this clone signers).
Proof.
  unfold hybridExecutors, attemptOf.
  destruct (isJitoEnabled _), (isBloxRouteEnabled _), (isNozomiEnabled _); simpl;
    repeat constructor; apply then_state_Diverge;
    first [apply jito_settles | apply bloxRoute_settles | apply nozomi_settles].
Qed.

Lemma executeHybrid_returns (s : Sys) :
  exists r s',
    executeHybrid signers s = (r, s') /\ r <> Diverge
    /\ (forall name, In name (submitted (trace s')) ->
                     In name (submitted (trace s)) \/ In name (hybridNames config)).
Proof.
  destruct (reparse web3 (callerTx s)) as [clone|e] eqn:Hclone.
  - rewrite (executeHybrid_cloned _ _ _ _ _ _ Hclone). cbv zeta.
    assert (forall name,
               In name (submitted (trace s ++ map EvSubmit (hybridNames config))) ->
               In name (submitted (trace s)) \/ In name (hybridNames config)) as Hnames.
    { intros name. rewrite submitted_app, submitted_EvSubmit. apply in_app_or. }
    destruct (Nat.eqb (List.length (hybridExecutors this clone signers)) 0) eqn:E.
    { do 2 eexists. split; [reflexivity|]. split; [discriminate | exact Hnames]. }
    pose proof (@promiseAny_settles _ (hybridExecutors this clone signers)) as Hsettle.
    destruct (state (promiseAny (hybridExecutors this clone signers))) as [result|err|].
    + do 2 eexists. split; [reflexivity|]. split; [discriminate | exact Hnames].
    + destruct (executeFallback_trace
                  (mkSys (callerTx s) (trace s ++ map EvSubmit (hybridNames config))))
        as (result & count & Hrun & Hsub).
      rewrite Hrun. do 2 eexists. split; [reflexivity|].
      split; [discriminate|]. simpl in *. rewrite Hsub. exact Hnames.
    + exfalso. apply Hsettle; [|apply hybridExecutors_settle|reflexivity].
      intros Hnil. rewrite Hnil in E. discriminate.
  - rewrite (executeHybrid_not_cloned _ _ _ _ _ _ Hclone).
    do 2 eexists. split; [reflexivity|]. split; [discriminate | auto].
Qed.

Lemma onOriginal_returns (name : string) (executor : Executor) (s : Sys) :
  settles executor ->
  In name (hybridNames config) ->
  exists r s',
    onOriginal name executor signers s = (r, s') /\ r <> Diverge
    /\ (forall name, In name (submitted (trace s')) ->
                     In name (submitted (trace s)) \/ In name (hybridNames config)).
Proof.
  intros Hsettles Hname. rewrite onOriginal_run. do 2 eexists.
  split; [reflexivity|]. split; [apply Hsettles|].
  intros name'. simpl. rewrite submitted_app. simpl. intros H.
  apply in_app_or in H as [H|[<-|[]]]; auto.
Qed.

Lemma executeFallback_returns (s : Sys) :
  exists r s',
    executeFallback signers s = (r, s') /\ r <> Diverge
    /\ (forall name, In name (submitted (trace s')) ->
                     In name (submitted (trace s)) \/ In name (hybridNames config)).
Proof.
  destruct (executeFallback_trace s) as (result & count & Hrun & Hsub).
  rewrite Hrun. do 2 eexists. split; [reflexivity|]. split; [discriminate|].
  simpl. rewrite Hsub. auto.
Qed.

(** Every path returns or throws, and calls enabled executors only. *)
Lemma executeWithStrategy_returns (chosen : ExecutionStrategy) (s : Sys) :
  exists r s',
    executeWithStrategy signers chosen s = (r, s') /\ r <> Diverge
    /\ (forall name, In name (submitted (trace s')) ->
                     In name (submitted (trace s)) \/ In name (hybridNames config)).
Proof.
  assert (forall message : string,
             exists r s', @throw Sys ExecutionResult (ErrorObj message) s = (r, s')
                          /\ r <> Diverge
                          /\ (forall name, In name (submitted (trace s')) ->
                                 In name (submitted (trace s))
                                 \/ In name (hybridNames config))) as Hthrow.
  { intros message. do 2 eexists. split; [reflexivity|]. split; [discriminate | auto]. }
  unfold TransactionExecutor.executeWithStrategy.
  destruct chosen.
  - destruct (isJitoEnabled config) eqn:E; simpl; [|apply Hthrow].
    apply onOriginal_returns; [assumption|]. apply hybridNames_In. auto.
  - destruct (isBloxRouteEnabled config) eqn:E; simpl; [|apply Hthrow].
    apply onOriginal_returns; [assumption|]. apply hybridNames_In. auto.
  - destruct (isNozomiEnabled config) eqn:E; simpl; [|apply Hthrow].
    apply onOriginal_returns; [assumption|]. apply hybridNames_In. auto.
  - apply executeHybrid_returns.
  - apply executeFallback_returns.
  - unfold TransactionExecutor.executeAuto, getEnabledProviders.
    destruct (isJitoEnabled config) eqn:Ej, (isBloxRouteEnabled config) eqn:Eb,
      (isNozomiEnabled config) eqn:En; simpl;
      first [ apply executeHybrid_returns
            | apply executeFallback_returns
            | apply onOriginal_returns; [assumption|]; apply hybridNames_In; auto ].
Qed.
End EngineFacts.

(** ** The engine of the repository *)

Lemma single_enabled (config : ConfigManager) :
  List.length (getEnabledProviders config) = 1%nat ->
  (getEnabledProviders config = ["Jito"]
   /\ determineOptimalStrategy config = JITO_ONLY /\ isJitoEnabled config = true)
  \/ (getEnabledProviders config = ["BloxRoute"]
      /\ determineOptimalStrategy config = BLOXROUTE_ONLY
      /\ isBloxRouteEnabled config = true)
  \/ (getEnabledProviders config = ["Nozomi"]
      /\ determineOptimalStrategy config = NOZOMI_ONLY /\ isNozomiEnabled config = true).
Proof.
  unfold determineOptimalStrategy, getEnabledProviders.
  destruct (isJitoEnabled config), (isBloxRouteEnabled config), (isNozomiEnabled config);
    simpl; intros H; try discriminate; auto.
Qed.

Lemma new_settles (web3 : Web3) (config : ConfigManager) (env : Env) :
  settles (TransactionExecutor.jitoExecutor (TransactionExecutor.new web3 config env))
  /\ settles (TransactionExecutor.bloxRouteExecutor (TransactionExecutor.new web3 config env))
  /\ settles (TransactionExecutor.nozomiExecutor (TransactionExecutor.new web3 config env)).
Proof.
  repeat split; intros tx sg; simpl.
  - destruct (JitoExecutor_fulfilled web3 config tx sg (jitoEnv env)) as (x & -> & _).
    discriminate.
  - destruct (BloxRouteExecutor_fulfilled web3 config tx sg (bloxRouteEnv env)) as (x & -> & _).
    discriminate.
  - destruct (NozomiExecutor_fulfilled web3 config tx sg (nozomiEnv env)) as (x & -> & _).
    discriminate.
Qed.

Section RepositoryHybrid.
Variables (web3 : Web3) (config : ConfigManager) (env : Env).
Variables (clone : Transaction) (signers : list Keypair).

#[local] Abbreviation this := (TransactionExecutor.new web3 config env).

Lemma new_hybridExecutors_fulfilled :
  Forall (fun p => exists result, state p = Ok result)
    (hybridExecutors this clone signers).
Proof.
  unfold hybridExecutors, attemptOf, then_. simpl.
  destruct (JitoExecutor_fulfilled web3 config clone signers (jitoEnv env)) as (j & Hj & _).
  destruct (BloxRouteExecutor_fulfilled web3 config clone signers (bloxRouteEnv env))
    as (b & Hb & _).
  destruct (NozomiExecutor_fulfilled web3 config clone signers (nozomiEnv env))
    as (n & Hn & _).
  destruct (isJitoEnabled config), (isBloxRouteEnabled config), (isNozomiEnabled config);
    simpl; repeat constructor; simpl; rewrite ?Hj, ?Hb, ?Hn; eauto.
Qed.

End RepositoryHybrid.

(** * The properties of the specification *)

(** ** Direct fallback: retry count and backoff *)

(** C9. Every run of the direct fallback returns a result whose [retryCount]
    is the number of failed attempts before the returned outcome: the
    number of attempts made, less one when the last of them succeeded, all
    of which failed. A success at attempt [n] (counted from 1) carries
    [n - 1]; when all [maxRetries] attempts fail, the failure carries
    [maxRetries]. *)
Theorem fallback_retryCount
  (web3 : Web3) (connection : nat -> Rpc) (this : TransactionExecutor.t)
  (signers : list Keypair) (s : Sys) :
  let maxRetries := TransactionExecutor.effectiveMaxRetries this in
  let outcomeOf := attemptOutcome web3 connection this (callerTx s) signers in
  exists result count,
    TransactionExecutor.executeFallback web3 connection this signers s
    = (Ok result, mkSys (callerTx s) (trace s ++ EvFallback :: fallbackTrace 0 count))
    /\ (let failed := Z.of_nat count - (if success result then 1 else 0) in
        retryCount result = Some failed
        /\ forall i, 0 <= i < failed -> exists e, outcomeOf i = Throw e)
    /\ (forall n r,
           1 <= n <= maxRetries ->
           (forall i, 0 <= i < n - 1 -> exists e, outcomeOf i = Throw e) ->
           outcomeOf (n - 1) = Ok r ->
           result = r /\ success result = true /\ retryCount result = Some (n - 1)
           /\ Z.of_nat count = n)
    /\ (1 <= maxRetries ->
        (forall i, 0 <= i < maxRetries -> exists e, outcomeOf i = Throw e) ->
        success result = false /\ retryCount result = Some maxRetries
        /\ Z.of_nat count = maxRetries).
Proof.
  intros maxRetries outcomeOf.
  destruct (executeFallback_run web3 connection this signers s)
    as (count & result & Hrun & Hloop).
  exists result, count. split; [exact Hrun|].
  pose proof (LoopRun_retryCount _ _ _ _ _ _ _ _ _ Hloop) as Hcount.
  split.
  { cbv zeta. split; [rewrite Hcount; f_equal; lia|].
    intros i Hi. apply (LoopRun_failed_before _ _ _ _ _ _ _ _ _ Hloop). lia. }
  split.
  - intros n r Hn Hfail Hok.
    destruct (LoopRun_success_at _ _ _ _ _ _ _ _ _ Hloop (n - 1) r) as [-> Hc];
      [fold maxRetries; lia | intros i Hi; apply Hfail; lia | exact Hok |].
    apply attemptOutcome_Ok in Hok as (Hs & Hr & _). repeat split; try assumption. lia.
  - intros Hm Hfail.
    destruct (LoopRun_all_fail _ _ _ _ _ _ _ _ _ Hloop) as (Hc & e & He & ->);
      [fold maxRetries; lia | intros i Hi; apply Hfail; exact Hi |].
    fold maxRetries in Hc |- *. simpl. repeat split. lia.
Qed.

(** C9, on a connection that is down once (three attempts allowed), and on
    one that stays down. *)
Lemma fallback_retryCount_witness :
  (exists result s',
      TransactionExecutor.executeFallback Sim.web3 (Sim.flaky 1)
        (Sim.engine (Sim.configOf false false false (Some 3))) Sim.signers
        (mkSys Sim.prepared []) = (Ok result, s')
      /\ success result = true /\ retryCount result = Some 1)
  /\ (exists result s',
         TransactionExecutor.executeFallback Sim.web3 (Sim.flaky 3)
           (Sim.engine (Sim.configOf false false false (Some 3))) Sim.signers
           (mkSys Sim.prepared []) = (Ok result, s')
         /\ success result = false /\ retryCount result = Some 3).
Proof.
  split.
  - destruct (fallback_retryCount Sim.web3 (Sim.flaky 1)
                (Sim.engine (Sim.configOf false false false (Some 3))) Sim.signers
                (mkSys Sim.prepared []))
      as (result & count & Hrun & _ & Hsuccess & _).
    exists result. eexists. split; [exact Hrun|].
    destruct (Hsuccess 2 (mkResult true (Some "sigF") None None (Some 1) (Some "fallback")))
      as (_ & Hs & Hr & _).
    + unfold TransactionExecutor.effectiveMaxRetries. simpl. lia.
    + intros i Hi. assert (i = 0) as -> by lia. eexists. reflexivity.
    + reflexivity.
    + split; assumption.
  - destruct (fallback_retryCount Sim.web3 (Sim.flaky 3)
                (Sim.engine (Sim.configOf false false false (Some 3))) Sim.signers
                (mkSys Sim.prepared []))
      as (result & count & Hrun & _ & _ & Hexhausted).
    exists result. eexists. split; [exact Hrun|].
    destruct Hexhausted as (Hs & Hr & _).
    + unfold TransactionExecutor.effectiveMaxRetries. simpl. lia.
    + intros i Hi. unfold TransactionExecutor.effectiveMaxRetries in Hi. simpl in Hi.
      assert (i = 0 \/ i = 1 \/ i = 2) as [->|[->| ->]] by lia; eexists; reflexivity.
    + split; assumption.
Defined.

(** C4, as stated, fails: with [maxRetries = 3] and every attempt failing,
    no delay precedes the first attempt, the delay before attempt 2 is
    1000 ms and not 2000 ms, and the delays requested sum to 3000 ms, not
    6000 ms. *)
Lemma fallback_backoff_counterexample :
  let tr :=
    trace (snd (TransactionExecutor.executeFallback Sim.web3 (Sim.flaky 3)
                  (Sim.engine (Sim.configOf false false false (Some 3))) Sim.signers
                  (mkSys Sim.payload []))) in
  tr = [EvFallback; EvAttempt 0; EvDelay 1000; EvAttempt 1; EvDelay 2000; EvAttempt 2]
  /\ delayBefore 1 tr = None
  /\ delayBefore 2 tr <> Some (1000 * 2)
  /\ delayBefore 3 tr <> Some (1000 * 3)
  /\ totalDelay tr = 3000
  /\ totalDelay tr <> 6000.
Proof. vm_compute. repeat split; discriminate. Qed.

(** C4, amended. In every run of the direct fallback the delay requested
    before attempt [n] (counted from 1), for [n >= 2], is [1000 * (n - 1)]
    ms, and no delay precedes the first attempt or follows the last; when
    all [maxRetries] attempts fail the delays are 1000, 2000, ...,
    [1000 * (maxRetries - 1)] ms and sum to [500 * maxRetries * (maxRetries - 1)]
    ms, which is 3000 ms for [maxRetries = 3]. *)
Theorem fallback_backoff_schedule
  (web3 : Web3) (connection : nat -> Rpc) (this : TransactionExecutor.t)
  (signers : list Keypair) (s : Sys) :
  let maxRetries := TransactionExecutor.effectiveMaxRetries this in
  let outcomeOf := attemptOutcome web3 connection this (callerTx s) signers in
  exists result count,
    let schedule := fallbackTrace 0 count in
    TransactionExecutor.executeFallback web3 connection this signers s
    = (Ok result, mkSys (callerTx s) (trace s ++ EvFallback :: schedule))
    /\ delayBefore 1 schedule = None
    /\ (forall n, 2 <= n <= Z.of_nat count -> delayBefore n schedule = Some (1000 * (n - 1)))
    /\ (1 <= maxRetries ->
        (forall i, 0 <= i < maxRetries -> exists e, outcomeOf i = Throw e) ->
        Z.of_nat count = maxRetries
        /\ delays schedule
           = map (fun n => 1000 * Z.of_nat n) (seq 1 (Z.to_nat (maxRetries - 1)))
        /\ totalDelay schedule = 500 * maxRetries * (maxRetries - 1)
        /\ (maxRetries = 3 -> totalDelay schedule = 3000)).
Proof.
  intros maxRetries outcomeOf.
  destruct (executeFallback_run web3 connection this signers s)
    as (count & result & Hrun & Hloop).
  exists result, count. cbv zeta. split; [exact Hrun|]. split; [|split].
  - apply delayBefore_first. lia.
  - intros n Hn. destruct count as [|count]; [lia|].
    apply delayBefore_fallbackTrace. lia.
  - intros Hm Hfail.
    destruct (LoopRun_all_fail _ _ _ _ _ _ _ _ _ Hloop) as (Hc & _);
      [fold maxRetries; lia | intros i Hi; apply Hfail; exact Hi |].
    fold maxRetries in Hc.
    destruct count as [|count]; [lia|].
    assert (Z.of_nat count = maxRetries - 1) as Hcount by lia.
    split; [lia|]. split; [|split].
    + rewrite delays_fallbackTrace. rewrite <- Hcount, Nat2Z.id.
      apply map_ext. intros n. f_equal.
    + rewrite totalDelay_fallbackTrace, Hcount. lia.
    + intros H3. rewrite totalDelay_fallbackTrace, Hcount, H3. reflexivity.
Qed.

(** C4 amended, on a connection that stays down, three attempts allowed. *)
Lemma fallback_backoff_schedule_witness :
  exists result count,
    TransactionExecutor.executeFallback Sim.web3 (Sim.flaky 3)
      (Sim.engine (Sim.configOf false false false (Some 3))) Sim.signers (mkSys Sim.payload [])
    = (Ok result, mkSys Sim.payload ([] ++ EvFallback :: fallbackTrace 0 count))
    /\ Z.of_nat count = 3
    /\ totalDelay (fallbackTrace 0 count) = 3000.
Proof.
  destruct (fallback_backoff_schedule Sim.web3 (Sim.flaky 3)
              (Sim.engine (Sim.configOf false false false (Some 3))) Sim.signers
              (mkSys Sim.payload []))
    as (result & count & Hrun & _ & _ & Hall).
  exists result, count. split; [exact Hrun|].
  destruct Hall as (Hc & _ & _ & H3).
  - unfold TransactionExecutor.effectiveMaxRetries. simpl. lia.
  - intros i Hi. unfold TransactionExecutor.effectiveMaxRetries in Hi. simpl in Hi.
    assert (i = 0 \/ i = 1 \/ i = 2) as [->|[->| ->]] by lia; eexists; reflexivity.
  - split; [exact Hc | apply H3; reflexivity].
Defined.

(** ** The provider checks *)

(** C10. A provider is enabled exactly when its use flag is set, its tip or
    fee is strictly positive and, for BloxRoute and Nozomi, its credential
    is not the empty string; the enabled providers are those that
    [getEnabledProviders] lists, and [executeTransaction] calls the
    executor of no other provider, on any path. *)
Theorem provider_enabled_only_when_configured (config : ConfigManager) :
  (isJitoEnabled config = true <->
     useJito (executorConfig config) = true
     /\ positive (JitoConfig.tipAmount (jitoConfig config)))
  /\ (isBloxRouteEnabled config = true <->
        useBloxRoute (executorConfig config) = true
        /\ BloxRouteConfig.authHeader (bloxRouteConfig config) <> ""
        /\ positive (BloxRouteConfig.fee (bloxRouteConfig config)))
  /\ (isNozomiEnabled config = true <->
        useNozomi (executorConfig config) = true
        /\ NozomiConfig.apiKey (nozomiConfig config) <> ""
        /\ positive (NozomiConfig.tipAmount (nozomiConfig config)))
  /\ (forall name,
         In name (getEnabledProviders config) <->
         (name = "Jito" /\ isJitoEnabled config = true)
         \/ (name = "BloxRoute" /\ isBloxRouteEnabled config = true)
         \/ (name = "Nozomi" /\ isNozomiEnabled config = true))
  /\ (forall web3 env transaction signers name,
         In name (submitted (trace (snd (TransactionExecutor.run web3 config env
                                           transaction signers)))) ->
         (name = "jito" /\ isJitoEnabled config = true)
         \/ (name = "bloxroute" /\ isBloxRouteEnabled config = true)
         \/ (name = "nozomi" /\ isNozomiEnabled config = true)).
Proof.
  split; [apply isJitoEnabled_iff|]. split; [apply isBloxRouteEnabled_iff|].
  split; [apply isNozomiEnabled_iff|]. split; [apply getEnabledProviders_In|].
  intros web3 env transaction signers name Hin.
  unfold TransactionExecutor.run in Hin. rewrite executeTransaction_run in Hin.
  destruct (new_settles web3 config env) as (Hj & Hb & Hn).
  destruct (executeWithStrategy_returns web3 (fallbackRpc env)
              (TransactionExecutor.new web3 config env) signers Hj Hb Hn
              (determineOptimalStrategy config) (mkSys transaction []))
    as (r & s' & Hrun & _ & Hnames).
  simpl in Hrun, Hin. rewrite Hrun in Hin.
  apply hybridNames_In.
  assert (In name (submitted (trace s'))) as Hs'.
  { destruct r as [result|e|]; [destruct (success result)| |]; exact Hin. }
  destruct (Hnames name Hs') as [[]|H]. exact H.
Qed.

(** C10, on the sample configuration: flag, credential and fee together
    enable BloxRoute. *)
Lemma provider_enabled_only_when_configured_witness :
  isBloxRouteEnabled (Sim.configOf false true false None) = true.
Proof.
  apply (provider_enabled_only_when_configured (Sim.configOf false true false None)).
  split; [reflexivity|]. split; [discriminate | reflexivity].
Defined.

(** ** Strategy selection *)

(** C5. The strategy is a function of the list of enabled providers alone:
    none gives the fallback, one gives the strategy of that provider, two
    or more give hybrid; two configurations with the same enabled providers
    get the same strategy, and under hybrid the executor of every enabled
    provider is called. *)
Theorem strategy_selection (config : ConfigManager) :
  determineOptimalStrategy config = selectStrategy (getEnabledProviders config)
  /\ (getEnabledProviders config = [] -> determineOptimalStrategy config = FALLBACK)
  /\ (getEnabledProviders config = ["Jito"] -> determineOptimalStrategy config = JITO_ONLY)
  /\ (getEnabledProviders config = ["BloxRoute"] ->
      determineOptimalStrategy config = BLOXROUTE_ONLY)
  /\ (getEnabledProviders config = ["Nozomi"] -> determineOptimalStrategy config = NOZOMI_ONLY)
  /\ ((2 <= List.length (getEnabledProviders config))%nat ->
      determineOptimalStrategy config = HYBRID)
  /\ (forall config',
         getEnabledProviders config' = getEnabledProviders config ->
         determineOptimalStrategy config' = determineOptimalStrategy config)
  /\ (forall web3 connection this signers s clone,
         TransactionExecutor.config this = config ->
         determineOptimalStrategy config = HYBRID ->
         reparse web3 (callerTx s) = Returns clone ->
         submitted (trace (snd (TransactionExecutor.executeWithStrategy web3 connection this
                                  signers (determineOptimalStrategy config) s)))
         = (submitted (trace s) ++ map toLowerCase (getEnabledProviders config))%list).
Proof.
  pose proof (determineOptimalStrategy_selectStrategy config) as Hsel.
  split; [exact Hsel|].
  split; [intros H; now rewrite Hsel, H|].
  split; [intros H; now rewrite Hsel, H|].
  split; [intros H; now rewrite Hsel, H|].
  split; [intros H; now rewrite Hsel, H|].
  split.
  { rewrite Hsel. destruct (getEnabledProviders config) as [|a [|b l]]; simpl; intros; [lia|lia|].
    reflexivity. }
  split.
  { intros config' H. now rewrite Hsel, determineOptimalStrategy_selectStrategy, H. }
  intros web3 connection this signers s clone <- Hhybrid Hclone.
  rewrite Hhybrid. cbn [TransactionExecutor.executeWithStrategy].
  rewrite (executeHybrid_cloned _ _ _ _ _ _ Hclone). cbv zeta.
  rewrite <- hybridNames_enabled.
  assert (submitted (trace s ++ map EvSubmit (hybridNames (TransactionExecutor.config this)))
          = (submitted (trace s) ++ hybridNames (TransactionExecutor.config this))%list) as Hsub.
  { now rewrite submitted_app, submitted_EvSubmit. }
  destruct (Nat.eqb _ 0); [exact Hsub|].
  destruct (state (promiseAny _)); try exact Hsub.
  destruct (executeFallback_run web3 connection this signers
              (mkSys (callerTx s)
                 (trace s ++ map EvSubmit (hybridNames (TransactionExecutor.config this)))))
    as (count & result & Hrun & _).
  rewrite Hrun. simpl. rewrite submitted_app.
  change (submitted (EvFallback :: ?l)) with (submitted l).
  rewrite submitted_fallbackTrace, app_nil_r. exact Hsub.
Qed.

(** C5, on the sample configuration with Jito and Nozomi in use. *)
Lemma strategy_selection_witness :
  determineOptimalStrategy (Sim.configOf true false true None) = HYBRID
  /\ submitted (trace (snd (TransactionExecutor.executeWithStrategy Sim.web3 (Sim.flaky 0)
                              (Sim.engine (Sim.configOf true false true None)) Sim.signers
                              (determineOptimalStrategy (Sim.configOf true false true None))
                              (mkSys Sim.prepared []))))
     = ["jito"; "nozomi"].
Proof.
  pose proof (strategy_selection (Sim.configOf true false true None))
    as (_ & _ & _ & _ & _ & Hhybrid & _ & Hall).
  split.
  - apply Hhybrid. simpl. lia.
  - apply (Hall Sim.web3 (Sim.flaky 0) (Sim.engine (Sim.configOf true false true None))
             Sim.signers (mkSys Sim.prepared []) Sim.prepared).
    + reflexivity.
    + apply Hhybrid. simpl. lia.
    + reflexivity.
Defined.

(** ** The top level *)

(** C8. [executeTransaction] returns one result for every configuration,
    environment, library, transaction and list of signers: a fault thrown
    by the chosen path, and a failure it returns, both become a failure
    result that carries the chosen strategy and an error message. *)
Theorem executeTransaction_never_raises
  (web3 : Web3) (config : ConfigManager) (env : Env)
  (transaction : Transaction) (signers : list Keypair) :
  let this := TransactionExecutor.new web3 config env in
  let chosen := determineOptimalStrategy config in
  let inner :=
    TransactionExecutor.executeWithStrategy web3 (fallbackRpc env) this signers chosen
      (mkSys transaction []) in
  exists result,
    TransactionExecutor.run web3 config env transaction signers = (Ok result, snd inner)
    /\ strategy result = Some chosen
    /\ (success result = false -> exists message, error result = Some message)
    /\ (forall e,
           fst inner = Throw e ->
           result = mkResult false None (Some (errorMessage e)) (Some chosen) None None)
    /\ (forall r,
           fst inner = Ok r -> success r = false ->
           result = mkResult false None
                      (Some (orString (error r) "Transaction execution failed"))
                      (Some chosen) None None)
    /\ (forall r, fst inner = Ok r -> success r = true -> result = withStrategy chosen r).
Proof.
  intros this chosen inner.
  destruct (new_settles web3 config env) as (Hj & Hb & Hn).
  destruct (executeWithStrategy_returns web3 (fallbackRpc env) this signers Hj Hb Hn
              chosen (mkSys transaction []))
    as (r & s' & Hrun & Hsettled & _).
  unfold TransactionExecutor.run. rewrite executeTransaction_run.
  fold this. change (determineOptimalStrategy (TransactionExecutor.config this)) with chosen.
  unfold inner. rewrite Hrun. simpl.
  destruct r as [r|e|]; [| |congruence].
  - destruct (success r) eqn:Hs.
    + eexists. split; [reflexivity|]. simpl. rewrite Hs.
      split; [reflexivity|]. split; [discriminate|]. split; [discriminate|].
      split; intros r0 [= <-]; [congruence | reflexivity].
    + eexists. split; [reflexivity|]. simpl.
      split; [reflexivity|]. split; [eauto|]. split; [discriminate|].
      split; intros r0 [= <-]; [reflexivity | congruence].
  - eexists. split; [reflexivity|]. simpl.
    split; [reflexivity|]. split; [eauto|]. split; [intros e0 [= <-]; reflexivity|].
    split; discriminate.
Qed.

(** C7. With exactly one provider enabled, the engine calls the executor of
    that provider on the transaction, and when the executor reports a
    failure the result is a failure with the error string of the executor
    and the strategy of the provider; the trace holds the call of the
    executor and nothing else: the fallback path is not entered. *)
Theorem single_channel_failure_is_final
  (web3 : Web3) (config : ConfigManager) (env : Env)
  (transaction : Transaction) (signers : list Keypair) :
  let this := TransactionExecutor.new web3 config env in
  let chosen := determineOptimalStrategy config in
  List.length (getEnabledProviders config) = 1%nat ->
  exists name executor r,
    executorOf this chosen = Some (name, executor)
    /\ map toLowerCase (getEnabledProviders config) = [name]
    /\ state (snd (executor transaction signers)) = Ok r
    /\ (success r = false ->
        TransactionExecutor.run web3 config env transaction signers
        = (Ok (mkResult false None (error r) (Some chosen) None None),
           mkSys (fst (executor transaction signers)) [EvSubmit name])
        /\ fallbackEntered [EvSubmit name] = false).
Proof.
  intros this chosen Hone.
  assert (forall name executor,
             executorOf this chosen = Some (name, executor) ->
             TransactionExecutor.executeWithStrategy web3 (fallbackRpc env) this signers
               chosen (mkSys transaction [])
             = TransactionExecutor.onOriginal name executor signers (mkSys transaction []) ->
             (exists r, state (snd (executor transaction signers)) = Ok r /\ reasoned r) ->
             map toLowerCase (getEnabledProviders config) = [name] ->
             exists name executor r,
               executorOf this chosen = Some (name, executor)
               /\ map toLowerCase (getEnabledProviders config) = [name]
               /\ state (snd (executor transaction signers)) = Ok r
               /\ (success r = false ->
                   TransactionExecutor.run web3 config env transaction signers
                   = (Ok (mkResult false None (error r) (Some chosen) None None),
                      mkSys (fst (executor transaction signers)) [EvSubmit name])
                   /\ fallbackEntered [EvSubmit name] = false)) as Hfinal.
  { intros name executor Hex Hpath (r & Hr & Hreason) Hname.
    exists name, executor, r. repeat split; try assumption.
    unfold TransactionExecutor.run. rewrite executeTransaction_run.
    fold this. change (determineOptimalStrategy (TransactionExecutor.config this)) with chosen.
    rewrite Hpath, onOriginal_run. simpl. rewrite Hr, H.
    destruct (Hreason H) as (message & Hm & Hne).
    rewrite Hm, orString_reason by assumption. reflexivity. }
  subst chosen.
  destruct (single_enabled config Hone)
    as [(Hen & Hch & Hflag)|[(Hen & Hch & Hflag)|(Hen & Hch & Hflag)]];
    rewrite Hch, Hen in *.
  - apply (Hfinal "jito" (TransactionExecutor.jitoExecutor this)); try reflexivity.
    + cbn [TransactionExecutor.executeWithStrategy].
      change (TransactionExecutor.config this) with config. now rewrite Hflag.
    + apply JitoExecutor_fulfilled.
  - apply (Hfinal "bloxroute" (TransactionExecutor.bloxRouteExecutor this)); try reflexivity.
    + cbn [TransactionExecutor.executeWithStrategy].
      change (TransactionExecutor.config this) with config. now rewrite Hflag.
    + apply BloxRouteExecutor_fulfilled.
  - apply (Hfinal "nozomi" (TransactionExecutor.nozomiExecutor this)); try reflexivity.
    + cbn [TransactionExecutor.executeWithStrategy].
      change (TransactionExecutor.config this) with config. now rewrite Hflag.
    + apply NozomiExecutor_fulfilled.
Qed.

(** C7, on the sample configuration with BloxRoute alone in use and its
    connection down: the failure of the executor is the result. *)
Lemma single_channel_failure_is_final_witness :
  TransactionExecutor.run Sim.web3 (Sim.configOf false true false (Some 3))
    (Sim.env (Sim.jitoOk 50) (Sim.bloxRouteDown 80) (Sim.nozomiOk 90) (Sim.flaky 0))
    Sim.payload Sim.signers
  = (Ok (mkResult false None (Some "BloxRoute execution failed: socket hang up")
           (Some BLOXROUTE_ONLY) None None),
     mkSys Sim.payload [EvSubmit "bloxroute"]).
Proof.
  destruct (single_channel_failure_is_final Sim.web3
              (Sim.configOf false true false (Some 3))
              (Sim.env (Sim.jitoOk 50) (Sim.bloxRouteDown 80) (Sim.nozomiOk 90) (Sim.flaky 0))
              Sim.payload Sim.signers eq_refl)
    as (name & executor & r & Hexecutor & _ & Hr & Hfinal).
  injection Hexecutor as <- <-.
  injection Hr as <-.
  destruct Hfinal as [Hrun _]; [reflexivity|].
  exact Hrun.
Defined.

(** C8, when the transaction cannot be copied: the fault of the hybrid path
    comes back as a failure result. *)
Lemma executeTransaction_never_raises_witness :
  exists result s',
    TransactionExecutor.run Sim.web3NoCopy (Sim.configOf true true true (Some 3))
      (Sim.env (Sim.jitoOk 50) (Sim.bloxRouteOk 80) (Sim.nozomiOk 90) (Sim.flaky 0))
      Sim.payload Sim.signers = (Ok result, s')
    /\ result = mkResult false None (Some "Transaction recentBlockhash required")
                  (Some HYBRID) None None.
Proof.
  destruct (executeTransaction_never_raises Sim.web3NoCopy (Sim.configOf true true true (Some 3))
              (Sim.env (Sim.jitoOk 50) (Sim.bloxRouteOk 80) (Sim.nozomiOk 90) (Sim.flaky 0))
              Sim.payload Sim.signers)
    as (result & Hrun & _ & _ & Hthrow & _).
  exists result. eexists. split; [exact Hrun|].
  apply (Hthrow (ErrorObj "Transaction recentBlockhash required")). reflexivity.
Defined.

(** ** The hybrid race *)



(** C1, on the code. Jito and BloxRoute are enabled; the Jito attempt
    settles first (50 ms) and reports a failure, the BloxRoute attempt
    settles later (80 ms) and reports a success. The result of
    [executeTransaction] is the failure of Jito: the race is won by the
    first promise that is fulfilled, whatever it reports. *)
Theorem hybrid_first_settled_failure_wins :
  let config := Sim.configOf true true false (Some 3) in
  let env := Sim.env (Sim.jitoRefused 50) (Sim.bloxRouteOk 80) (Sim.nozomiOk 90) (Sim.flaky 0) in
  let this := TransactionExecutor.new Sim.web3 config env in
  hybridExecutors this Sim.prepared Sim.signers
  = [mkPromise 50 (Ok (failure "All Jito endpoints failed. Errors: timeout" "jito"));
     mkPromise 80 (Ok (succeeded "sigB" "bloxroute"))]
  /\ TransactionExecutor.run Sim.web3 config env Sim.prepared Sim.signers
     = (Ok (mkResult false None (Some "All Jito endpoints failed. Errors: timeout")
              (Some HYBRID) None None),
        mkSys Sim.prepared [EvSubmit "jito"; EvSubmit "bloxroute"]).
Proof. vm_compute. split; reflexivity. Qed.

(** C2, on the code. Jito and BloxRoute are enabled and both report a
    failure; the connection of the fallback path is up. The result is the
    failure of the attempt that settled first, and the fallback path is not
    entered. *)
Theorem hybrid_all_failed_skips_fallback :
  let config := Sim.configOf true true false (Some 3) in
  let env :=
    Sim.env (Sim.jitoRefused 50) (Sim.bloxRouteDown 80) (Sim.nozomiOk 90) (Sim.flaky 0) in
  let this := TransactionExecutor.new Sim.web3 config env in
  hybridExecutors this Sim.prepared Sim.signers
  = [mkPromise 50 (Ok (failure "All Jito endpoints failed. Errors: timeout" "jito"));
     mkPromise 80 (Ok (failure "BloxRoute execution failed: socket hang up" "bloxroute"))]
  /\ TransactionExecutor.run Sim.web3 config env Sim.prepared Sim.signers
     = (Ok (mkResult false None (Some "All Jito endpoints failed. Errors: timeout")
              (Some HYBRID) None None),
        mkSys Sim.prepared [EvSubmit "jito"; EvSubmit "bloxroute"])
  /\ fallbackEntered
       (trace (snd (TransactionExecutor.run Sim.web3 config env Sim.prepared Sim.signers)))
     = false
  /\ fst (TransactionExecutor.executeFallback Sim.web3 (Sim.flaky 0) this Sim.signers
            (mkSys Sim.prepared []))
     = Ok (mkResult true (Some "sigF") None None (Some 0) (Some "fallback")).
Proof. vm_compute. repeat split; reflexivity. Qed.

(** C3, on the code. With BloxRoute alone in use, and with Jito alone, the
    executor is handed the transaction of the caller and changes it: after
    the call it holds a blockhash, a fee payer, signatures and, for
    BloxRoute, one more instruction. *)
Theorem single_channel_mutates_payload :
  let env := Sim.env (Sim.jitoOk 50) (Sim.bloxRouteOk 80) (Sim.nozomiOk 90) (Sim.flaky 0) in
  callerTx (snd (TransactionExecutor.run Sim.web3 (Sim.configOf false true false (Some 3)) env
                   Sim.payload Sim.signers))
  = mkTransaction (Some "blockhash") None (Some "payer")
      [ProgramInstruction "create";
       SystemTransfer "payer" BloxRouteExecutor.bloxRouteTipWallet
         (Fin (1000000000 # 1000))]
      ["payer"; "mint"]
  /\ callerTx (snd (TransactionExecutor.run Sim.web3 (Sim.configOf true false false (Some 3)) env
                      Sim.payload Sim.signers))
     = mkTransaction (Some "blockhash") None (Some "payer")
         [ProgramInstruction "create"] ["payer"; "mint"]
  /\ Sim.payload = mkTransaction None None None [ProgramInstruction "create"] [].
Proof. vm_compute. repeat split; reflexivity. Qed.

(** ** What the code does instead *)

(** With the executors of the repository, a hybrid execution that can copy
    the transaction returns the result of the attempt that settles first,
    success or failure, leaves the transaction of the caller as it was, and
    never enters the fallback path. *)
Theorem hybrid_returns_first_settled
  (web3 : Web3) (config : ConfigManager) (env : Env)
  (signers : list Keypair) (s : Sys) (clone : Transaction) :
  let this := TransactionExecutor.new web3 config env in
  let executors := hybridExecutors this clone signers in
  determineOptimalStrategy config = HYBRID ->
  reparse web3 (callerTx s) = Returns clone ->
  exists p result,
    In p executors /\ earliest p executors /\ state p = Ok result
    /\ TransactionExecutor.executeHybrid web3 (fallbackRpc env) this signers s
       = (Ok result, mkSys (callerTx s) (trace s ++ map EvSubmit (hybridNames config)))
    /\ fallbackEntered (map EvSubmit (hybridNames config)) = false.
Proof.
  intros this executors Hhybrid Hclone.
  rewrite (executeHybrid_cloned _ _ _ _ _ _ Hclone). cbv zeta.
  change (TransactionExecutor.config this) with config. fold executors.
  assert (executors <> []) as Hne.
  { intros Hnil. apply (f_equal (@List.length _)) in Hnil.
    unfold executors in Hnil. rewrite hybridExecutors_length in Hnil.
    change (TransactionExecutor.config this) with config in Hnil.
    unfold determineOptimalStrategy in Hhybrid. rewrite Hnil in Hhybrid. simpl in Hhybrid.
    destruct (isJitoEnabled config), (isBloxRouteEnabled config), (isNozomiEnabled config);
      discriminate. }
  destruct (promiseAny_first_settled executors Hne
              (new_hybridExecutors_fulfilled web3 config env clone signers))
    as (p & Hin & Hearly & Hany).
  pose proof (new_hybridExecutors_fulfilled web3 config env clone signers) as Hall.
  rewrite Forall_forall in Hall. destruct (Hall p Hin) as [result Hp].
  exists p, result. repeat split; try assumption.
  - rewrite Hany, Hp.
    destruct (Nat.eqb (List.length executors) 0) eqn:E; [|reflexivity].
    apply Nat.eqb_eq in E. destruct executors; [congruence | discriminate].
  - unfold hybridNames.
    destruct (isJitoEnabled config), (isBloxRouteEnabled config), (isNozomiEnabled config);
      reflexivity.
Qed.

(** The theorem above, on the sample configuration with Jito and BloxRoute. *)
Lemma hybrid_returns_first_settled_witness :
  exists p result,
    In p (hybridExecutors
            (TransactionExecutor.new Sim.web3 (Sim.configOf true true false None)
               (Sim.env (Sim.jitoRefused 50) (Sim.bloxRouteOk 80) (Sim.nozomiOk 90)
                  (Sim.flaky 0)))
            Sim.prepared Sim.signers)
    /\ state p = Ok result
    /\ TransactionExecutor.executeHybrid Sim.web3 (Sim.flaky 0)
         (TransactionExecutor.new Sim.web3 (Sim.configOf true true false None)
            (Sim.env (Sim.jitoRefused 50) (Sim.bloxRouteOk 80) (Sim.nozomiOk 90)
               (Sim.flaky 0)))
         Sim.signers (mkSys Sim.prepared [])
       = (Ok result, mkSys Sim.prepared [EvSubmit "jito"; EvSubmit "bloxroute"]).
Proof.
  destruct (hybrid_returns_first_settled Sim.web3 (Sim.configOf true true false None)
              (Sim.env (Sim.jitoRefused 50) (Sim.bloxRouteOk 80) (Sim.nozomiOk 90)
                 (Sim.flaky 0))
              Sim.signers (mkSys Sim.prepared []) Sim.prepared eq_refl eq_refl)
    as (p & result & Hin & _ & Hp & Hrun & _).
  exists p, result. repeat split; assumption.
Defined.

(** With no provider enabled, [executeTransaction] returns what the fallback
    path returns, with the strategy added, when that is a success: the
    retry count of the fallback is kept. A failure of the fallback is built
    anew from its error message: the retry count is not carried over. *)
Theorem fallback_strategy_result
  (web3 : Web3) (config : ConfigManager) (env : Env)
  (transaction : Transaction) (signers : list Keypair) :
  let this := TransactionExecutor.new web3 config env in
  getEnabledProviders config = [] ->
  exists r s',
    TransactionExecutor.executeFallback web3 (fallbackRpc env) this signers
      (mkSys transaction []) = (Ok r, s')
    /\ (success r = true ->
        TransactionExecutor.run web3 config env transaction signers
        = (Ok (withStrategy FALLBACK r), s'))
    /\ (success r = false ->
        TransactionExecutor.run web3 config env transaction signers
        = (Ok (mkResult false None (error r) (Some FALLBACK) None None), s')).
Proof.
  intros this Hnone.
  destruct (executeFallback_run web3 (fallbackRpc env) this signers (mkSys transaction []))
    as (count & r & Hrun & Hloop).
  exists r. eexists. split; [exact Hrun|].
  assert (determineOptimalStrategy config = FALLBACK) as Hch.
  { now rewrite determineOptimalStrategy_selectStrategy, Hnone. }
  unfold TransactionExecutor.run. rewrite executeTransaction_run.
  fold this. change (TransactionExecutor.config this) with config. rewrite Hch.
  cbn [TransactionExecutor.executeWithStrategy]. rewrite Hrun.
  split; intros Hs; rewrite Hs; [reflexivity|].
  destruct (LoopRun_reasoned _ _ _ _ _ _ _ _ _ Hloop Hs) as (message & Hm & Hne).
  now rewrite Hm, orString_reason.
Qed.

(** The theorem above, on a connection that stays down, three attempts
    allowed: the fallback reports three retries, the caller sees none. *)
Lemma fallback_strategy_result_witness :
  exists r s',
    TransactionExecutor.executeFallback Sim.web3 (Sim.flaky 3)
      (TransactionExecutor.new Sim.web3 (Sim.configOf false false false (Some 3))
         (Sim.env (Sim.jitoOk 50) (Sim.bloxRouteOk 80) (Sim.nozomiOk 90) (Sim.flaky 3)))
      Sim.signers (mkSys Sim.payload []) = (Ok r, s')
    /\ retryCount r = Some 3
    /\ TransactionExecutor.run Sim.web3 (Sim.configOf false false false (Some 3))
         (Sim.env (Sim.jitoOk 50) (Sim.bloxRouteOk 80) (Sim.nozomiOk 90) (Sim.flaky 3))
         Sim.payload Sim.signers
       = (Ok (mkResult false None (Some "Fallback execution failed: rpc down")
                (Some FALLBACK) None None), s').
Proof.
  destruct (fallback_strategy_result Sim.web3 (Sim.configOf false false false (Some 3))
              (Sim.env (Sim.jitoOk 50) (Sim.bloxRouteOk 80) (Sim.nozomiOk 90) (Sim.flaky 3))
              Sim.payload Sim.signers eq_refl)
    as (r & s' & Hrun & _ & Hfailure).
  exists r, s'. injection Hrun as <- <-.
  split; [reflexivity|]. split; [reflexivity|].
  apply Hfailure. reflexivity.
Defined.

(** * Further properties of the code *)

(** ** Strategy dispatch *)

(** The two ways of choosing a path agree: [executeAuto], which counts the
    enabled providers itself, does what [executeWithStrategy] does with
    the strategy of [determineOptimalStrategy]. That strategy is never
    [AUTO], a single provider strategy is only chosen for a provider that is
    enabled, and the hybrid strategy only when two executors at least are
    raced: the guards of [executeWithStrategy] and of [executeHybrid] do not
    fire on it. *)
Theorem executeAuto_follows_determined_strategy
  (web3 : Web3) (connection : nat -> Rpc) (this : TransactionExecutor.t)
  (signers : list Keypair) :
  let config := TransactionExecutor.config this in
  let chosen := determineOptimalStrategy config in
  TransactionExecutor.executeAuto web3 connection this signers
  = TransactionExecutor.executeWithStrategy web3 connection this signers chosen
  /\ chosen <> AUTO
  /\ (chosen = JITO_ONLY -> isJitoEnabled config = true)
  /\ (chosen = BLOXROUTE_ONLY -> isBloxRouteEnabled config = true)
  /\ (chosen = NOZOMI_ONLY -> isNozomiEnabled config = true)
  /\ (chosen = HYBRID ->
      forall clone, (2 <= List.length (hybridExecutors this clone signers))%nat)
  /\ (chosen = FALLBACK -> getEnabledProviders config = []).
Proof.
  intros config chosen. subst chosen.
  unfold determineOptimalStrategy, TransactionExecutor.executeAuto,
    TransactionExecutor.executeWithStrategy, getEnabledProviders, hybridExecutors.
  fold config.
  destruct (isJitoEnabled config), (isBloxRouteEnabled config), (isNozomiEnabled config);
    cbn; repeat split; intros; try discriminate; try reflexivity; lia.
Qed.

(** ** The bound on fallback attempts *)

Section LoopBounds.
Variables (web3 : Web3) (connection : nat -> Rpc) (this : TransactionExecutor.t).
Variables (transaction : Transaction) (signers : list Keypair).

(** The loop makes no more attempts than the retries left, and returns a
    failure only when it has made them all. *)
Lemma LoopRun_bound maxRetries retries count result :
  LoopRun web3 connection this transaction signers maxRetries retries count result ->
  Z.of_nat count <= Z.max 0 (maxRetries - retries)
  /\ (success result = false -> Z.of_nat count = Z.max 0 (maxRetries - retries))
  /\ (retries < maxRetries -> (1 <= count)%nat)
  /\ (maxRetries <= retries ->
      count = 0%nat /\ error result = Some "Maximum retry attempts reached").
Proof.
  induction 1 as [k Hk | k r Hk Hok | k e Hk Hthrow Hlast | k e c r Hk Hthrow Hmore Hrun IH].
  - repeat split; intros; lia.
  - apply attemptOutcome_Ok in Hok as (Hs & _).
    repeat split; intros; try lia. congruence.
  - repeat split; intros; lia.
  - destruct IH as (Hle & Hfail & _).
    repeat split; intros; try lia. specialize (Hfail H). lia.
Qed.
End LoopBounds.

(** The direct fallback never makes more attempts than the retry bound
    allows, makes one at least when the bound is positive, and returns a
    failure only after having used them all. The bound in force is never
    zero: a configured [0], like a value that is not a number, stands for
    [MAX_RETRY_ATTEMPTS]. With a negative bound no attempt is made and the
    failure says that the maximum is reached. The delays requested add up
    to no more than [500 * maxRetries * (maxRetries - 1)] milliseconds. *)
Theorem fallback_attempts_bounded
  (web3 : Web3) (connection : nat -> Rpc) (this : TransactionExecutor.t)
  (signers : list Keypair) (s : Sys) :
  let maxRetries := TransactionExecutor.effectiveMaxRetries this in
  exists result count,
    TransactionExecutor.executeFallback web3 connection this signers s
    = (Ok result, mkSys (callerTx s) (trace s ++ EvFallback :: fallbackTrace 0 count))
    /\ attempts (EvFallback :: fallbackTrace 0 count) = Z.of_nat count
    /\ Z.of_nat count <= Z.max 0 maxRetries
    /\ (1 <= maxRetries -> 1 <= Z.of_nat count)
    /\ (success result = false -> Z.of_nat count = Z.max 0 maxRetries)
    /\ maxRetries <> 0
    /\ (maxRetries < 0 ->
        count = 0%nat /\ error result = Some "Maximum retry attempts reached")
    /\ totalDelay (EvFallback :: fallbackTrace 0 count)
       <= 500 * Z.max 0 maxRetries * (Z.max 0 maxRetries - 1).
Proof.
  intros maxRetries.
  destruct (executeFallback_run web3 connection this signers s)
    as (count & result & Hrun & Hloop).
  fold maxRetries in Hloop.
  destruct (LoopRun_bound _ _ _ _ _ _ _ _ _ Hloop) as (Hle & Hfail & Hone & Hnone).
  rewrite Z.sub_0_r in Hle, Hfail.
  exists result, count. split; [exact Hrun|].
  split; [exact (attempts_fallbackTrace count 0)|].
  split; [exact Hle|].
  split; [intros H; specialize (Hone ltac:(lia)); lia|].
  split; [exact Hfail|].
  split.
  { subst maxRetries. unfold TransactionExecutor.effectiveMaxRetries, MAX_RETRY_ATTEMPTS.
    destruct (maxRetries _) as [[| |]|]; discriminate. }
  split.
  { intros Hneg. apply Hnone. lia. }
  change (totalDelay (EvFallback :: ?l)) with (totalDelay l).
  remember (Z.max 0 maxRetries) as bound eqn:Hbound. clear Hbound.
  destruct count as [|count].
  - change (totalDelay (fallbackTrace 0 0)) with 0.
    assert (bound = 0 \/ 1 <= bound) as [->|Hpos] by lia; nia.
  - rewrite totalDelay_fallbackTrace.
    assert (Z.of_nat count + 1 <= bound) as Hc by lia.
    assert (0 <= Z.of_nat count) as Hc0 by lia. nia.
Qed.

(** ** The submission of a bundle to the Jito endpoints *)

Lemma prefix_app (p s : string) : String.prefix p (p ++ s) = true.
Proof.
  induction p as [|c p IH]; simpl; [now destruct s|].
  destruct (ascii_dec c c); [exact IH | congruence].
Qed.

Lemma append_assoc (a b c : string) : (a ++ b) ++ c = a ++ b ++ c.
Proof. induction a as [|x a IH]; simpl; [reflexivity | now rewrite IH]. Qed.

Lemma isSubstring_app (part before after : string) :
  isSubstring part (before ++ part ++ after) = true.
Proof.
  induction before as [|c before IH].
  - change ("" ++ part ++ after) with (part ++ after).
    pose proof (prefix_app part after) as H.
    destruct (part ++ after); cbn [isSubstring]; rewrite H; reflexivity.
  - change (String c before ++ part ++ after) with (String c (before ++ part ++ after)).
    cbn [isSubstring]. rewrite IH. apply orb_true_r.
Qed.

Lemma concat_In (sep part : string) (parts : list string) :
  In part parts ->
  exists before after, String.concat sep parts = before ++ part ++ after.
Proof.
  induction parts as [|p parts IH]; intros Hin; [destruct Hin|].
  destruct Hin as [->|Hin].
  - exists "". destruct parts as [|q parts].
    + exists "". simpl. clear. induction part as [|c part IH]; simpl; [reflexivity|].
      now rewrite <- IH.
    + exists (sep ++ String.concat sep (q :: parts)). reflexivity.
  - destruct (IH Hin) as (before & after & Heq).
    destruct parts as [|q parts]; [destruct Hin|].
    exists (p ++ sep ++ before), after.
    change (String.concat sep (p :: q :: parts))
      with (p ++ sep ++ String.concat sep (q :: parts)).
    rewrite Heq.
    now rewrite !append_assoc.
Qed.

Section JitoBundleFacts.
Variable post : string -> JitoBundle.AxiosAnswer.

Lemma accepted_some (endpoints : list string) :
  (0 <? List.length (filter JitoBundle.accepted (map post endpoints)))%nat = true
  <-> exists endpoint, In endpoint endpoints /\ post endpoint = JitoBundle.Responded 200.
Proof.
  induction endpoints as [|e endpoints IH]; simpl.
  - split; [discriminate | intros (x & [] & _)].
  - destruct (post e) as [status|message] eqn:He; simpl.
    + destruct (status =? 200) eqn:Es; simpl.
      * split; [|reflexivity]. intros _. apply Z.eqb_eq in Es as ->. eauto.
      * rewrite IH. split.
        -- intros (x & Hx & Hp). eauto.
        -- intros (x & [<-|Hx] & Hp); [|eauto].
           rewrite He in Hp. injection Hp as ->. discriminate.
    + rewrite IH. split.
      * intros (x & Hx & Hp). eauto.
      * intros (x & [<-|Hx] & Hp); [congruence | eauto].
Qed.

Lemma failureOf_In (endpoints : list string) (endpoint message : string) :
  In endpoint endpoints ->
  post endpoint = JitoBundle.Failed message ->
  In message (flat_map JitoBundle.failureOf (map post endpoints)).
Proof.
  intros Hin Hp. apply in_flat_map. exists (post endpoint).
  split; [now apply in_map | rewrite Hp; now left].
Qed.
End JitoBundleFacts.

(** The bundle counts as submitted exactly when one endpoint at least
    answers with status 200. Otherwise the result carries a message that
    starts with ['All Jito endpoints failed. Errors: '] and names the error
    of every endpoint that could not be reached; the message is never
    empty, so the executor never falls back on ['No Jito validators
    accepted the bundle']. *)
Theorem submitToJitoEndpoints_result
  (post : string -> JitoBundle.AxiosAnswer) (endpoints : list string) :
  let result := JitoBundle.submitToJitoEndpoints post endpoints in
  (fst result = true
   <-> exists endpoint, In endpoint endpoints /\ post endpoint = JitoBundle.Responded 200)
  /\ (fst result = true -> snd result = None)
  /\ (fst result = false ->
      exists message,
        snd result = Some message
        /\ String.prefix "All Jito endpoints failed. Errors: " message = true
        /\ (forall endpoint reason,
               In endpoint endpoints -> post endpoint = JitoBundle.Failed reason ->
               isSubstring reason message = true)
        /\ orString (snd result) "No Jito validators accepted the bundle" = message).
Proof.
  intros result. subst result. unfold JitoBundle.submitToJitoEndpoints.
  pose proof (accepted_some post endpoints) as Hacc.
  destruct (0 <? List.length (filter JitoBundle.accepted (map post endpoints)))%nat;
    cbv zeta; cbn [fst snd].
  - split; [exact Hacc|]. split; [reflexivity | discriminate].
  - split; [exact Hacc|]. split; [discriminate|]. intros _.
    eexists. split; [reflexivity|]. split; [apply prefix_app|]. split; [|reflexivity].
    intros endpoint reason Hin Hp.
    destruct (concat_In ", " reason _ (failureOf_In post endpoints endpoint reason Hin Hp))
      as (before & after & ->).
    rewrite <- append_assoc. apply isSubstring_app.
Qed.

(** The Jito executor, fed by the submission above, always settles on a
    result under the name ["jito"]. It reports a success only when an
    endpoint accepted the bundle with status 200, and then with a signature
    and no error; a failure has no signature and a reason. When no
    endpoint answers with status 200 the result is a failure. *)
Theorem jito_success_needs_accepted_bundle
  (web3 : Web3) (config : ConfigManager) (env : JitoEnv)
  (post : string -> JitoBundle.AxiosAnswer) (endpoints : list string)
  (transaction : Transaction) (signers : list Keypair) :
  submitToJitoEndpoints env = JitoBundle.submitToJitoEndpoints post endpoints ->
  exists result,
    state (snd (JitoExecutor.executeTransaction web3 config env transaction signers))
    = Ok result
    /\ provider result = Some "jito"
    /\ (success result = true ->
        (exists endpoint,
            In endpoint endpoints /\ post endpoint = JitoBundle.Responded 200)
        /\ (exists sig, signature result = Some sig) /\ error result = None)
    /\ (success result = false ->
        signature result = None /\ exists message, error result = Some message /\ message <> "")
    /\ ((forall endpoint, In endpoint endpoints -> post endpoint <> JitoBundle.Responded 200) ->
        success result = false).
Proof.
  intros Hsub.
  pose proof (accepted_some post endpoints) as Hacc.
  unfold JitoExecutor.executeTransaction. unfold_js. simpl. rewrite Hsub.
  unfold JitoBundle.submitToJitoEndpoints.
  destruct (0 <? List.length (filter JitoBundle.accepted (map post endpoints)))%nat;
    cbv zeta; cbn [fst snd];
    repeat answer;
    (eexists; split; [reflexivity|]; split; [reflexivity|]; cbn [success signature error failure succeeded];
     split; [|split]);
    try (intros Hs; discriminate Hs);
    try (intros _; split; [reflexivity|]; eexists; split; [reflexivity | discriminate]);
    try (intros _; split; [now apply Hacc|]; split; [eexists|]; reflexivity);
    try (intros _; reflexivity).
  all: intros Hnone; exfalso; destruct (proj1 Hacc eq_refl) as (endpoint & Hin & Hp);
    exact (Hnone endpoint Hin Hp).
Qed.

(** The theorem above, on the four endpoints of the main network when only
    the one of Amsterdam accepts the bundle. *)
Lemma jito_success_needs_accepted_bundle_witness :
  let post := fun endpoint =>
    if String.eqb endpoint "https://amsterdam.mainnet.block-engine.jito.wtf/api/v1/bundles"
    then JitoBundle.Responded 200 else JitoBundle.Failed "timeout of 30000ms exceeded" in
  let endpoints := ConfigManagerInit.getJitoEndpoints "mainnet" in
  let env :=
    {| jitoRpc := Sim.rpcOk "sigJ";
       createTipTransaction := Returns tt;
       encodeTipTransaction := Returns tt;
       submitToJitoEndpoints := JitoBundle.submitToJitoEndpoints post endpoints;
       jitoSettledAt := 50 |} in
  exists result,
    state (snd (JitoExecutor.executeTransaction Sim.web3 (Sim.configOf true false false None)
                  env Sim.payload Sim.signers)) = Ok result
    /\ success result = true
    /\ exists endpoint, In endpoint endpoints /\ post endpoint = JitoBundle.Responded 200.
Proof.
  intros post endpoints env.
  destruct (jito_success_needs_accepted_bundle Sim.web3 (Sim.configOf true false false None)
              env post endpoints Sim.payload Sim.signers eq_refl)
    as (result & Hrun & _ & Hsuccess & _).
  exists result. split; [exact Hrun|].
  injection Hrun as <-.
  split; [reflexivity|]. apply Hsuccess. reflexivity.
Defined.

(** ** The shape of the results *)

Lemma delivered_weaken (names names' : list string) (result : ExecutionResult) :
  incl names names' -> delivered names result -> delivered names' result.
Proof.
  intros Hincl Hd Hs. destruct (Hd Hs) as (Hsig & Herr & name & Hp & Hin).
  repeat split; auto. exists name. auto.
Qed.

Lemma delivered_failure (names : list string) (message name : string) :
  delivered names (failure message name).
Proof. intros Hs. discriminate Hs. Qed.

Lemma delivered_withProvider (names : list string) (name : string) (result : ExecutionResult) :
  In name names -> delivered [name] result -> delivered names (withProvider name result).
Proof.
  intros Hin Hd Hs. destruct (Hd Hs) as (Hsig & Herr & _).
  repeat split; auto. exists name. auto.
Qed.

Section DeliveredFacts.
Variables (web3 : Web3) (config : ConfigManager).
Variables (transaction : Transaction) (signers : list Keypair).

Lemma JitoExecutor_delivered (env : JitoEnv) :
  exists result,
    state (snd (JitoExecutor.executeTransaction web3 config env transaction signers))
    = Ok result /\ delivered ["jito"] result.
Proof.
  unfold JitoExecutor.executeTransaction. unfold_js. simpl.
  repeat answer; delivered_leaf.
Qed.

Lemma BloxRouteExecutor_delivered (env : BloxRouteEnv) :
  exists result,
    state (snd (BloxRouteExecutor.executeTransaction web3 config env transaction signers))
    = Ok result /\ delivered ["bloxroute"] result.
Proof.
  unfold BloxRouteExecutor.executeTransaction. unfold_js. simpl.
  repeat answer; delivered_leaf.
Qed.

Lemma NozomiExecutor_delivered (env : NozomiEnv) :
  exists result,
    state (snd (NozomiExecutor.executeTransaction web3 config env transaction signers))
    = Ok result /\ delivered ["nozomi"] result.
Proof.
  unfold NozomiExecutor.executeTransaction. unfold_js. simpl.
  repeat answer; delivered_leaf.
Qed.
End DeliveredFacts.

Section FallbackDelivered.
Variables (web3 : Web3) (connection : nat -> Rpc) (this : TransactionExecutor.t).
Variables (transaction : Transaction) (signers : list Keypair).

Lemma attemptOutcome_delivered (retries : Z) (result : ExecutionResult) :
  attemptOutcome web3 connection this transaction signers retries = Ok result ->
  delivered ["fallback"] result /\ retryCount result = Some retries.
Proof.
  unfold attemptOutcome, TransactionExecutor.fallbackAttempt,
    TransactionExecutor.cloneTransaction.
  unfold_js. simpl.
  destruct (getLatestBlockhash _) as [[blockhash h]|e]; simpl; [|discriminate].
  destruct (reparse web3 transaction) as [tx|e]; simpl; [|discriminate].
  destruct (sign web3 _ signers) as [tx' [e|]]; simpl; [discriminate|].
  destruct (serialize web3 tx') as [raw|e]; simpl; [|discriminate].
  destruct (sendRawTransaction _) as [sig|e]; simpl; [|discriminate].
  destruct (confirmTransaction _) as [[err|]|e]; simpl; try discriminate.
  intros H. injection H as <-. split; [|reflexivity].
  intros _. repeat split; simpl; eauto.
Qed.

Lemma LoopRun_delivered maxRetries retries count result :
  LoopRun web3 connection this transaction signers maxRetries retries count result ->
  delivered ["fallback"] result /\ exists n, retryCount result = Some n.
Proof.
  induction 1 as [k Hk | k r Hk Hok | k e Hk Hthrow Hlast | k e c r Hk Hthrow Hmore Hrun IH];
    try assumption.
  - split; [intros Hs; discriminate Hs | simpl; eauto].
  - apply attemptOutcome_delivered in Hok as (Hd & Hr). eauto.
  - split; [intros Hs; discriminate Hs | simpl; eauto].
Qed.
End FallbackDelivered.

Section RepositoryResults.
Variables (web3 : Web3) (config : ConfigManager) (env : Env).
Variable signers : list Keypair.

#[local] Abbreviation this := (TransactionExecutor.new web3 config env).

(** The channel a success may name under each strategy. *)
#[local] Abbreviation channelOf chosen name :=
  (match chosen with
   | JITO_ONLY => name = "jito"
   | BLOXROUTE_ONLY => name = "bloxroute"
   | NOZOMI_ONLY => name = "nozomi"
   | FALLBACK => name = "fallback"
   | _ => In name (hybridNames config ++ ["fallback"])%list
   end).

Lemma new_hybridExecutors_delivered (clone : Transaction) :
  Forall (fun p => forall r, state p = Ok r -> delivered (hybridNames config) r)
    (hybridExecutors this clone signers).
Proof.
  unfold hybridExecutors, attemptOf, then_, hybridNames. simpl.
  destruct (JitoExecutor_delivered web3 config clone signers (jitoEnv env)) as (j & Hj & Hdj).
  destruct (BloxRouteExecutor_delivered web3 config clone signers (bloxRouteEnv env))
    as (b & Hb & Hdb).
  destruct (NozomiExecutor_delivered web3 config clone signers (nozomiEnv env))
    as (n & Hn & Hdn).
  destruct (isJitoEnabled config), (isBloxRouteEnabled config), (isNozomiEnabled config);
    simpl; repeat first [apply Forall_nil | apply Forall_cons];
    simpl; rewrite ?Hj, ?Hb, ?Hn; intros r [= <-];
    apply delivered_withProvider; simpl; auto.
Qed.

Lemma executeFallback_delivered (s s' : Sys) (r : ExecutionResult) :
  TransactionExecutor.executeFallback web3 (fallbackRpc env) this signers s = (Ok r, s') ->
  delivered ["fallback"] r.
Proof.
  destruct (executeFallback_run web3 (fallbackRpc env) this signers s)
    as (count & result & Hrun & Hloop).
  rewrite Hrun. intros [= <- _].
  exact (proj1 (LoopRun_delivered _ _ _ _ _ _ _ _ _ Hloop)).
Qed.

Lemma determineOptimalStrategy_not_AUTO : determineOptimalStrategy config <> AUTO.
Proof.
  unfold determineOptimalStrategy.
  destruct (1 <? _), (isJitoEnabled config), (isBloxRouteEnabled config),
    (isNozomiEnabled config); discriminate.
Qed.

Lemma executeWithStrategy_delivered (chosen : ExecutionStrategy) (s s' : Sys)
  (r : ExecutionResult) :
  chosen <> AUTO ->
  TransactionExecutor.executeWithStrategy web3 (fallbackRpc env) this signers chosen s
  = (Ok r, s') ->
  success r = true ->
  (exists sig, signature r = Some sig) /\ error r = None
  /\ exists name, provider r = Some name /\ channelOf chosen name.
Proof.
  intros Hauto Hrun Hs.
  assert (forall names, delivered names r ->
            (forall name, In name names -> channelOf chosen name) ->
            (exists sig, signature r = Some sig) /\ error r = None
            /\ exists name, provider r = Some name /\ channelOf chosen name) as Hconclude.
  { intros names Hd Hnames. destruct (Hd Hs) as (Hsig & Herr & name & Hp & Hin).
    split; [exact Hsig|]. split; [exact Herr|]. exists name. split; [exact Hp|].
    apply Hnames. exact Hin. }
  destruct chosen; cbn [TransactionExecutor.executeWithStrategy] in Hrun;
    [ | | | | | congruence ].
  - change (TransactionExecutor.config this) with config in Hrun.
    destruct (isJitoEnabled config); [|discriminate Hrun].
    cbn [negb] in Hrun. rewrite onOriginal_run in Hrun.
    destruct (JitoExecutor_delivered web3 config (callerTx s) signers (jitoEnv env))
      as (j & Hj & Hd).
    simpl in Hrun. rewrite Hj in Hrun. injection Hrun as <- _.
    apply (Hconclude _ Hd). intros name [<-|[]]. reflexivity.
  - change (TransactionExecutor.config this) with config in Hrun.
    destruct (isBloxRouteEnabled config); [|discriminate Hrun].
    cbn [negb] in Hrun. rewrite onOriginal_run in Hrun.
    destruct (BloxRouteExecutor_delivered web3 config (callerTx s) signers (bloxRouteEnv env))
      as (j & Hj & Hd).
    simpl in Hrun. rewrite Hj in Hrun. injection Hrun as <- _.
    apply (Hconclude _ Hd). intros name [<-|[]]. reflexivity.
  - change (TransactionExecutor.config this) with config in Hrun.
    destruct (isNozomiEnabled config); [|discriminate Hrun].
    cbn [negb] in Hrun. rewrite onOriginal_run in Hrun.
    destruct (NozomiExecutor_delivered web3 config (callerTx s) signers (nozomiEnv env))
      as (j & Hj & Hd).
    simpl in Hrun. rewrite Hj in Hrun. injection Hrun as <- _.
    apply (Hconclude _ Hd). intros name [<-|[]]. reflexivity.
  - destruct (reparse web3 (callerTx s)) as [clone|e] eqn:Hclone.
    + rewrite (executeHybrid_cloned _ _ _ _ _ _ Hclone) in Hrun. cbv zeta in Hrun.
      destruct (Nat.eqb _ 0); [discriminate Hrun|].
      destruct (state (promiseAny (hybridExecutors this clone signers)))
        as [result|err|] eqn:Hany; [| |discriminate Hrun].
      * injection Hrun as <- _.
        apply promiseAny_Ok in Hany as (p & Hin & Hp).
        pose proof (new_hybridExecutors_delivered clone) as Hall.
        rewrite Forall_forall in Hall.
        apply (Hconclude _ (Hall p Hin result Hp)).
        intros name Hname. apply in_or_app. now left.
      * apply executeFallback_delivered in Hrun.
        apply (Hconclude _ Hrun). intros name [<-|[]]. apply in_or_app. right. now left.
    + rewrite (executeHybrid_not_cloned _ _ _ _ _ _ Hclone) in Hrun. discriminate Hrun.
  - apply executeFallback_delivered in Hrun.
    apply (Hconclude _ Hrun). intros name [<-|[]]. reflexivity.
Qed.
End RepositoryResults.

(** What a caller of [executeTransaction] receives from the engine of the
    repository. A success carries a signature, no error, and the provider
    that made it: the provider of a single provider strategy, ["fallback"]
    under the fallback strategy, an enabled provider or ["fallback"] under
    the hybrid one. A failure carries its strategy and nothing else besides
    the error: no signature, no retry count, and no provider, so that the
    caller cannot tell which channel failed. *)
Theorem run_result_shape
  (web3 : Web3) (config : ConfigManager) (env : Env)
  (transaction : Transaction) (signers : list Keypair) :
  let chosen := determineOptimalStrategy config in
  exists result s',
    TransactionExecutor.run web3 config env transaction signers = (Ok result, s')
    /\ strategy result = Some chosen
    /\ (success result = true ->
        (exists sig, signature result = Some sig) /\ error result = None
        /\ exists name,
             provider result = Some name
             /\ match chosen with
                | JITO_ONLY => name = "jito"
                | BLOXROUTE_ONLY => name = "bloxroute"
                | NOZOMI_ONLY => name = "nozomi"
                | FALLBACK => name = "fallback"
                | _ => In name (hybridNames config ++ ["fallback"])%list
                end)
    /\ (success result = false ->
        signature result = None /\ provider result = None /\ retryCount result = None).
Proof.
  intros chosen.
  destruct (new_settles web3 config env) as (Hj & Hb & Hn).
  destruct (executeWithStrategy_returns web3 (fallbackRpc env)
              (TransactionExecutor.new web3 config env) signers Hj Hb Hn
              chosen (mkSys transaction []))
    as (r & s' & Hrun & Hsettled & _).
  unfold TransactionExecutor.run. rewrite executeTransaction_run.
  change (determineOptimalStrategy
            (TransactionExecutor.config (TransactionExecutor.new web3 config env)))
    with chosen.
  rewrite Hrun.
  destruct r as [r|e|]; [| |congruence].
  - destruct (success r) eqn:Hs.
    + do 2 eexists. split; [reflexivity|]. split; [reflexivity|].
      split; [|simpl; congruence]. intros _.
      exact (executeWithStrategy_delivered web3 config env signers chosen _ _ r
               (determineOptimalStrategy_not_AUTO config) Hrun Hs).
    + do 2 eexists. split; [reflexivity|]. split; [reflexivity|].
      split; [intros H; discriminate H | auto].
  - do 2 eexists. split; [reflexivity|]. split; [reflexivity|].
    split; [intros H; discriminate H | auto].
Qed.

(** ** The configuration read from the environment *)

Section ConfigurationFacts.
Variables (builtins : Builtins) (env : ProcessEnv).

#[local] Abbreviation networkOf := (ConfigManagerInit.initializeNetworkConfig env).
#[local] Abbreviation executorOf' := (ConfigManagerInit.initializeExecutorConfig builtins env).

(** The object that the constructor builds around a wallet. *)
#[local] Abbreviation built wallet :=
  {| ConfigManagerInit.base :=
       {| executorConfig := executorOf';
          jitoConfig := ConfigManagerInit.initializeJitoConfig executorOf';
          bloxRouteConfig := ConfigManagerInit.initializeBloxRouteConfig env executorOf';
          nozomiConfig := ConfigManagerInit.initializeNozomiConfig env executorOf';
          wallet := wallet |};
     ConfigManagerInit.networkConfig := networkOf |}.

Lemma unset_iff (varName : string) :
  unset env varName = false <-> exists value, env varName = Some value /\ value <> "".
Proof.
  unfold unset. destruct (env varName) as [[|c s]|]; simpl; split;
    try discriminate; try reflexivity.
  - intros (value & [= <-] & Hne). congruence.
  - intros _. eexists. split; [reflexivity | discriminate].
  - intros (value & Hv & _). discriminate Hv.
Qed.

(** The constructor, step by step. *)
Lemma new_outcome :
  ConfigManagerInit.new builtins env tt =
  (match env "PRIVATE_KEY" with
   | Some (String c s) =>
       match keypairFromSecretKey builtins (String c s) with
       | Returns wallet =>
           match newConnection builtins (rpcEndpoint networkOf) with
           | Returns _ => Ok (built wallet)
           | Throws e => Throw e
           end
       | Throws _ =>
           Throw (ErrorObj "Invalid PRIVATE_KEY format. Expected base58 encoded private key.")
       end
   | _ => Throw (ErrorObj "Missing required environment variables: PRIVATE_KEY")
   end, tt).
Proof.
  unfold ConfigManagerInit.new, ConfigManagerInit.validateRequiredEnvVars,
    ConfigManagerInit.initializeWallet, ConfigManagerInit.initializeConnection, unset.
  unfold_js. cbn [filter].
  destruct (env "PRIVATE_KEY") as [[|c s]|]; simpl; try reflexivity.
  destruct (keypairFromSecretKey builtins (String c s)) as [wallet|e]; simpl; [|reflexivity].
  destruct (newConnection builtins _) as [[]|e]; reflexivity.
Qed.

Lemma getDefaultRpcEndpoint_nonEmpty (network : string) :
  ConfigManagerInit.getDefaultRpcEndpoint network <> "".
Proof.
  unfold ConfigManagerInit.getDefaultRpcEndpoint.
  destruct (String.eqb network "mainnet"), (String.eqb network "testnet"); discriminate.
Qed.

Lemma rpcEndpoint_nonEmpty : nonEmpty (rpcEndpoint networkOf) = true.
Proof.
  apply nonEmpty_iff. simpl. apply orString_nonEmpty, getDefaultRpcEndpoint_nonEmpty.
Qed.

Lemma strictEq_iff (v : option string) (value : string) :
  strictEq v value = true <-> v = Some value.
Proof.
  unfold strictEq. destruct v as [s|]; [|split; discriminate].
  rewrite String.eqb_eq. split; congruence.
Qed.

Lemma orString_empty_nonEmpty (varName : string) :
  nonEmpty (orString (env varName) "") = negb (unset env varName).
Proof. unfold unset. destruct (env varName) as [[|c s]|]; reflexivity. Qed.
End ConfigurationFacts.

(** The constructor of [ConfigManager] fails with ['Missing required
    environment variables: PRIVATE_KEY'] when the variable is unset or
    empty, whatever else is set, and with ['Invalid PRIVATE_KEY format.
    Expected base58 encoded private key.'] when the key cannot be decoded,
    whatever the library threw. It returns an object exactly when the key
    is set and decodes and the connection object can be made; it always
    returns or throws. *)
Theorem ConfigManager_new_failures (builtins : Builtins) (env : ProcessEnv) :
  let outcome := fst (ConfigManagerInit.new builtins env tt) in
  (unset env "PRIVATE_KEY" = true ->
   outcome = Throw (ErrorObj "Missing required environment variables: PRIVATE_KEY"))
  /\ (forall key e,
         env "PRIVATE_KEY" = Some key -> key <> "" ->
         keypairFromSecretKey builtins key = Throws e ->
         outcome
         = Throw (ErrorObj "Invalid PRIVATE_KEY format. Expected base58 encoded private key."))
  /\ ((exists this, outcome = Ok this)
      <-> exists key wallet,
            env "PRIVATE_KEY" = Some key /\ key <> ""
            /\ keypairFromSecretKey builtins key = Returns wallet
            /\ newConnection builtins
                 (rpcEndpoint (ConfigManagerInit.initializeNetworkConfig env))
               = Returns tt)
  /\ outcome <> Diverge.
Proof.
  intros outcome. subst outcome. rewrite new_outcome. cbn [fst]. unfold unset.
  destruct (env "PRIVATE_KEY") as [[|c s]|] eqn:Hkey; simpl.
  - split; [reflexivity|]. split; [intros key e [= <-] Hne; congruence|].
    split; [|discriminate].
    split; [intros (this & H); discriminate H|].
    intros (key & wallet & [= <-] & Hne & _). congruence.
  - split; [discriminate|].
    destruct (keypairFromSecretKey builtins (String c s)) as [wallet|e0] eqn:Hwallet.
    + split; [intros key e [= <-] _ H; congruence|].
      destruct (newConnection builtins _) as [[]|e1] eqn:Hconn.
      * split; [|discriminate]. split; [|eauto].
        intros _. exists (String c s), wallet. repeat split; auto. discriminate.
      * split; [|discriminate]. split; [intros (this & H); discriminate H|].
        intros (key & w & _ & _ & _ & H). simpl in Hconn. congruence.
    + split; [reflexivity|]. split; [|discriminate].
      split; [intros (this & H); discriminate H|].
      intros (key & w & [= <-] & _ & H & _). congruence.
  - split; [reflexivity|]. split; [intros key e H; discriminate H|].
    split; [|discriminate].
    split; [intros (this & H); discriminate H|].
    intros (key & wallet & H & _). discriminate H.
Qed.

(** In the object that the constructor returns, the amount of each provider
    configuration is the one of the executor configuration, so that the
    provider checks and the executors read the same amounts; the
    configuration always validates; and a provider is enabled exactly when
    its variable is the string ['true'], its credential (for BloxRoute and
    Nozomi) is set and not empty, and its amount, the default when the
    variable is unset or empty, parses to a positive number. *)
Theorem constructed_configuration
  (builtins : Builtins) (env : ProcessEnv) (this : ConfigManagerInit.t) :
  fst (ConfigManagerInit.new builtins env tt) = Ok this ->
  let config := ConfigManagerInit.base this in
  JitoConfig.tipAmount (jitoConfig config) = jitoTipAmount (executorConfig config)
  /\ BloxRouteConfig.fee (bloxRouteConfig config) = bloxRouteFee (executorConfig config)
  /\ NozomiConfig.tipAmount (nozomiConfig config) = nozomiTipAmount (executorConfig config)
  /\ ConfigManagerInit.validateConfiguration this = true
  /\ (isJitoEnabled config = true
      <-> env "USE_JITO" = Some "true"
          /\ positive (parseFloat builtins (orString (env "JITO_TIP_AMOUNT") "0.0001")))
  /\ (isBloxRouteEnabled config = true
      <-> env "USE_BLOXROUTE" = Some "true"
          /\ unset env "BLOXROUTE_AUTH_HEADER" = false
          /\ positive (parseFloat builtins (orString (env "BLOXROUTE_FEE") "0.001")))
  /\ (isNozomiEnabled config = true
      <-> env "USE_NOZOMI" = Some "true"
          /\ unset env "NOZOMI_API_KEY" = false
          /\ positive (parseFloat builtins (orString (env "NOZOMI_TIP_AMOUNT") "0.0001"))).
Proof.
  rewrite new_outcome. cbn [fst].
  destruct (env "PRIVATE_KEY") as [[|c s]|]; try discriminate.
  destruct (keypairFromSecretKey builtins (String c s)) as [wallet|e]; [|discriminate].
  destruct (newConnection builtins _) as [[]|e]; [|discriminate].
  intros [= <-]. cbv zeta.
  split; [reflexivity|]. split; [reflexivity|]. split; [reflexivity|].
  split.
  { unfold ConfigManagerInit.validateConfiguration.
    cbn [ConfigManagerInit.networkConfig]. now rewrite rpcEndpoint_nonEmpty. }
  unfold isJitoEnabled, isBloxRouteEnabled, isNozomiEnabled.
  cbn [ConfigManagerInit.base executorConfig jitoConfig bloxRouteConfig nozomiConfig
       ConfigManagerInit.initializeExecutorConfig ConfigManagerInit.initializeJitoConfig
       ConfigManagerInit.initializeBloxRouteConfig ConfigManagerInit.initializeNozomiConfig
       useJito useBloxRoute useNozomi jitoTipAmount bloxRouteFee nozomiTipAmount
       JitoConfig.tipAmount BloxRouteConfig.authHeader BloxRouteConfig.fee
       NozomiConfig.apiKey NozomiConfig.tipAmount].
  rewrite !andb_true_iff, !strictEq_iff, !gt0_positive, !orString_empty_nonEmpty,
    !negb_true_iff.
  tauto.
Qed.

(** The theorem above, on an environment that sets the key, turns Jito on
    and turns BloxRoute on without its credential: Jito is enabled with the
    default tip, BloxRoute is not. *)
Lemma constructed_configuration_witness :
  exists this,
    fst (ConfigManagerInit.new SimConfig.builtins SimConfig.processEnv tt) = Ok this
    /\ isJitoEnabled (ConfigManagerInit.base this) = true
    /\ isBloxRouteEnabled (ConfigManagerInit.base this) = false
    /\ ConfigManagerInit.validateConfiguration this = true.
Proof.
  eexists. split; [reflexivity|].
  destruct (constructed_configuration SimConfig.builtins SimConfig.processEnv _ eq_refl)
    as (_ & _ & _ & Hvalid & Hjito & _).
  split; [|split; [reflexivity | exact Hvalid]].
  apply Hjito. split; [reflexivity|]. reflexivity.
Defined.

Lemma new_validateConfiguration
  (builtins : Builtins) (env : ProcessEnv) (this : ConfigManagerInit.t) :
  fst (ConfigManagerInit.new builtins env tt) = Ok this ->
  ConfigManagerInit.validateConfiguration this = true.
Proof.
  rewrite new_outcome. cbn [fst].
  destruct (env "PRIVATE_KEY") as [[|c s]|]; try discriminate.
  destruct (keypairFromSecretKey builtins (String c s)) as [wallet|e]; [|discriminate].
  destruct (newConnection builtins _) as [[]|e]; [|discriminate].
  intros [= <-]. unfold ConfigManagerInit.validateConfiguration.
  cbn [ConfigManagerInit.networkConfig]. now rewrite rpcEndpoint_nonEmpty.
Qed.

(** For every network other than ['devnet'] and ['mainnet'], ['testnet']
    among them, the Jito endpoints are the four block engines of the main
    network, while the default RPC endpoint is not one of the main
    network. *)
Theorem jito_endpoints_off_devnet (network : string) :
  network <> "devnet" -> network <> "mainnet" ->
  ConfigManagerInit.getJitoEndpoints network = ConfigManagerInit.getJitoEndpoints "mainnet"
  /\ Forall (fun endpoint => isSubstring "mainnet" endpoint = true)
       (ConfigManagerInit.getJitoEndpoints network)
  /\ isSubstring "mainnet" (ConfigManagerInit.getDefaultRpcEndpoint network) = false.
Proof.
  intros Hdev Hmain.
  apply String.eqb_neq in Hdev, Hmain.
  unfold ConfigManagerInit.getJitoEndpoints, ConfigManagerInit.getDefaultRpcEndpoint.
  rewrite Hdev, Hmain.
  split; [reflexivity|]. split.
  - repeat constructor.
  - destruct (String.eqb network "testnet"); reflexivity.
Qed.

(** The theorem above on the test network. *)
Lemma jito_endpoints_off_devnet_witness :
  List.length (ConfigManagerInit.getJitoEndpoints "testnet") = 4%nat
  /\ Forall (fun endpoint => isSubstring "mainnet" endpoint = true)
       (ConfigManagerInit.getJitoEndpoints "testnet")
  /\ ConfigManagerInit.getDefaultRpcEndpoint "testnet" = "https://api.testnet.solana.com".
Proof.
  destruct (jito_endpoints_off_devnet "testnet" ltac:(discriminate) ltac:(discriminate))
    as (_ & Hall & _).
  split; [reflexivity|]. split; [exact Hall | reflexivity].
Defined.

(** ** Health and cost *)

(** For a configuration that the constructor returned, the health status
    never reports an invalid configuration. A provider is reported healthy
    exactly when it is enabled, no provider being contacted; the fallback
    is reported healthy exactly when the connection answers. The system is
    healthy exactly when a provider is enabled or the connection answers:
    with a provider enabled, also when the connection is down. *)
Theorem health_status_of_constructed
  (builtins : Builtins) (env : ProcessEnv) (this : ConfigManagerInit.t)
  (getRecentBlockhash : outcome unit) :
  fst (ConfigManagerInit.new builtins env tt) = Ok this ->
  let status := getHealthStatus this getRecentBlockhash in
  let config := ConfigManagerInit.base this in
  configuration status = true
  /\ Health.jito (executors status) = isJitoEnabled config
  /\ Health.bloxroute (executors status) = isBloxRouteEnabled config
  /\ Health.nozomi (executors status) = isNozomiEnabled config
  /\ (Health.fallback (executors status) = true <-> getRecentBlockhash = Returns tt)
  /\ (system status = true
      <-> getEnabledProviders config <> [] \/ getRecentBlockhash = Returns tt).
Proof.
  intros Hnew status config. subst status.
  unfold getHealthStatus. cbn [configuration executors system].
  rewrite (new_validateConfiguration _ _ _ Hnew), andb_true_r.
  fold config. unfold TransactionExecutorInfo.healthCheck, getEnabledProviders, Health.values.
  destruct (isJitoEnabled config), (isBloxRouteEnabled config), (isNozomiEnabled config),
    getRecentBlockhash as [[]|e]; cbn;
    (split; [reflexivity|]); (split; [reflexivity|]); (split; [reflexivity|]);
    (split; [reflexivity|]); split; split; try discriminate; try reflexivity; auto;
    try (intros _; left; discriminate);
    intros [H|H]; congruence.
Qed.

(** The theorem above with Jito enabled and the connection down: the system
    is reported healthy. *)
Lemma health_status_of_constructed_witness :
  exists this,
    fst (ConfigManagerInit.new SimConfig.builtins SimConfig.processEnv tt) = Ok this
    /\ system (getHealthStatus this (Throws (ErrorObj "fetch failed"))) = true
    /\ Health.fallback (executors (getHealthStatus this (Throws (ErrorObj "fetch failed"))))
       = false.
Proof.
  eexists. split; [reflexivity|].
  destruct (health_status_of_constructed SimConfig.builtins SimConfig.processEnv _
              (Throws (ErrorObj "fetch failed")) eq_refl)
    as (_ & _ & _ & _ & _ & Hsystem).
  split; [|reflexivity].
  apply Hsystem. left. discriminate.
Defined.

Lemma scale_positive (x : number) : positive x -> positive (scale x LAMPORTS_PER_SOL).
Proof.
  destruct x as [| |q|]; simpl; auto.
  unfold LAMPORTS_PER_SOL. intros Hq.
  apply Qmult_lt_0_compat; [exact Hq | reflexivity].
Qed.

(** The estimate of the execution costs has one entry for each enabled
    provider, under the name the hybrid path calls it by, and the entry
    [rpc] of 5000 lamports last: it is never empty. The entry of Jito is
    100000 lamports whatever the configured tip. Every amount is positive. *)
Theorem estimateExecutionCost_entries (config : ConfigManager) :
  let costs := TransactionExecutorInfo.estimateExecutionCost config in
  map fst costs = (hybridNames config ++ ["rpc"])%list
  /\ objectGet "rpc" costs = Some (Fin (5000 # 1))
  /\ (isJitoEnabled config = true -> objectGet "jito" costs = Some (Fin (100000 # 1)))
  /\ (forall name, objectGet name costs <> None <-> In name (hybridNames config ++ ["rpc"])%list)
  /\ Forall (fun entry => positive (snd entry)) costs.
Proof.
  intros costs. subst costs.
  unfold TransactionExecutorInfo.estimateExecutionCost, hybridNames.
  pose proof (isBloxRouteEnabled_iff config) as Hb.
  pose proof (isNozomiEnabled_iff config) as Hn.
  assert (forall name (names : list string) (costs : list (string * number)),
             map fst costs = names ->
             (objectGet name costs <> None <-> In name names)) as Hget.
  { intros name names costs <-. induction costs as [|[k v] costs IH]; simpl.
    - tauto.
    - destruct (String.eqb_spec k name) as [->|Hne].
      + split; [auto | discriminate].
      + rewrite IH. tauto. }
  destruct (isJitoEnabled config), (isBloxRouteEnabled config), (isNozomiEnabled config);
    cbn [objectSet String.eqb Ascii.eqb Bool.eqb app map fst];
    (split; [reflexivity|]); (split; [reflexivity|]);
    (split; [first [reflexivity | discriminate]|]);
    (split; [intros name; apply Hget; reflexivity|]);
    repeat first [apply Forall_nil | apply Forall_cons]; cbn [snd];
    try reflexivity;
    apply scale_positive; first [apply (proj1 Hb eq_refl) | apply (proj1 Hn eq_refl)].
Qed.

(** ** Objects and maps *)

Section ObjectFacts.
Context {A : Type}.

Lemma objectGet_objectSet (key : string) (value : A) (object : list (string * A)) :
  objectGet key (objectSet key value object) = Some value.
Proof.
  induction object as [|[k v] object IH]; simpl.
  - now rewrite String.eqb_refl.
  - destruct (String.eqb k key) eqn:E; simpl; rewrite E; [reflexivity | exact IH].
Qed.

Lemma objectGet_objectSet_other (key other : string) (value : A)
  (object : list (string * A)) :
  other <> key ->
  objectGet other (objectSet key value object) = objectGet other object.
Proof.
  intros Hne. induction object as [|[k v] object IH]; simpl.
  - apply String.eqb_neq in Hne. rewrite String.eqb_sym. now rewrite Hne.
  - destruct (String.eqb_spec k key) as [->|Hk]; simpl.
    + apply String.eqb_neq in Hne. rewrite String.eqb_sym in Hne. now rewrite Hne.
    + now rewrite IH.
Qed.


Lemma objectGet_mapDelete_other (key other : string) (map : list (string * A)) :
  other <> key ->
  objectGet other (mapDelete key map) = objectGet other map.
Proof.
  intros Hne. induction map as [|[k v] map IH]; simpl; [reflexivity|].
  destruct (String.eqb_spec k key) as [->|Hk]; simpl.
  - apply String.eqb_neq in Hne. rewrite String.eqb_sym in Hne. now rewrite Hne.
  - now rewrite IH.
Qed.
End ObjectFacts.

(** ** The performance monitor *)

Section MonitorFacts.
Import PerformanceMonitor.


Lemma endTracking_started (this : t) (operation : string) (t0 t1 : Z)
  (m0 m1 : option Metadata) :
  endTracking t1 operation m1 (startTracking t0 operation m0 this)
  = (t1 - t0,
     {| operations :=
          mapDelete operation
            (objectSet operation
               {| name := operation; startTime := t0; endTime := None; duration := None;
                  metadata := m0 |} (operations this));
        completedOperations :=
          (completedOperations this
           ++ [{| name := operation; startTime := t0; endTime := Some t1;
                  duration := Some (t1 - t0); metadata := Some (spread m0 m1) |}])%list;
        startTimestamp := startTimestamp this |}).
Proof.
  unfold endTracking, startTracking. cbn [operations].
  rewrite objectGet_objectSet. reflexivity.
Qed.
End MonitorFacts.



Section SessionFacts.
Import PerformanceMonitor.

Lemma filter_length_bound {A} (f : A -> bool) (l : list A) :
  (List.length (filter f l) <= List.length l)%nat.
Proof. induction l as [|x l IH]; simpl; [lia|]. destruct (f x); simpl; lia. Qed.

(** The completed operations that two monitors count as sessions. *)
Lemma getSessionStatistics_ext (this this' : t) :
  filter isSession (completedOperations this') = filter isSession (completedOperations this) ->
  getSessionStatistics this' = getSessionStatistics this.
Proof. unfold getSessionStatistics. now intros ->. Qed.
End SessionFacts.

(** The session statistics count the completed operations named
    ['session_metrics']: the successful and the failed sessions add up to
    the total, and with no session the rates are 0 and there is no last
    session. Recording the metrics of a session adds one session, a
    successful one exactly when the metrics say so, and makes it the last
    one; tracking an operation of another name changes no statistic. *)
Theorem session_statistics_counts (this : PerformanceMonitor.t) :
  let stats := PerformanceMonitor.getSessionStatistics this in
  SessionStatistics.totalSessions stats
  = SessionStatistics.successfulSessions stats + SessionStatistics.failedSessions stats
  /\ 0 <= SessionStatistics.successfulSessions stats <= SessionStatistics.totalSessions stats
  /\ SessionStatistics.totalSessions stats
     = Z.of_nat (List.length (filter PerformanceMonitor.isSession
                                (PerformanceMonitor.completedOperations this)))
  /\ (SessionStatistics.totalSessions stats = 0 ->
      SessionStatistics.successRate stats = 0%Q
      /\ SessionStatistics.averageExecutionTime stats = 0%Q
      /\ SessionStatistics.lastSessionTime stats = None)
  /\ (forall now now' metrics,
         let stats' :=
           PerformanceMonitor.getSessionStatistics
             (PerformanceMonitor.recordSessionMetrics now now' metrics this) in
         SessionStatistics.totalSessions stats' = SessionStatistics.totalSessions stats + 1
         /\ SessionStatistics.successfulSessions stats'
            = SessionStatistics.successfulSessions stats
              + (if PerformanceMetrics.success metrics then 1 else 0)
         /\ SessionStatistics.lastSessionTime stats' = Some now')
  /\ (forall operation t0 t1 m0 m1,
         operation <> "session_metrics" ->
         PerformanceMonitor.getSessionStatistics
           (snd (PerformanceMonitor.endTracking t1 operation m1
                   (PerformanceMonitor.startTracking t0 operation m0 this)))
         = PerformanceMonitor.getSessionStatistics this).
Proof.
  intros stats. subst stats.
  pose proof (filter_length_bound PerformanceMonitor.isSuccessful
                (filter PerformanceMonitor.isSession
                   (PerformanceMonitor.completedOperations this))) as Hle.
  split; [unfold PerformanceMonitor.getSessionStatistics; simpl; lia|].
  split; [unfold PerformanceMonitor.getSessionStatistics; simpl; lia|].
  split; [reflexivity|].
  split.
  { unfold PerformanceMonitor.getSessionStatistics.
    cbn [SessionStatistics.totalSessions SessionStatistics.successRate
         SessionStatistics.averageExecutionTime SessionStatistics.lastSessionTime].
    destruct (filter PerformanceMonitor.isSession _); [auto|].
    intros Hzero. cbn [List.length] in Hzero. lia. }
  split.
  - intros now now' metrics. cbv zeta.
    unfold PerformanceMonitor.recordSessionMetrics.
    match goal with
    | |- context [(_ ++ [?e])%list] => set (entry := e)
    end.
    assert (PerformanceMonitor.isSession entry = true) as Hsession by reflexivity.
    assert (PerformanceMonitor.isSuccessful entry = PerformanceMetrics.success metrics)
      as Hsuccess.
    { unfold PerformanceMonitor.isSuccessful. simpl.
      now destruct (PerformanceMetrics.success metrics). }
    assert (PerformanceMonitor.endTime entry = Some now') as Hend by reflexivity.
    clearbody entry.
    unfold PerformanceMonitor.getSessionStatistics.
    cbn [SessionStatistics.totalSessions SessionStatistics.successfulSessions
         SessionStatistics.lastSessionTime PerformanceMonitor.completedOperations].
    rewrite filter_app. cbn [filter]. rewrite Hsession.
    rewrite filter_app, !length_app, rev_app_distr.
    cbn [rev app filter]. rewrite Hsuccess.
    split; [cbn [List.length]; lia|]. split; [|exact Hend].
    destruct (PerformanceMetrics.success metrics); cbn [List.length]; lia.
  - intros operation t0 t1 m0 m1 Hne.
    apply getSessionStatistics_ext.
    rewrite endTracking_started.
    cbn [snd PerformanceMonitor.completedOperations].
    match goal with
    | |- context [(_ ++ [?e])%list] => set (entry := e)
    end.
    assert (PerformanceMonitor.isSession entry = false) as Hsession.
    { unfold PerformanceMonitor.isSession. simpl. now apply String.eqb_neq. }
    rewrite filter_app. cbn [filter]. rewrite Hsession. apply app_nil_r.
Qed.

(** ** Sorted durations *)

Lemma insertSorted_In (x y : Z) (l : list Z) :
  In x (insertSorted y l) <-> x = y \/ In x l.
Proof.
  induction l as [|z l IH]; simpl; [intuition|].
  destruct (y <=? z); simpl; [intuition|]. rewrite IH. intuition.
Qed.

Lemma insertSorted_length (y : Z) (l : list Z) :
  List.length (insertSorted y l) = S (List.length l).
Proof.
  induction l as [|z l IH]; simpl; [reflexivity|].
  destruct (y <=? z); simpl; [reflexivity | now rewrite IH].
Qed.

Lemma sortAscending_In (x : Z) (l : list Z) : In x (sortAscending l) <-> In x l.
Proof.
  induction l as [|y l IH]; simpl; [tauto|].
  rewrite insertSorted_In, IH. intuition.
Qed.

Lemma sortAscending_length (l : list Z) : List.length (sortAscending l) = List.length l.
Proof.
  induction l as [|y l IH]; simpl; [reflexivity|].
  now rewrite insertSorted_length, IH.
Qed.

Lemma insertSorted_sorted (y : Z) (l : list Z) :
  StronglySorted Z.le l -> StronglySorted Z.le (insertSorted y l).
Proof.
  induction 1 as [|z l Hl IH Hz]; simpl; [repeat constructor|].
  destruct (Z.leb_spec y z) as [Hle|Hgt].
  - constructor; [now constructor|].
    constructor; [exact Hle|].
    rewrite Forall_forall in Hz |- *. intros x Hx. specialize (Hz x Hx). lia.
  - constructor; [exact IH|].
    rewrite Forall_forall in Hz |- *. intros x Hx.
    apply insertSorted_In in Hx as [->|Hx]; [lia | auto].
Qed.

Lemma sortAscending_sorted (l : list Z) : StronglySorted Z.le (sortAscending l).
Proof.
  induction l as [|y l IH]; simpl; [constructor | now apply insertSorted_sorted].
Qed.

Lemma StronglySorted_nth (l : list Z) :
  StronglySorted Z.le l ->
  forall i j, (i <= j < List.length l)%nat -> nth i l 0 <= nth j l 0.
Proof.
  induction 1 as [|z l Hl IH Hz]; intros i j Hij; simpl in Hij; [lia|].
  destruct i as [|i], j as [|j]; simpl; try lia.
  - rewrite Forall_forall in Hz. apply Hz, nth_In. lia.
  - apply IH. lia.
Qed.

Lemma percentileIndex_bounds (length : nat) :
  (0 < length)%nat ->
  (PerformanceMonitor.percentileIndex length 95
   <= PerformanceMonitor.percentileIndex length 99 < length)%nat.
Proof.
  intros Hpos. unfold PerformanceMonitor.percentileIndex.
  assert (Z.of_nat length * 95 / 100 <= Z.of_nat length * 99 / 100) as H1.
  { apply Z.div_le_mono; lia. }
  assert (Z.of_nat length * 99 / 100 < Z.of_nat length) as H2.
  { apply Z.div_lt_upper_bound; lia. }
  assert (0 <= Z.of_nat length * 95 / 100) as H3.
  { apply Z.div_pos; lia. }
  lia.
Qed.

(** When an operation has completed with a duration, the statistics are
    ordered: the minimum and the maximum are durations of completed
    operations and bound all of them, and the two percentiles lie between
    them, the 95th no greater than the 99th. The number of operations is
    that of the completed ones, and the success rate is 100 whatever the
    sessions recorded. *)
Theorem calculateStats_ordered (this : PerformanceMonitor.t) :
  let stats := PerformanceMonitor.calculateStats this in
  let durations :=
    PerformanceMonitor.durationsOf (PerformanceMonitor.completedOperations this) in
  durations <> [] ->
  In (PerformanceStats.minDuration stats) durations
  /\ In (PerformanceStats.maxDuration stats) durations
  /\ (forall d, In d durations ->
                PerformanceStats.minDuration stats <= d <= PerformanceStats.maxDuration stats)
  /\ PerformanceStats.minDuration stats <= PerformanceStats.p95Duration stats
  /\ PerformanceStats.p95Duration stats <= PerformanceStats.p99Duration stats
  /\ PerformanceStats.p99Duration stats <= PerformanceStats.maxDuration stats
  /\ PerformanceStats.totalOperations stats
     = Z.of_nat (List.length (PerformanceMonitor.completedOperations this))
  /\ PerformanceStats.successRate stats = inject_Z 100.
Proof.
  intros stats durations Hne. subst stats.
  unfold PerformanceMonitor.calculateStats. fold durations.
  pose proof (sortAscending_sorted durations) as Hsorted.
  pose proof (sortAscending_length durations) as Hlen.
  pose proof (fun x => sortAscending_In x durations) as Hin.
  assert (0 < List.length durations)%nat as Hpos.
  { destruct durations; [congruence | simpl; lia]. }
  destruct (sortAscending durations) as [|first rest] eqn:Hsort; [simpl in Hlen; lia|].
  rewrite <- Hsort in *. clear Hsort first rest.
  cbn [PerformanceStats.minDuration PerformanceStats.maxDuration
       PerformanceStats.p95Duration PerformanceStats.p99Duration
       PerformanceStats.totalOperations PerformanceStats.successRate].
  set (sorted := sortAscending durations) in *.
  destruct (percentileIndex_bounds (List.length sorted)) as (H95 & H99); [lia|].
  pose proof (StronglySorted_nth sorted Hsorted) as Hmono.
  split; [apply Hin, nth_In; lia|].
  split; [apply Hin, nth_In; lia|].
  split.
  { intros d Hd. apply Hin in Hd.
    destruct (In_nth sorted d 0 Hd) as (i & Hi & <-).
    split; apply Hmono; lia. }
  split; [apply Hmono; lia|].
  split; [apply Hmono; lia|].
  split; [apply Hmono; lia|].
  split; reflexivity.
Qed.

(** The theorem above on a monitor that tracked a build of 40 ms and an
    execution of 30 ms. *)
Lemma calculateStats_ordered_witness :
  let this :=
    snd (PerformanceMonitor.endTracking 130 "execution" None
           (PerformanceMonitor.startTracking 100 "execution" None
              (snd (PerformanceMonitor.endTracking 40 "transaction_build" None
                      (PerformanceMonitor.startTracking 0 "transaction_build" None
                         (PerformanceMonitor.new 0)))))) in
  PerformanceStats.minDuration (PerformanceMonitor.calculateStats this) = 30
  /\ PerformanceStats.maxDuration (PerformanceMonitor.calculateStats this) = 40
  /\ PerformanceStats.minDuration (PerformanceMonitor.calculateStats this)
     <= PerformanceStats.p95Duration (PerformanceMonitor.calculateStats this).
Proof.
  intros this.
  destruct (calculateStats_ordered this ltac:(vm_compute; discriminate))
    as (_ & _ & _ & Hp95 & _).
  split; [reflexivity|]. split; [reflexivity | exact Hp95].
Defined.

(** ** Suggestions *)

Lemma Qltb_lt (x y : Q) : PerformanceMonitor.Qltb x y = true <-> (x < y)%Q.
Proof.
  unfold PerformanceMonitor.Qltb. rewrite negb_true_iff.
  split.
  - intros H. apply Qnot_le_lt. intros Hle. apply Qle_bool_iff in Hle. congruence.
  - intros H. destruct (Qle_bool y x) eqn:E; [|reflexivity].
    apply Qle_bool_iff in E. exfalso. exact (Qlt_not_le _ _ H E).
Qed.

Lemma session_statistics_zero (this : PerformanceMonitor.t) :
  let stats := PerformanceMonitor.getSessionStatistics this in
  SessionStatistics.totalSessions stats = 0 ->
  SessionStatistics.successRate stats = 0%Q
  /\ SessionStatistics.averageExecutionTime stats = 0%Q
  /\ SessionStatistics.successfulSessions stats = 0
  /\ SessionStatistics.failedSessions stats = 0.
Proof.
  unfold PerformanceMonitor.getSessionStatistics.
  cbn [SessionStatistics.totalSessions SessionStatistics.successRate
       SessionStatistics.averageExecutionTime SessionStatistics.successfulSessions
       SessionStatistics.failedSessions].
  destruct (filter PerformanceMonitor.isSession _); [auto|].
  intros Hzero. cbn [List.length] in Hzero. lia.
Qed.

(** With sessions and no failure, the rate is 100 and one tenth of the
    successful sessions is not below the failed ones. *)
Lemma session_statistics_all_successful (this : PerformanceMonitor.t) :
  let stats := PerformanceMonitor.getSessionStatistics this in
  0 < SessionStatistics.totalSessions stats ->
  SessionStatistics.failedSessions stats = 0 ->
  PerformanceMonitor.Qltb (SessionStatistics.successRate stats) (inject_Z 95) = false
  /\ PerformanceMonitor.Qltb
       (inject_Z (SessionStatistics.successfulSessions stats) * (1 # 10))%Q
       (inject_Z (SessionStatistics.failedSessions stats)) = false.
Proof.
  unfold PerformanceMonitor.getSessionStatistics.
  cbn [SessionStatistics.totalSessions SessionStatistics.successRate
       SessionStatistics.successfulSessions SessionStatistics.failedSessions].
  set (total := Z.of_nat (List.length (filter PerformanceMonitor.isSession _))).
  set (successful := Z.of_nat (List.length (filter PerformanceMonitor.isSuccessful _))).
  intros Hpos Hfailed.
  assert (successful = total) as -> by lia.
  apply Z.ltb_lt in Hpos as Hpos'. rewrite Hpos'.
  replace (total - total) with 0 by lia.
  split.
  - apply not_true_is_false. rewrite Qltb_lt. apply Qle_not_lt.
    assert (inject_Z total / inject_Z total == 1)%Q as ->.
    { apply Qmult_inv_r. unfold Qeq. simpl. lia. }
    discriminate.
  - apply not_true_is_false. rewrite Qltb_lt. apply Qle_not_lt.
    apply Qmult_le_0_compat; [|discriminate].
    change 0%Q with (inject_Z 0). rewrite <- Zle_Qle. lia.
Qed.

(** With no session recorded the monitor gives one suggestion, that of the
    hybrid strategy: the success rate of no session counts as 0. Whenever
    high execution times are reported, so is the slow token creation. When
    sessions were recorded and none of them failed, neither the hybrid
    strategy is suggested nor a high failure rate reported. *)
Theorem suggestions_by_statistics (this : PerformanceMonitor.t) :
  let stats := PerformanceMonitor.getSessionStatistics this in
  let suggestions := PerformanceMonitor.getSuggestedOptimizations this in
  (SessionStatistics.totalSessions stats = 0 ->
   suggestions = ["Consider using hybrid execution strategy for better reliability"])
  /\ (In "High execution times detected - consider optimizing RPC endpoint" suggestions ->
      In "Token creation is slow - consider using Jito bundles for faster execution"
        suggestions)
  /\ (0 < SessionStatistics.totalSessions stats ->
      SessionStatistics.failedSessions stats = 0 ->
      ~ In "Consider using hybrid execution strategy for better reliability" suggestions
      /\ ~ In "High failure rate - check network conditions and provider configurations"
             suggestions).
Proof.
  intros stats suggestions. subst suggestions.
  unfold PerformanceMonitor.getSuggestedOptimizations. fold stats. cbv zeta.
  split; [|split].
  - intros Hzero.
    destruct (session_statistics_zero this Hzero) as (Hrate & Havg & Hs & Hf).
    fold stats in Hrate, Havg, Hs, Hf. rewrite Hrate, Havg, Hs, Hf. reflexivity.
  - destruct (PerformanceMonitor.Qltb (inject_Z 5000) _) eqn:E5.
    + assert (PerformanceMonitor.Qltb (inject_Z 3000)
                (SessionStatistics.averageExecutionTime stats) = true) as E3.
      { apply Qltb_lt. apply Qltb_lt in E5.
        eapply Qlt_trans; [|exact E5]. reflexivity. }
      rewrite E3. intros _.
      destruct (PerformanceMonitor.Qltb (SessionStatistics.successRate stats) _),
        (PerformanceMonitor.Qltb (_ * _) _); simpl; auto 10.
    + destruct (PerformanceMonitor.Qltb (SessionStatistics.successRate stats) _),
        (PerformanceMonitor.Qltb (inject_Z 3000) _),
        (PerformanceMonitor.Qltb (_ * _) _); simpl; intros H;
        repeat (destruct H as [H|H]; try discriminate H); contradiction.
  - intros Hpos Hfailed.
    destruct (session_statistics_all_successful this Hpos Hfailed) as (Hrate & Hrate').
    fold stats in Hrate, Hrate'. rewrite Hrate, Hrate'.
    destruct (PerformanceMonitor.Qltb (inject_Z 5000) _),
      (PerformanceMonitor.Qltb (inject_Z 3000) _); simpl; split; intros H;
      repeat (destruct H as [H|H]; try discriminate H); contradiction.
Qed.

(** ** The hash of the metadata *)

Lemma toInt32_decompose (z : Z) : exists k, toInt32 z = z + 2 ^ 32 * k.
Proof.
  unfold toInt32. exists (- ((z + 2 ^ 31) / 2 ^ 32)).
  rewrite Z.mod_eq by lia. lia.
Qed.

Lemma toInt32_range (z : Z) : - 2 ^ 31 <= toInt32 z < 2 ^ 31.
Proof.
  unfold toInt32. pose proof (Z.mod_pos_bound (z + 2 ^ 31) (2 ^ 32) ltac:(lia)). lia.
Qed.

Lemma toInt32_congruent (a b k : Z) : a = b + 2 ^ 32 * k -> toInt32 a = toInt32 b.
Proof.
  intros ->. unfold toInt32.
  replace (b + 2 ^ 32 * k + 2 ^ 31) with (b + 2 ^ 31 + k * 2 ^ 32) by lia.
  now rewrite Z_mod_plus_full.
Qed.

Lemma toInt32_idempotent (z : Z) : toInt32 (toInt32 z) = toInt32 z.
Proof.
  destruct (toInt32_decompose z) as (k & Hk).
  apply (toInt32_congruent _ _ k). exact Hk.
Qed.

Lemma hashStep_congruent (hash hash' char k : Z) :
  hash = hash' + 2 ^ 32 * k ->
  PumpFunTokenCreator.hashStep hash char = toInt32 (31 * hash' + char).
Proof.
  intros ->. unfold PumpFunTokenCreator.hashStep, and32, shiftLeft32.
  rewrite Z.land_diag, !toInt32_idempotent, Z.shiftl_mul_pow2 by lia.
  destruct (toInt32_decompose (hash' + 2 ^ 32 * k)) as (k0 & ->).
  destruct (toInt32_decompose ((hash' + 2 ^ 32 * k + 2 ^ 32 * k0) * 2 ^ 5)) as (k1 & ->).
  apply (toInt32_congruent _ _ (32 * k + 32 * k0 + k1 - k)). lia.
Qed.

(** The loop of [hashMetadata] computes the polynomial of base 31 of the
    code units, wrapped to a signed 32-bit integer: the hash handed to
    [Math.abs] lies in the range of these integers, and its absolute value
    is at most [2^31]. *)
Theorem hashLoop_polynomial (data : list Z) :
  PumpFunTokenCreator.hashLoop data
  = toInt32 (fold_left (fun hash char => 31 * hash + char) data 0)
  /\ - 2 ^ 31 <= PumpFunTokenCreator.hashLoop data < 2 ^ 31
  /\ Z.abs (PumpFunTokenCreator.hashLoop data) <= 2 ^ 31.
Proof.
  assert (forall hash hash' k,
             hash = hash' + 2 ^ 32 * k ->
             exists k',
               fold_left PumpFunTokenCreator.hashStep data hash
               = fold_left (fun hash char => 31 * hash + char) data hash' + 2 ^ 32 * k')
    as Hloop.
  { induction data as [|char data IH]; intros hash hash' k Hk; cbn [fold_left].
    - exists k. exact Hk.
    - rewrite (hashStep_congruent hash hash' char k Hk).
      destruct (toInt32_decompose (31 * hash' + char)) as (k' & Hk').
      apply (IH _ _ k'). exact Hk'. }
  destruct (Hloop 0 0 0 ltac:(lia)) as (k & Hk).
  fold (PumpFunTokenCreator.hashLoop data) in Hk.
  assert (PumpFunTokenCreator.hashLoop data = toInt32 (PumpFunTokenCreator.hashLoop data))
    as Hwrapped.
  { unfold PumpFunTokenCreator.hashLoop.
    destruct data as [|char data] using rev_ind; [reflexivity|].
    rewrite fold_left_app. cbn [fold_left].
    unfold PumpFunTokenCreator.hashStep, and32.
    symmetry. apply toInt32_idempotent. }
  assert (PumpFunTokenCreator.hashLoop data
          = toInt32 (fold_left (fun hash char => 31 * hash + char) data 0)) as Heq.
  { rewrite Hwrapped. apply (toInt32_congruent _ _ k). exact Hk. }
  split; [exact Heq|].
  pose proof (toInt32_range (fold_left (fun hash char => 31 * hash + char) data 0)) as Hr.
  rewrite <- Heq in Hr. split; [exact Hr | lia].
Qed.

(** ** The creation of a token *)

Lemma bind_run {S A B} (m : M S A) (k : A -> M S B) (s s' : S) (a : A) :
  m s = (Ok a, s') -> bind m k s = k a s'.
Proof. unfold bind. now intros ->. Qed.

Lemma bind_throw {S A B} (m : M S A) (k : A -> M S B) (s s' : S) (e : JsError) :
  m s = (Throw e, s') -> bind m k s = (Throw e, s').
Proof. unfold bind. now intros ->. Qed.

(** The completed operations that count as sessions. *)
#[local] Abbreviation sessionsOf m :=
  (filter PerformanceMonitor.isSession (PerformanceMonitor.completedOperations m)).

Section MonitorSteps.
Import PerformanceMonitor.

Lemma endTracking_found (now : Z) (operation : string) (metadata' : option Metadata)
  (this : t) (metric : OperationMetric) :
  objectGet operation (operations this) = Some metric ->
  endTracking now operation metadata' this
  = (now - startTime metric,
     {| operations := mapDelete operation (operations this);
        completedOperations :=
          (completedOperations this
           ++ [{| name := name metric; startTime := startTime metric; endTime := Some now;
                  duration := Some (now - startTime metric);
                  metadata := Some (spread (metadata metric) metadata') |}])%list;
        startTimestamp := startTimestamp this |}).
Proof. unfold endTracking. now intros ->. Qed.

Lemma sessionsOf_snoc (completed : list OperationMetric) (op : OperationMetric) :
  filter isSession (completed ++ [op])
  = (filter isSession completed ++ (if isSession op then [op] else []))%list.
Proof. rewrite filter_app. simpl. now destruct (isSession op). Qed.

(** Ending an operation that was started under another name than that of
    the sessions adds no session. *)
Lemma sessionsOf_endTracking (now : Z) (operation : string) (metadata' : option Metadata)
  (this : t) (metric : OperationMetric) :
  objectGet operation (operations this) = Some metric ->
  name metric <> "session_metrics" ->
  sessionsOf (snd (endTracking now operation metadata' this)) = sessionsOf this.
Proof.
  intros Hfound Hname. rewrite (endTracking_found _ _ _ _ _ Hfound).
  cbn [snd completedOperations]. rewrite sessionsOf_snoc.
  unfold isSession at 2. cbn [name].
  apply String.eqb_neq in Hname. rewrite Hname. apply app_nil_r.
Qed.

Lemma operations_endTracking_other (now : Z) (operation other : string)
  (metadata' : option Metadata) (this : t) :
  other <> operation ->
  objectGet other (operations (snd (endTracking now operation metadata' this)))
  = objectGet other (operations this).
Proof.
  intros Hne. unfold endTracking.
  destruct (objectGet operation (operations this)); [|reflexivity].
  cbn [snd operations]. now apply objectGet_mapDelete_other.
Qed.

Lemma operations_startTracking_other (now : Z) (operation other : string)
  (metadata' : option Metadata) (this : t) :
  other <> operation ->
  objectGet other (operations (startTracking now operation metadata' this))
  = objectGet other (operations this).
Proof. intros Hne. now apply objectGet_objectSet_other. Qed.

Lemma operations_startTracking (now : Z) (operation : string)
  (metadata' : option Metadata) (this : t) :
  objectGet operation (operations (startTracking now operation metadata' this))
  = Some {| name := operation; startTime := now; endTime := None; duration := None;
            metadata := metadata' |}.
Proof. apply objectGet_objectSet. Qed.

(** Recording the metrics of a session adds one session, successful when
    the metrics say so. *)
Lemma sessionsOf_recordSessionMetrics (now now' : Z) (metrics : PerformanceMetrics.t)
  (this : t) :
  exists entry,
    sessionsOf (recordSessionMetrics now now' metrics this) = (sessionsOf this ++ [entry])%list
    /\ isSuccessful entry = PerformanceMetrics.success metrics.
Proof.
  unfold recordSessionMetrics. cbn [completedOperations].
  eexists. split; [rewrite sessionsOf_snoc; reflexivity|].
  unfold isSuccessful. simpl. now destruct (PerformanceMetrics.success metrics).
Qed.
End MonitorSteps.

(** The engine of the repository returns a result. *)
Lemma run_returns (web3 : Web3) (config : ConfigManager) (env : Env)
  (transaction : Transaction) (signers : list Keypair) :
  exists result,
    fst (TransactionExecutor.run web3 config env transaction signers) = Ok result.
Proof.
  destruct (new_settles web3 config env) as (Hj & Hb & Hn).
  destruct (executeWithStrategy_returns web3 (fallbackRpc env)
              (TransactionExecutor.new web3 config env) signers Hj Hb Hn
              (determineOptimalStrategy config) (mkSys transaction []))
    as (r & s' & Hrun & Hsettled & _).
  unfold TransactionExecutor.run. rewrite executeTransaction_run.
  change (TransactionExecutor.config (TransactionExecutor.new web3 config env)) with config.
  rewrite Hrun.
  destruct r as [r|e|]; [| |congruence].
  - destruct (success r); eexists; reflexivity.
  - eexists; reflexivity.
Qed.

Section CreateTokenFacts.
Variables (web3 : Web3) (xenv : Env) (cenv : CreatorEnv) (config : ConfigManagerInit.t).

#[local] Abbreviation engine :=
  (TransactionExecutor.new web3 (ConfigManagerInit.base config) xenv).
#[local] Abbreviation creatorSigners :=
  [wallet (ConfigManagerInit.base config); generate cenv].

Lemma startTracking_run (operation : string) (s : PumpFunTokenCreator.App) :
  PumpFunTokenCreator.startTracking cenv operation s
  = (Ok tt,
     PumpFunTokenCreator.mkApp
       (PerformanceMonitor.startTracking (timeAt cenv (PumpFunTokenCreator.ticks s))
          operation None (PumpFunTokenCreator.monitor s))
       (S (PumpFunTokenCreator.ticks s))).
Proof. reflexivity. Qed.

Lemma endTracking_run (operation : string) (s : PumpFunTokenCreator.App)
  (metric : PerformanceMonitor.OperationMetric) :
  objectGet operation (PerformanceMonitor.operations (PumpFunTokenCreator.monitor s))
  = Some metric ->
  PumpFunTokenCreator.endTracking cenv operation s
  = (Ok (timeAt cenv (PumpFunTokenCreator.ticks s) - PerformanceMonitor.startTime metric),
     PumpFunTokenCreator.mkApp
       (snd (PerformanceMonitor.endTracking (timeAt cenv (PumpFunTokenCreator.ticks s))
               operation None (PumpFunTokenCreator.monitor s)))
       (S (PumpFunTokenCreator.ticks s))).
Proof.
  intros Hfound. unfold PumpFunTokenCreator.endTracking, PumpFunTokenCreator.dateNow.
  unfold_js. rewrite Hfound. cbn [PumpFunTokenCreator.monitor PumpFunTokenCreator.ticks].
  now rewrite (endTracking_found _ _ _ _ _ Hfound).
Qed.

Lemma recordSessionMetrics_run (metrics : PerformanceMetrics.t) (s : PumpFunTokenCreator.App) :
  PumpFunTokenCreator.recordSessionMetrics cenv metrics s
  = (Ok tt,
     PumpFunTokenCreator.mkApp
       (PerformanceMonitor.recordSessionMetrics
          (timeAt cenv (PumpFunTokenCreator.ticks s))
          (timeAt cenv (S (PumpFunTokenCreator.ticks s))) metrics
          (PumpFunTokenCreator.monitor s))
       (S (S (PumpFunTokenCreator.ticks s)))).
Proof. reflexivity. Qed.

Lemma uploadMetadata_run (data : list Z) (s : PumpFunTokenCreator.App) :
  PumpFunTokenCreator.uploadMetadata cenv data s
  = (Ok ("https://arweave.net/"
         ++ toString36 (Z.abs (PumpFunTokenCreator.hashLoop data))
         ++ toString36 (timeAt cenv (PumpFunTokenCreator.ticks s))),
     PumpFunTokenCreator.mkApp (PumpFunTokenCreator.monitor s)
       (S (PumpFunTokenCreator.ticks s))).
Proof. reflexivity. Qed.

#[local] Abbreviation built := tokenCreationTransaction.
#[local] Abbreviation fault := (buildFault cenv).

Lemma buildTokenCreationTransaction_run (s : PumpFunTokenCreator.App) :
  PumpFunTokenCreator.buildTokenCreationTransaction cenv (generate cenv) s
  = (match fault with
     | Some e => Throw e
     | None => Ok built
     end, s).
Proof.
  unfold PumpFunTokenCreator.buildTokenCreationTransaction, buildFault. unfold_js.
  destruct (getMinimumBalanceForRentExemptMint cenv); [|reflexivity].
  destruct (getAssociatedTokenAddress cenv); [|reflexivity].
  destruct (findProgramAddressSync cenv); reflexivity.
Qed.

Lemma transactionBuildTime_run (s : PumpFunTokenCreator.App) :
  PumpFunTokenCreator.transactionBuildTime s
  = (Ok match objectGet "transaction_build"
                (PerformanceMonitor.getMetrics (PumpFunTokenCreator.monitor s)) with
        | Some d => d
        | None => 0
        end, s).
Proof. reflexivity. Qed.

Lemma executeOptimal_run (transaction : Transaction) (s : PumpFunTokenCreator.App) :
  PumpFunTokenCreator.executeOptimal web3 (fallbackRpc xenv) engine transaction
    creatorSigners s
  = (fst (TransactionExecutor.run web3 (ConfigManagerInit.base config) xenv transaction
            creatorSigners), s).
Proof. reflexivity. Qed.

(** What the [catch] of [createToken] does with a fault. *)
#[local] Abbreviation failed startTime now buildTime e :=
  {| CreateTokenResult.success := false;
     CreateTokenResult.tokenMint := None;
     CreateTokenResult.signature := None;
     CreateTokenResult.metrics :=
       {| PerformanceMetrics.totalExecutionTime := now - startTime;
          PerformanceMetrics.transactionBuildTime := buildTime;
          PerformanceMetrics.networkSubmissionTime := 0;
          PerformanceMetrics.confirmationTime := 0;
          PerformanceMetrics.success := false;
          PerformanceMetrics.signature := None;
          PerformanceMetrics.error := Some (errorMessage e);
          PerformanceMetrics.provider := None |};
     CreateTokenResult.error := Some (errorMessage e) |}.

(** The run of [createToken] in each of its four courses: the result, and
    the sessions that the monitor has recorded when it returns. *)
Lemma createToken_run (data : list Z) (s : PumpFunTokenCreator.App) :
  exists result s' entries,
    PumpFunTokenCreator.createToken web3 (fallbackRpc xenv) cenv config engine data s
    = (Ok result, s')
    /\ sessionsOf (PumpFunTokenCreator.monitor s')
       = (sessionsOf (PumpFunTokenCreator.monitor s) ++ entries)%list
    /\ (ConfigManagerInit.validateConfiguration config = false ->
        List.length entries = 1%nat
        /\ filter PerformanceMonitor.isSuccessful entries = []
        /\ CreateTokenResult.success result = false
        /\ CreateTokenResult.error result = Some "Configuration validation failed")
    /\ (forall e,
           ConfigManagerInit.validateConfiguration config = true ->
           fault = Some e ->
           List.length entries = 1%nat
           /\ filter PerformanceMonitor.isSuccessful entries = []
           /\ CreateTokenResult.success result = false
           /\ CreateTokenResult.error result = Some (errorMessage e))
    /\ (forall r,
           ConfigManagerInit.validateConfiguration config = true ->
           fault = None ->
           fst (TransactionExecutor.run web3 (ConfigManagerInit.base config) xenv built
                  creatorSigners) = Ok r ->
           if success r then
             List.length entries = 1%nat
             /\ List.length (filter PerformanceMonitor.isSuccessful entries) = 1%nat
             /\ CreateTokenResult.success result = true
             /\ CreateTokenResult.signature result = signature r
             /\ CreateTokenResult.tokenMint result = Some (generate cenv)
             /\ CreateTokenResult.error result = None
           else
             List.length entries = 2%nat
             /\ filter PerformanceMonitor.isSuccessful entries = []
             /\ CreateTokenResult.success result = false
             /\ CreateTokenResult.error result
                = Some (orString (error r) "Token creation failed")).
Proof.
  unfold PumpFunTokenCreator.createToken.
  erewrite bind_run by reflexivity.
  erewrite bind_run by apply startTracking_run.
  unfold try_catch.
  cbn [PumpFunTokenCreator.monitor PumpFunTokenCreator.ticks].
  destruct (ConfigManagerInit.validateConfiguration config) eqn:Hvalid; cbn [negb].
  2: {
    erewrite bind_throw by reflexivity.
    erewrite bind_run by reflexivity.
    erewrite bind_run by apply transactionBuildTime_run.
    erewrite bind_run by apply recordSessionMetrics_run.
    cbn [PumpFunTokenCreator.monitor PumpFunTokenCreator.ticks].
    match goal with
    | |- context [PerformanceMonitor.recordSessionMetrics ?a ?b ?m ?this] =>
        destruct (sessionsOf_recordSessionMetrics a b m this) as (entry & Hsessions & Hentry)
    end.
    do 2 eexists. exists [entry]. split; [reflexivity|].
    cbn [PumpFunTokenCreator.monitor]. split; [exact Hsessions|].
    cbn [filter]. rewrite Hentry. cbn.
    split; [auto|]. split; [intros e H; discriminate H|]. intros r H; discriminate H. }
  erewrite bind_run by reflexivity.
  erewrite bind_run by apply startTracking_run.
  cbn [PumpFunTokenCreator.monitor PumpFunTokenCreator.ticks].
  erewrite bind_run by apply uploadMetadata_run.
  cbn [PumpFunTokenCreator.monitor PumpFunTokenCreator.ticks].
  destruct fault as [thrown|] eqn:Hbuilt.
  { erewrite bind_throw by (rewrite buildTokenCreationTransaction_run, Hbuilt; reflexivity).
    erewrite bind_run by reflexivity.
    erewrite bind_run by apply transactionBuildTime_run.
    erewrite bind_run by apply recordSessionMetrics_run.
    cbn [PumpFunTokenCreator.monitor PumpFunTokenCreator.ticks].
    match goal with
    | |- context [PerformanceMonitor.recordSessionMetrics ?a ?b ?m ?this] =>
        destruct (sessionsOf_recordSessionMetrics a b m this) as (entry & Hsessions & Hentry)
    end.
    do 2 eexists. exists [entry]. split; [reflexivity|].
    cbn [PumpFunTokenCreator.monitor]. split; [exact Hsessions|].
    cbn [filter]. rewrite Hentry. cbn.
    split; [intros H; discriminate H|].
    split; [intros e _ [= <-]; auto|]. intros r _ H; discriminate H. }
  erewrite bind_run by (rewrite buildTokenCreationTransaction_run, Hbuilt; reflexivity).
  erewrite bind_run by (apply endTracking_run; apply operations_startTracking).
  cbn [PumpFunTokenCreator.monitor PumpFunTokenCreator.ticks].
  erewrite bind_run by apply startTracking_run.
  cbn [PumpFunTokenCreator.monitor PumpFunTokenCreator.ticks].
  destruct (run_returns web3 (ConfigManagerInit.base config) xenv built creatorSigners)
    as (r & Hrun).
  erewrite bind_run by (rewrite executeOptimal_run, Hrun; reflexivity).
  erewrite bind_run by (apply endTracking_run; apply operations_startTracking).
  cbn [PumpFunTokenCreator.monitor PumpFunTokenCreator.ticks].
  match goal with
  | |- context [PumpFunTokenCreator.mkApp ?m _] =>
      match m with
      | snd (PerformanceMonitor.endTracking _ "execution" _ _) => set (tracked := m)
      end
  end.
  assert (exists metric,
             objectGet "total_execution" (PerformanceMonitor.operations tracked) = Some metric
             /\ PerformanceMonitor.name metric = "total_execution") as (metric & Hfound & Hname).
  { eexists. split.
    - subst tracked.
      rewrite operations_endTracking_other, operations_startTracking_other,
        operations_endTracking_other, operations_startTracking_other by discriminate.
      apply operations_startTracking.
    - reflexivity. }
  assert (sessionsOf tracked = sessionsOf (PumpFunTokenCreator.monitor s)) as Htracked.
  { subst tracked.
    erewrite sessionsOf_endTracking;
      [|apply operations_startTracking | discriminate].
    change (sessionsOf (PerformanceMonitor.startTracking ?t ?o ?m ?this))
      with (sessionsOf this).
    erewrite sessionsOf_endTracking;
      [|apply operations_startTracking | discriminate].
    reflexivity. }
  assert (sessionsOf (snd (PerformanceMonitor.endTracking
                             (timeAt cenv
                                (S (S (S (S (S (S (S (PumpFunTokenCreator.ticks s)))))))))
                             "total_execution" None tracked))
          = sessionsOf (PumpFunTokenCreator.monitor s)) as Hended.
  { rewrite <- Htracked. apply (sessionsOf_endTracking _ _ _ _ metric Hfound).
    rewrite Hname. discriminate. }
  clearbody tracked.
  erewrite bind_run by (apply endTracking_run; exact Hfound).
  cbn [PumpFunTokenCreator.monitor PumpFunTokenCreator.ticks].
  erewrite bind_run by apply transactionBuildTime_run.
  erewrite bind_run by apply recordSessionMetrics_run.
  cbn [PumpFunTokenCreator.monitor PumpFunTokenCreator.ticks].
  match goal with
  | |- context [PerformanceMonitor.recordSessionMetrics ?a ?b ?m ?this] =>
      destruct (sessionsOf_recordSessionMetrics a b m this) as (first & Hfirst & Hentry);
      set (recorded := PerformanceMonitor.recordSessionMetrics a b m this) in *
  end.
  cbn [PerformanceMetrics.success] in Hentry.
  rewrite Hended in Hfirst. clearbody recorded.
  destruct (success r) eqn:Hsuccess.
  - unfold ret at 1.
    do 2 eexists. exists [first]. split; [reflexivity|].
    cbn [PumpFunTokenCreator.monitor]. split; [exact Hfirst|].
    split; [intros H; discriminate H|].
    split; [intros e _ H; discriminate H|].
    intros r0 _ _ Hr0. rewrite Hrun in Hr0. injection Hr0 as <-. rewrite Hsuccess.
    cbn [filter]. rewrite Hentry. cbn. auto 10.
  - unfold throw at 1.
    erewrite bind_run by reflexivity.
    erewrite bind_run by apply transactionBuildTime_run.
    erewrite bind_run by apply recordSessionMetrics_run.
    cbn [PumpFunTokenCreator.monitor PumpFunTokenCreator.ticks].
    match goal with
    | |- context [PerformanceMonitor.recordSessionMetrics ?a ?b ?m recorded] =>
        destruct (sessionsOf_recordSessionMetrics a b m recorded)
          as (second & Hsecond & Hentry')
    end.
    cbn [PerformanceMetrics.success] in Hentry'.
    do 2 eexists. exists [first; second]. split; [reflexivity|].
    cbn [PumpFunTokenCreator.monitor]. split.
    { rewrite Hsecond, Hfirst, <- app_assoc. reflexivity. }
    split; [intros H; discriminate H|].
    split; [intros e _ H; discriminate H|].
    intros r0 _ _ Hr0. rewrite Hrun in Hr0. injection Hr0 as <-. rewrite Hsuccess.
    cbn [filter]. rewrite Hentry, Hentry'. cbn. auto 10.
Qed.
End CreateTokenFacts.

(** [createToken] never throws: it returns a result, and the monitor has
    recorded the call when it returns. An invalid configuration, and a
    fault that stops the building of the transaction, give a failure with
    the message of the fault, recorded as exactly one failed session. When
    the transaction is built the engine returns a result. Its success is
    the success of [createToken], with its signature and the new mint,
    recorded as exactly one successful session. Its failure is a failure of
    [createToken] with the error of the engine, recorded as exactly two
    failed sessions: the metrics are recorded before the failure is raised
    and once more when it is caught. *)
Theorem createToken_sessions
  (web3 : Web3) (xenv : Env) (cenv : CreatorEnv) (config : ConfigManagerInit.t)
  (data : list Z) (s : PumpFunTokenCreator.App) :
  let engine := TransactionExecutor.new web3 (ConfigManagerInit.base config) xenv in
  let signers := [wallet (ConfigManagerInit.base config); generate cenv] in
  let valid := ConfigManagerInit.validateConfiguration config in
  let before := PerformanceMonitor.getSessionStatistics (PumpFunTokenCreator.monitor s) in
  exists result s' r,
    PumpFunTokenCreator.createToken web3 (fallbackRpc xenv) cenv config engine data s
    = (Ok result, s')
    /\ fst (TransactionExecutor.run web3 (ConfigManagerInit.base config) xenv
              tokenCreationTransaction signers) = Ok r
    /\ let after :=
         PerformanceMonitor.getSessionStatistics (PumpFunTokenCreator.monitor s') in
       let recorded (sessions successful : Z) :=
         SessionStatistics.totalSessions after
         = SessionStatistics.totalSessions before + sessions
         /\ SessionStatistics.successfulSessions after
            = SessionStatistics.successfulSessions before + successful
         /\ SessionStatistics.failedSessions after
            = SessionStatistics.failedSessions before + (sessions - successful) in
       (valid = false ->
        CreateTokenResult.success result = false
        /\ CreateTokenResult.error result = Some "Configuration validation failed"
        /\ recorded 1 0)
       /\ (forall e,
              valid = true -> buildFault cenv = Some e ->
              CreateTokenResult.success result = false
              /\ CreateTokenResult.error result = Some (errorMessage e)
              /\ recorded 1 0)
       /\ (valid = true -> buildFault cenv = None -> success r = true ->
           CreateTokenResult.success result = true
           /\ CreateTokenResult.signature result = signature r
           /\ CreateTokenResult.tokenMint result = Some (generate cenv)
           /\ CreateTokenResult.error result = None
           /\ recorded 1 1)
       /\ (valid = true -> buildFault cenv = None -> success r = false ->
           CreateTokenResult.success result = false
           /\ CreateTokenResult.error result
              = Some (orString (error r) "Token creation failed")
           /\ recorded 2 0)
       /\ (CreateTokenResult.success result = true
           <-> valid = true /\ buildFault cenv = None /\ success r = true)
       /\ (CreateTokenResult.success result = false ->
           exists message, CreateTokenResult.error result = Some message).
Proof.
  intros engine signers valid before.
  destruct (createToken_run web3 xenv cenv config data s)
    as (result & s' & entries & Hrun & Hsessions & Hinvalid & Hfault & Hengine).
  destruct (run_returns web3 (ConfigManagerInit.base config) xenv tokenCreationTransaction
              signers) as (r & Hr).
  exists result, s', r. split; [exact Hrun|]. split; [exact Hr|].
  intros after recorded.
  assert (forall sessions successful,
             Z.of_nat (List.length entries) = sessions ->
             Z.of_nat (List.length (filter PerformanceMonitor.isSuccessful entries))
             = successful ->
             recorded sessions successful) as Hrecorded.
  { intros sessions successful <- <-. subst recorded after before.
    unfold PerformanceMonitor.getSessionStatistics.
    cbn [SessionStatistics.totalSessions SessionStatistics.successfulSessions
         SessionStatistics.failedSessions].
    rewrite Hsessions, filter_app, !length_app. repeat split; lia. }
  specialize (Hengine r). fold valid in Hinvalid, Hfault, Hengine.
  destruct valid eqn:Hvalid.
  2: {
    destruct (Hinvalid eq_refl) as (Hlen & Hnone & Hs & Herr).
    split; [intros _; repeat (split; [assumption|]);
            apply Hrecorded; [rewrite Hlen | rewrite Hnone]; reflexivity|].
    split; [intros e H; discriminate H|].
    split; [intros H; discriminate H|].
    split; [intros H; discriminate H|].
    split; [split; [congruence | intros (H & _); discriminate H]|].
    intros _. eauto. }
  clear Hinvalid.
  destruct (buildFault cenv) as [fault|] eqn:Hbuilt.
  { destruct (Hfault fault eq_refl eq_refl) as (Hlen & Hnone & Hs & Herr).
    split; [intros H; discriminate H|].
    split; [intros e _ [= <-]; repeat (split; [assumption|]);
            apply Hrecorded; [rewrite Hlen | rewrite Hnone]; reflexivity|].
    split; [intros _ H; discriminate H|].
    split; [intros _ H; discriminate H|].
    split; [split; [congruence | intros (_ & H & _); discriminate H]|].
    intros _. eauto. }
  clear Hfault. specialize (Hengine eq_refl eq_refl Hr).
  destruct (success r) eqn:Hsuccess.
  - destruct Hengine as (Hlen & Hone & Hs & Hsig & Hmint & Herr).
    split; [intros H; discriminate H|].
    split; [intros e _ H; discriminate H|].
    split; [intros _ _ _; repeat (split; [assumption|]);
            apply Hrecorded; [rewrite Hlen | rewrite Hone]; reflexivity|].
    split; [intros _ _ H; discriminate H|].
    split; [split; auto|].
    intros H. congruence.
  - destruct Hengine as (Hlen & Hnone & Hs & Herr).
    split; [intros H; discriminate H|].
    split; [intros e _ H; discriminate H|].
    split; [intros _ _ H; discriminate H|].
    split; [intros _ _ _; repeat (split; [assumption|]);
            apply Hrecorded; [rewrite Hlen | rewrite Hnone]; reflexivity|].
    split; [split; [congruence | intros (_ & _ & H); discriminate H]|].
    intros _. eauto.
Qed.

(** The theorem above on a creator that has not been used, with Jito alone
    enabled and its endpoints refusing the bundle: one failed call leaves
    two failed sessions in the statistics. *)
Lemma createToken_sessions_witness :
  exists result s',
    PumpFunTokenCreator.createToken Sim.web3
      (fallbackRpc (Sim.env (Sim.jitoRefused 50) (Sim.bloxRouteOk 80) (Sim.nozomiOk 90)
                      (Sim.flaky 0)))
      SimCreator.creatorEnv SimCreator.configuration
      (TransactionExecutor.new Sim.web3 (ConfigManagerInit.base SimCreator.configuration)
         (Sim.env (Sim.jitoRefused 50) (Sim.bloxRouteOk 80) (Sim.nozomiOk 90) (Sim.flaky 0)))
      [] SimCreator.fresh = (Ok result, s')
    /\ CreateTokenResult.success result = false
    /\ CreateTokenResult.error result = Some "All Jito endpoints failed. Errors: timeout"
    /\ SessionStatistics.totalSessions
         (PerformanceMonitor.getSessionStatistics (PumpFunTokenCreator.monitor s')) = 2
    /\ SessionStatistics.failedSessions
         (PerformanceMonitor.getSessionStatistics (PumpFunTokenCreator.monitor s')) = 2.
Proof.
  destruct (createToken_sessions Sim.web3
              (Sim.env (Sim.jitoRefused 50) (Sim.bloxRouteOk 80) (Sim.nozomiOk 90)
                 (Sim.flaky 0))
              SimCreator.creatorEnv SimCreator.configuration [] SimCreator.fresh)
    as (result & s' & r & Hrun & Hr & _ & _ & _ & Hfailure & _).
  exists result, s'. split; [exact Hrun|].
  injection Hr as <-.
  destruct (Hfailure eq_refl eq_refl eq_refl) as (Hsuccess & Herror & Htotal & _ & Hfailed).
  repeat split; assumption.
Defined.
